(** * mini-rag: the document store, the chunker and the services around them

    A shallow embedding of [backend/app/services/*.py] and of the parts of
    [config.py] and [models/schemas.py] they read.

    Conventions.  A Python [str] is the list of its code points, a Python
    [int] is a [Z], a [dict] is the list of its items in insertion order, and
    the file system, the in-memory index and the log of LLM requests form an
    explicit [world] threaded through a small state-and-exception monad.
    A file is kept as a read in text mode returns it; opening a file for
    writing and removing a file raise where the operating system refuses.
    [str.lower], [Path.suffix], the format parsers, the LLM endpoint and the
    directories of the host live outside the repository and are taken as
    parameters. *)

From Stdlib Require Import ZArith NArith List Bool Lia String Ascii Sorted Permutation FunInd.
Import ListNotations.
Open Scope Z_scope.

(** ** Python built-ins used by the services *)
Module Py.

Definition char := N.
Definition str := list char.

(** Literals are written in UTF-8 and decoded to code points. *)
Fixpoint utf8_decode (bs : list N) : str :=
  match bs with
  | [] => []
  | b0 :: r0 =>
      if (b0 <? 128)%N then b0 :: utf8_decode r0
      else
        match r0 with
        | [] => [b0]
        | b1 :: r1 =>
            if (b0 <? 224)%N
            then ((b0 - 192) * 64 + (b1 - 128))%N :: utf8_decode r1
            else
              match r1 with
              | [] => [b0; b1]
              | b2 :: r2 =>
                  if (b0 <? 240)%N
                  then ((b0 - 224) * 4096 + (b1 - 128) * 64 + (b2 - 128))%N
                       :: utf8_decode r2
                  else
                    match r2 with
                    | [] => [b0; b1; b2]
                    | b3 :: r3 =>
                        ((b0 - 240) * 262144 + (b1 - 128) * 4096
                         + (b2 - 128) * 64 + (b3 - 128))%N
                        :: utf8_decode r3
                    end
              end
        end
  end.
Definition U (s : string) : str :=
  utf8_decode (map N_of_ascii (list_ascii_of_string s)).

(** [bytes.decode('utf-8')], which is strict: [None] where Python raises
    [UnicodeDecodeError] (a stray or missing continuation byte, an overlong
    form, a surrogate, a value above U+10FFFF). *)
Definition continuation (b : N) : bool := ((128 <=? b) && (b <=? 191))%N.

Fixpoint decode_utf8 (bs : list N) : option str :=
  match bs with
  | [] => Some []
  | b0 :: r0 =>
      if (b0 <? 128)%N then option_map (cons b0) (decode_utf8 r0)
      else if ((194 <=? b0) && (b0 <=? 223))%N then
        match r0 with
        | b1 :: r1 =>
            if continuation b1
            then option_map (cons ((b0 - 192) * 64 + (b1 - 128))%N)
                            (decode_utf8 r1)
            else None
        | _ => None
        end
      else if ((224 <=? b0) && (b0 <=? 239))%N then
        match r0 with
        | b1 :: b2 :: r2 =>
            if continuation b1 && continuation b2
               && (negb (b0 =? 224) || (160 <=? b1))
               && (negb (b0 =? 237) || (b1 <=? 159))
            then option_map
                   (cons ((b0 - 224) * 4096 + (b1 - 128) * 64 + (b2 - 128)))
                   (decode_utf8 r2)
            else None
        | _ => None
        end
      else if ((240 <=? b0) && (b0 <=? 244))%N then
        match r0 with
        | b1 :: b2 :: b3 :: r3 =>
            if continuation b1 && continuation b2 && continuation b3
               && (negb (b0 =? 240) || (144 <=? b1))
               && (negb (b0 =? 244) || (b1 <=? 143))
            then option_map
                   (cons ((b0 - 240) * 262144 + (b1 - 128) * 4096
                          + (b2 - 128) * 64 + (b3 - 128)))
                   (decode_utf8 r3)
            else None
        | _ => None
        end
      else None
  end%N.

(** What a text-mode [read()] makes of the decoded text: with the default
    [newline=None] every [\r\n] and every other [\r] comes back as [\n]. *)
Function universal_newlines (s : str) {struct s} : str :=
  match s with
  | [] => []
  | c :: rest =>
      if (c =? 13)%N then
        match rest with
        | c' :: rest' =>
            if (c' =? 10)%N then 10%N :: universal_newlines rest'
            else 10%N :: universal_newlines rest
        | [] => [10%N]
        end
      else c :: universal_newlines rest
  end.

Definition len {A} (l : list A) : Z := Z.of_nat (List.length l).

Definition truthy {A} (l : list A) : bool :=
  match l with [] => false | _ :: _ => true end.

Definition char_eqb (a b : char) : bool := N.eqb a b.

Fixpoint str_eqb (a b : str) : bool :=
  match a, b with
  | [], [] => true
  | x :: a', y :: b' => char_eqb x y && str_eqb a' b'
  | _, _ => false
  end.

Definition str_mem (s : str) (l : list str) : bool := existsb (str_eqb s) l.

(** [str.isspace] on one code point (CPython's [_PyUnicode_IsWhitespace]). *)
Definition is_space (c : char) : bool :=
  (((9 <=? c) && (c <=? 13)) || ((28 <=? c) && (c <=? 32))
   || (c =? 133) || (c =? 160) || (c =? 5760)
   || ((8192 <=? c) && (c <=? 8202))
   || (c =? 8232) || (c =? 8233) || (c =? 8239) || (c =? 8287)
   || (c =? 12288))%N.

Fixpoint lstrip_with (p : char -> bool) (s : str) : str :=
  match s with
  | [] => []
  | c :: s' => if p c then lstrip_with p s' else s
  end.

Definition rstrip_with (p : char -> bool) (s : str) : str :=
  rev (lstrip_with p (rev s)).

Definition strip_with (p : char -> bool) (s : str) : str :=
  rstrip_with p (lstrip_with p s).

(** [s.strip()], [s.strip(chars)], [s.lstrip(chars)] *)
Definition strip (s : str) : str := strip_with is_space s.
Definition strip_chars (chars s : str) : str :=
  strip_with (fun c => existsb (char_eqb c) chars) s.
Definition lstrip_chars (chars s : str) : str :=
  lstrip_with (fun c => existsb (char_eqb c) chars) s.

(** [s.split()]: maximal runs of non-whitespace, in order. *)
Fixpoint split_ws_aux (cur : str) (s : str) : list str :=
  match s with
  | [] => if truthy cur then [rev cur] else []
  | c :: s' =>
      if is_space c
      then (if truthy cur then rev cur :: split_ws_aux [] s'
            else split_ws_aux [] s')
      else split_ws_aux (c :: cur) s'
  end.
Definition split_ws (s : str) : list str := split_ws_aux [] s.

Fixpoint starts_with (sub s : str) : bool :=
  match sub, s with
  | [], _ => true
  | _ :: _, [] => false
  | x :: sub', y :: s' => char_eqb x y && starts_with sub' s'
  end.

(** [sub in s] *)
Fixpoint str_in (sub s : str) : bool :=
  starts_with sub s ||
  match s with
  | [] => false
  | _ :: s' => str_in sub s'
  end.

(** [s.split(sep)] and [s.split(sep, maxsplit)] for a non-empty [sep]:
    leftmost non-overlapping occurrences; [maxsplit = None] is unbounded. *)
Fixpoint split_on_aux (sep : str) (maxsplit : option nat) (skip : nat)
         (cur : str) (s : str) : list str :=
  match s with
  | [] => [rev cur]
  | c :: s' =>
      match skip with
      | S k => split_on_aux sep maxsplit k cur s'
      | O =>
          let may := match maxsplit with Some O => false | _ => true end in
          if may && starts_with sep s
          then rev cur ::
               match List.length sep with
               | O => []
               | S k =>
                   let m := option_map Nat.pred maxsplit in
                   match skipn k s' with
                   | [] => [[]]
                   | _ :: _ => split_on_aux sep m k [] s'
                   end
               end
          else split_on_aux sep maxsplit O (c :: cur) s'
      end
  end.
Definition split_on (sep s : str) : list str := split_on_aux sep None O [] s.
Definition split_on_max (sep s : str) (maxsplit : nat) : list str :=
  split_on_aux sep (Some maxsplit) O [] s.

(** [sep.join(parts)] *)
Fixpoint join (sep : str) (parts : list str) : str :=
  match parts with
  | [] => []
  | [p] => p
  | p :: rest => p ++ sep ++ join sep rest
  end.

(** Slice bounds as CPython adjusts them for a step of 1. *)
Definition adjust_index (i n : Z) : Z :=
  if i <? 0 then Z.max 0 (i + n) else Z.min i n.

(** [l[start:stop]] and [l[:stop]] *)
Definition slice {A} (l : list A) (start stop : Z) : list A :=
  let a := adjust_index start (len l) in
  let b := adjust_index stop (len l) in
  firstn (Z.to_nat (b - a)) (skipn (Z.to_nat a) l).
Definition slice_to {A} (l : list A) (stop : Z) : list A := slice l 0 stop.

(** [s.rfind(sub, start, end)]: the highest index in the adjusted window
    at which [sub] occurs entirely inside the window, or -1. *)
Fixpoint rfind_down (sub s : str) (lo : Z) (k : nat) : Z :=
  match k with
  | O => -1
  | S k' =>
      let i := lo + Z.of_nat k' in
      if starts_with sub (skipn (Z.to_nat i) s) then i
      else rfind_down sub s lo k'
  end.
Definition rfind (sub s : str) (start stop : Z) : Z :=
  let n := len s in
  let b := if stop >? n then n
           else if stop <? 0 then Z.max 0 (stop + n) else stop in
  let a := if start <? 0 then Z.max 0 (start + n) else start in
  if b - a <? len sub then -1
  else rfind_down sub s a (Z.to_nat (b - a - len sub + 1)).

(** [str(n)] for an [int] *)
Definition digit (d : Z) : char := Z.to_N (48 + d).
Fixpoint decimal_aux (fuel : nat) (n : Z) (acc : str) : str :=
  match fuel with
  | O => acc
  | S f =>
      if n <? 10 then digit n :: acc
      else decimal_aux f (n / 10) (digit (n mod 10) :: acc)
  end.
Definition str_of_int (n : Z) : str :=
  if n <? 0 then U "-" ++ decimal_aux (Z.to_nat (- n)) (- n) []
  else decimal_aux (S (Z.to_nat n)) n [].

(** [s.replace(old, new)] for a pattern [old] of one character *)
Definition replace_char (old : char) (new : str) (s : str) : str :=
  flat_map (fun c => if char_eqb c old then new else [c]) s.

(** A dict is the list of its items in insertion order, keys distinct. *)
Definition dict (V : Type) := list (str * V).

Definition dict_get {V} (d : dict V) (k : str) : option V :=
  option_map snd (find (fun kv => str_eqb (fst kv) k) d).
Definition dict_mem {V} (d : dict V) (k : str) : bool :=
  existsb (fun kv => str_eqb (fst kv) k) d.
(** [del d[k]] *)
Definition dict_del {V} (d : dict V) (k : str) : dict V :=
  filter (fun kv => negb (str_eqb (fst kv) k)) d.
(** [d[k] = v]: an existing key keeps its position, a new one goes last. *)
Fixpoint dict_set {V} (d : dict V) (k : str) (v : V) : dict V :=
  match d with
  | [] => [(k, v)]
  | (k', v') :: d' =>
      if str_eqb k' k then (k, v) :: d' else (k', v') :: dict_set d' k v
  end.
Definition dict_wf {V} (d : dict V) : Prop := NoDup (map fst d).

End Py.
Import Py.


(** ** config.py *)
Module Config.

Record Settings := {
  azure_ai_model_name : str;
  azure_openai_deployment_name : option str;
  chunk_size : Z;
  chunk_overlap : Z;
  max_file_size : Z;
  allowed_extensions : str;
  data_dir : str;
  uploads_dir : str
}.

(** The field defaults of [class Settings]. *)
Definition defaults : Settings := {|
  azure_ai_model_name := U "gpt-4";
  azure_openai_deployment_name := None;
  chunk_size := 1000;
  chunk_overlap := 200;
  max_file_size := 10485760;
  allowed_extensions := U "pdf,txt,docx,md";
  data_dir := U "/app/data";
  uploads_dir := U "/app/data/uploads"
|}.

Definition allowed_extensions_list (s : Settings) : list str :=
  map strip (split_on (U ",") (allowed_extensions s)).

End Config.
Import Config.

(** ** Results of effectful calls *)
Inductive outcome (A : Type) : Type :=
| Ok (a : A)          (* the call returns [a] *)
| Raise (msg : str)   (* the call raises an exception whose text is [msg] *)
| Hang.               (* the call never returns *)
Arguments Ok {A} a.
Arguments Raise {A} msg.
Arguments Hang {A}.

(** ** What lies outside the repository

    [lower] is [str.lower]; [path_suffix] is [Path(p).suffix];
    [pdf_pages] and [docx_paragraphs] parse the bytes of an upload into the
    texts of its pages or paragraphs and [markdown_get_text] renders Markdown
    and extracts the text of the HTML; [openai_client] tells whether a client
    was configured; [chat_completion]
    is the hosted chat endpoint (model, system message, prompt, max_tokens);
    [uuid4] and [isoformat] turn the successive draws of the random source
    and readings of the clock into strings; [loop_budget] bounds the number
    of chunker iterations that are run before a call is reported as [Hang].
    [creatable p] tells whether the directory part of the path [p] names a
    directory of the host, so that [open(p, 'w')] can create the file: the
    services make their directories when they start and neither make nor
    remove one afterwards. *)
Class Env := {
  settings : Settings;
  lower : str -> str;
  path_suffix : str -> str;
  creatable : str -> bool;
  pdf_pages : str -> outcome (list str);
  docx_paragraphs : str -> outcome (list str);
  markdown_get_text : str -> outcome str;
  openai_client : bool;
  chat_completion : str -> str -> str -> Z -> outcome str;
  uuid4 : nat -> str;
  isoformat : nat -> str;
  loop_budget : nat
}.

(** ** The state the services act on *)
(** What is found at a path.  The content of a file is kept as a read in
    text mode returns it: decoded, and with its line ends translated. *)
Inductive file : Type :=
| Readable (data : str)   (* a file that opens and decodes; a text-mode
                             [read()] returns [data] *)
| Unreadable              (* a file whose bytes are not UTF-8: a text-mode
                             [read()] raises *)
| Directory.              (* a directory: [open] and [os.remove] raise *)

Inductive value : Type :=
| VStr (s : str)
| VInt (n : Z).

(** One entry of [documents_index], with the keys [add_document] writes. *)
Record doc_info := {
  filename : str;
  markdown_file : str;
  upload_time : str;
  content_length : Z;
  chunks_count : Z;
  metadata : dict value
}.

Record world := {
  documents_index : dict doc_info;           (* [self.documents_index] *)
  disk : dict file;                          (* path to what is found there *)
  documents_json : option (dict doc_info);   (* what [documents.json] holds *)
  llm_requests : list (str * str * str * Z); (* requests sent so far *)
  clock : nat;                               (* readings of the clock so far *)
  entropy : nat;                             (* uuids drawn so far *)
  raw : dict (list N)                        (* path to bytes, for the files
                                                written in binary mode *)
}.

Definition with_index (w : world) (ix : dict doc_info) : world :=
  {| documents_index := ix; disk := disk w;
     documents_json := documents_json w; llm_requests := llm_requests w;
     clock := clock w; entropy := entropy w;
     raw := raw w |}.
Definition with_disk (w : world) (d : dict file) : world :=
  {| documents_index := documents_index w; disk := d;
     documents_json := documents_json w; llm_requests := llm_requests w;
     clock := clock w; entropy := entropy w;
     raw := raw w |}.
Definition with_documents_json (w : world) (j : option (dict doc_info)) : world :=
  {| documents_index := documents_index w; disk := disk w;
     documents_json := j; llm_requests := llm_requests w;
     clock := clock w; entropy := entropy w;
     raw := raw w |}.
Definition with_llm_requests (w : world) (l : list (str * str * str * Z)) : world :=
  {| documents_index := documents_index w; disk := disk w;
     documents_json := documents_json w; llm_requests := l;
     clock := clock w; entropy := entropy w;
     raw := raw w |}.
Definition with_clock (w : world) (c : nat) : world :=
  {| documents_index := documents_index w; disk := disk w;
     documents_json := documents_json w; llm_requests := llm_requests w;
     clock := c; entropy := entropy w;
     raw := raw w |}.
Definition with_entropy (w : world) (e : nat) : world :=
  {| documents_index := documents_index w; disk := disk w;
     documents_json := documents_json w; llm_requests := llm_requests w;
     clock := clock w; entropy := e;
     raw := raw w |}.
Definition with_raw (w : world) (r : dict (list N)) : world :=
  {| documents_index := documents_index w; disk := disk w;
     documents_json := documents_json w; llm_requests := llm_requests w;
     clock := clock w; entropy := entropy w;
     raw := r |}.

(** ** The monad of service calls *)
Module Eff.

Definition M (A : Type) : Type := world -> outcome A * world.

Definition ret {A} (a : A) : M A := fun w => (Ok a, w).
Definition raise {A} (msg : str) : M A := fun w => (Raise msg, w).
Definition hang {A} : M A := fun w => (Hang, w).

Definition bind {A B} (m : M A) (k : A -> M B) : M B :=
  fun w =>
    match m w with
    | (Ok a, w') => k a w'
    | (Raise msg, w') => (Raise msg, w')
    | (Hang, w') => (Hang, w')
    end.

(** [try: m except Exception as e: handler(str(e))] *)
Definition try_except {A} (m : M A) (handler : str -> M A) : M A :=
  fun w =>
    match m w with
    | (Raise msg, w') => handler msg w'
    | r => r
    end.

Definition lift {A} (o : outcome A) : M A := fun w => (o, w).

(** [for x in xs: acc = body(acc, x)] *)
Fixpoint for_each {A X} (xs : list X) (body : A -> X -> M A) (acc : A) : M A :=
  match xs with
  | [] => ret acc
  | x :: xs' => bind (body acc x) (for_each xs' body)
  end.

Definition get_index : M (dict doc_info) :=
  fun w => (Ok (documents_index w), w).
Definition set_index (ix : dict doc_info) : M unit :=
  fun w => (Ok tt, with_index w ix).

(** [os.path.exists(p)] *)
Definition path_exists (p : str) : M bool :=
  fun w => (Ok (dict_mem (disk w) p), w).
(** [open(p, 'r', encoding='utf-8').read()]; the texts of the exceptions
    the library raises are stand-ins. *)
Definition read_file (p : str) : M str :=
  fun w =>
    match dict_get (disk w) p with
    | Some (Readable data) => (Ok data, w)
    | Some Unreadable => (Raise (U "cannot read " ++ p), w)
    | Some Directory => (Raise (U "Is a directory: " ++ p), w)
    | None => (Raise (U "No such file or directory: " ++ p), w)
    end.
(** [open(p, 'rb').read()], as the format parsers do: the bytes the file
    was written with.  The services hand a parser only the file [save_file]
    has just written; for a file whose bytes are not recorded the characters
    of its text stand in for them, and without a text the read is reported
    as failing. *)
Definition read_bytes (p : str) : M (list N) :=
  fun w =>
    match dict_get (disk w) p with
    | Some Directory => (Raise (U "Is a directory: " ++ p), w)
    | Some f =>
        match dict_get (raw w) p, f with
        | Some bytes, _ => (Ok bytes, w)
        | None, Readable data => (Ok data, w)
        | None, _ => (Raise (U "cannot read " ++ p), w)
        end
    | None => (Raise (U "No such file or directory: " ++ p), w)
    end.
(** How [open(p, 'w')] and [open(p, 'wb')] end: [None] when the file is
    opened (an existing file is truncated, a new one is created in an
    existing directory), the text of the exception otherwise. *)
Definition open_for_writing {E : Env} (p : str) (w : world) : option str :=
  match dict_get (disk w) p with
  | Some Directory => Some (U "Is a directory: " ++ p)
  | Some _ => None
  | None => if creatable p then None
            else Some (U "No such file or directory: " ++ p)
  end.
(** [open(p, 'w', encoding='utf-8').write(data)]: what is written in text
    mode reads back with its line ends translated. *)
Definition write_file {E : Env} (p : str) (data : str) : M unit :=
  fun w =>
    match open_for_writing p w with
    | Some e => (Raise e, w)
    | None =>
        (Ok tt,
         with_raw
           (with_disk w (dict_set (disk w) p (Readable (universal_newlines data))))
           (dict_del (raw w) p))
    end.
(** What a read in text mode makes of a file that holds [bytes]. *)
Definition text_view (bytes : list N) : file :=
  match decode_utf8 bytes with
  | Some text => Readable (universal_newlines text)
  | None => Unreadable
  end.
(** [open(p, 'wb').write(bytes)]: the bytes are kept for the parsers, and a
    later read in text mode decodes them. *)
Definition write_bytes {E : Env} (p : str) (bytes : list N) : M unit :=
  fun w =>
    match open_for_writing p w with
    | Some e => (Raise e, w)
    | None =>
        (Ok tt,
         with_raw (with_disk w (dict_set (disk w) p (text_view bytes)))
                  (dict_set (raw w) p bytes))
    end.
(** [os.remove(p)] *)
Definition remove_file (p : str) : M unit :=
  fun w =>
    match dict_get (disk w) p with
    | Some Directory => (Raise (U "Is a directory: " ++ p), w)
    | Some _ =>
        (Ok tt,
         with_raw (with_disk w (dict_del (disk w) p)) (dict_del (raw w) p))
    | None => (Raise (U "No such file or directory: " ++ p), w)
    end.

(** [json.dump(self.documents_index, f)] into [documents.json] *)
Definition dump_index (ix : dict doc_info) : M unit :=
  fun w => (Ok tt, with_documents_json w (Some ix)).

(** [datetime.now().isoformat()] *)
Definition now_isoformat {E : Env} : M str :=
  fun w => (Ok (isoformat (clock w)), with_clock w (S (clock w))).
(** [str(uuid.uuid4())] *)
Definition new_uuid {E : Env} : M str :=
  fun w => (Ok (uuid4 (entropy w)), with_entropy w (S (entropy w))).

(** [self.openai_client.chat.completions.create(...)] *)
Definition create_completion {E : Env} (model system prompt : str) (max_tokens : Z)
  : M str :=
  fun w =>
    (chat_completion model system prompt max_tokens,
     with_llm_requests w (llm_requests w ++ [(model, system, prompt, max_tokens)])).

End Eff.
Import Eff.

Declare Scope eff_scope.
Delimit Scope eff_scope with eff.
Notation "x <- m ;; k" := (bind m (fun x => k))
  (at level 61, m at next level, right associativity) : eff_scope.
Notation "m ;;; k" := (bind m (fun _ => k))
  (at level 61, right associativity) : eff_scope.
Open Scope eff_scope.

(** [os.path.join(a, b)] on POSIX paths *)
Definition path_join (a b : str) : str :=
  if starts_with (U "/") b then b
  else if negb (truthy a) || starts_with (U "/") (rev a) then a ++ b
  else a ++ U "/" ++ b.

(** [enumerate(l, start)] *)
Fixpoint enumerate {A} (start : Z) (l : list A) : list (Z * A) :=
  match l with
  | [] => []
  | x :: l' => (start, x) :: enumerate (start + 1) l'
  end.

Definition NL : str := [10%N].

(** ** The chunking loop

    [SimpleDocumentStore._split_text_into_chunks] and
    [DocumentProcessor.split_text_into_chunks] run the same loop text; it is
    embedded once.  [chunk_body] is one pass through the body of the [while]
    up to the assignment of the next [start]; [chunk_loop] runs at most
    [fuel] tests of the loop condition and answers [None] when they do not
    suffice. *)
Module Chunking.

Definition chunk_body (text : str) (chunk_size chunk_overlap : Z)
           (start : Z) (chunks : list str) : Z * list str :=
  let end_ := start + chunk_size in
  let end_ :=
    if end_ <? len text then
      let last_period := rfind (U ".") text start end_ in
      if negb (last_period =? -1) && (last_period >? start + chunk_size / 2)
      then last_period + 1
      else end_
    else end_ in
  let chunk := strip (slice text start end_) in
  let chunks := if truthy chunk then chunks ++ [chunk] else chunks in
  (end_ - chunk_overlap, chunks).

Fixpoint chunk_loop (fuel : nat) (text : str) (chunk_size chunk_overlap : Z)
         (start : Z) (chunks : list str) : option (list str) :=
  match fuel with
  | O => None
  | S fuel' =>
      if start <? len text then
        let '(start', chunks') :=
          chunk_body text chunk_size chunk_overlap start chunks in
        if start' >=? len text then Some chunks'
        else chunk_loop fuel' text chunk_size chunk_overlap start' chunks'
      else Some chunks
  end.

Definition split (fuel : nat) (text : str) (chunk_size chunk_overlap : Z)
  : option (list str) :=
  if len text <=? chunk_size then Some [text]
  else chunk_loop fuel text chunk_size chunk_overlap 0 [].

End Chunking.

(** ** services/document_processor.py *)
Module DocumentProcessor.
Section WithEnv.
Context {E : Env}.

(** [self.allowed_extensions], set by [__init__] *)
Definition allowed_extensions : list str := allowed_extensions_list settings.

Definition save_file (file_content : list N) (filename : str) : M str :=
  file_id <- new_uuid ;;
  let new_filename := file_id ++ U "_" ++ filename in
  let file_path := path_join (uploads_dir settings) new_filename in
  write_bytes file_path file_content ;;;
  ret file_path.

Definition validate_file (filename : str) (file_size : Z) : bool * str :=
  let file_extension := lstrip_chars (U ".") (lower (path_suffix filename)) in
  if negb (str_mem file_extension allowed_extensions) then
    (false, U "File type ." ++ file_extension ++ U " not allowed. Allowed types: "
            ++ join (U ", ") allowed_extensions)
  else if file_size >? max_file_size settings then
    (false, U "File size " ++ str_of_int file_size
            ++ U " exceeds maximum allowed size "
            ++ str_of_int (max_file_size settings))
  else (true, U "Valid file").

Definition _extract_from_pdf (file_path : str) : M str :=
  data <- read_bytes file_path ;;
  pages <- lift (pdf_pages data) ;;
  ret (strip (fold_left (fun text page => text ++ page ++ NL) pages [])).

Definition _extract_from_docx (file_path : str) : M str :=
  data <- read_bytes file_path ;;
  paragraphs <- lift (docx_paragraphs data) ;;
  ret (strip (fold_left (fun text paragraph => text ++ paragraph ++ NL)
                        paragraphs [])).

Definition _extract_from_txt (file_path : str) : M str :=
  read_file file_path.

Definition _extract_from_markdown (file_path : str) : M str :=
  md_content <- read_file file_path ;;
  lift (markdown_get_text md_content).

Definition extract_text_from_file (file_path : str) : M str :=
  let file_extension := lower (path_suffix file_path) in
  try_except
    (if str_eqb file_extension (U ".pdf") then _extract_from_pdf file_path
     else if str_eqb file_extension (U ".docx") then _extract_from_docx file_path
     else if str_eqb file_extension (U ".txt") then _extract_from_txt file_path
     else if str_eqb file_extension (U ".md") then _extract_from_markdown file_path
     else raise (U "Unsupported file type: " ++ file_extension))
    (fun e => raise (U "Error extracting text from " ++ file_path ++ U ": " ++ e)).

(** [x or default] for an optional [int] argument *)
Definition int_or (x : option Z) (default : Z) : Z :=
  match x with
  | Some v => if v =? 0 then default else v
  | None => default
  end.

Definition split_text_into_chunks (fuel : nat) (text : str)
           (chunk_size chunk_overlap : option Z) : option (list str) :=
  let chunk_size := int_or chunk_size (Config.chunk_size settings) in
  let chunk_overlap := int_or chunk_overlap (Config.chunk_overlap settings) in
  Chunking.split fuel text chunk_size chunk_overlap.

End WithEnv.
End DocumentProcessor.

(** ** services/simple_document_store.py *)
Module Records.

Record result_metadata := {
document_id : str;
source : str;
result_upload_time : str
}.

(** One element of the list [search_documents] returns. *)
Record search_result := {
content : str;
result_meta : result_metadata;
score : Z
}.

(** One element of the list [get_all_documents] returns. *)
Record listed_document := {
listed_id : str;
listed_content : str;
listed_metadata : doc_info
}.

End Records.
Import Records.

(** [results.sort(key=lambda x: x["score"], reverse=True)]: the sort is
    stable, and with [reverse=True] equal keys still keep their order. *)
Fixpoint insert_by_score (x : search_result) (l : list search_result)
  : list search_result :=
  match l with
  | [] => [x]
  | y :: l' => if score y >? score x then y :: insert_by_score x l'
               else x :: l
  end.
Definition sort_by_score_desc (l : list search_result) : list search_result :=
  fold_right insert_by_score [] l.

Module SimpleDocumentStore.
Section WithEnv.
Context {E : Env}.

Definition documents_file : str := path_join (data_dir settings) (U "documents.json").
Definition markdown_dir : str := path_join (data_dir settings) (U "markdown").

Definition _save_documents_index : M unit :=
  try_except
    (ix <- get_index ;; dump_index ix)
    (fun e => ret tt).

Definition _split_text_into_chunks (fuel : nat) (text : str)
  : option (list str) :=
  let chunk_size := Config.chunk_size settings in
  let chunk_overlap := Config.chunk_overlap settings in
  Chunking.split fuel text chunk_size chunk_overlap.

Definition add_document (document_id filename content : str)
           (metadata : dict value) : M bool :=
  try_except
    (chunks <- lift (match _split_text_into_chunks loop_budget content with
                     | Some chunks => Ok chunks
                     | None => Hang
                     end) ;;
     let markdown_file := path_join markdown_dir (document_id ++ U ".md") in
     now <- now_isoformat ;;
     let markdown_content :=
       U "# " ++ filename ++ NL ++ NL
       ++ U "**文档ID**: " ++ document_id ++ NL
       ++ U "**上传时间**: " ++ now ++ NL
       ++ U "**文件大小**: " ++ str_of_int (len content) ++ U " 字符" ++ NL
       ++ U "**分块数量**: " ++ str_of_int (len chunks) ++ NL ++ NL
       ++ U "---" ++ NL ++ NL
       ++ content ++ NL ++ NL
       ++ U "---" ++ NL ++ NL
       ++ U "## 文档分块" ++ NL ++ NL in
     let markdown_content :=
       fold_left
         (fun markdown_content '(i, chunk) =>
            markdown_content
            ++ U "### 分块 " ++ str_of_int (i + 1) ++ NL ++ NL
            ++ chunk ++ NL ++ NL
            ++ U "---" ++ NL ++ NL)
         (enumerate 0 chunks) markdown_content in
     write_file markdown_file markdown_content ;;;
     now' <- now_isoformat ;;
     ix <- get_index ;;
     set_index (dict_set ix document_id
                  {| filename := filename;
                     markdown_file := markdown_file;
                     upload_time := now';
                     content_length := len content;
                     chunks_count := len chunks;
                     metadata := metadata |}) ;;;
     _save_documents_index ;;;
     ret true)
    (fun e => ret false).

Definition stop_words : list str :=
  [U "的"; U "是"; U "在"; U "有"; U "和"; U "与"; U "或"; U "但"; U "然后";
   U "如何"; U "什么"; U "怎么"; U "怎样";
   U "how"; U "to"; U "what"; U "is"; U "are"; U "the"; U "a"; U "an";
   U "and"; U "or"; U "but"; U "then"].

(** The argument of [word.strip(...)]; code points 34 and 39 are the
    double and the single quote. *)
Definition punctuation : str :=
  U ".,!?;:()[]{}" ++ [34%N; 39%N] ++ U "-".

Definition _extract_keywords (query : str) : list str :=
  fold_left
    (fun keywords word =>
       let word := strip_chars punctuation word in
       if (len word >=? 2) && negb (str_mem (lower word) stop_words)
       then keywords ++ [lower word]
       else keywords)
    (split_ws query) [].

(** Lines 163-174: the score of one document. *)
Definition score_of (query_lower : str) (query_keywords : list str)
           (content_lower : str) : Z :=
  let score := 0 in
  let score := if str_in query_lower content_lower then score + 10 else score in
  fold_left
    (fun score keyword =>
       if str_in keyword content_lower then score + 3 else score)
    query_keywords score.

(** [sum(1 for keyword in query_keywords if keyword in text)] *)
Definition count_matches (query_keywords : list str) (text : str) : Z :=
  fold_left (fun n keyword => if str_in keyword text then n + 1 else n)
            query_keywords 0.

(** [s[:400] + "..." if len(s) > 400 else s] *)
Definition clip (limit : Z) (s : str) : str :=
  if len s >? limit then slice_to s limit ++ U "..." else s.

(** Lines 198-200: the window of lines around line [i], joined and trimmed. *)
Definition context_around (lines : list str) (i : Z) : str :=
  let start_idx := Z.max 0 (i - 3) in
  let end_idx := Z.min (len lines) (i + 4) in
  strip (join NL (slice lines start_idx end_idx)).

(** Lines 183-202: the contexts of the matching lines. *)
Definition line_contexts (query_lower : str) (query_keywords : list str)
           (lines : list str) : list str :=
  fold_left
    (fun relevant_chunks '(i, line) =>
       let line_lower := lower line in
       let line_matches :=
         if str_in query_lower line_lower then true
         else
           let matches := count_matches query_keywords line_lower in
           (matches >=? 2) || ((matches >=? 1) && (len query_keywords <=? 2)) in
       if line_matches then
         let context := context_around lines i in
         if truthy context && (len context >? 10)
         then relevant_chunks ++ [clip 400 context]
         else relevant_chunks
       else relevant_chunks)
    (enumerate 0 lines) [].

(** Lines 205-212: the sections that hold a keyword. *)
Definition section_contexts (query_keywords : list str) (sections : list str)
  : list str :=
  fold_left
    (fun relevant_chunks section =>
       let section_lower := lower section in
       let matches := count_matches query_keywords section_lower in
       if matches >=? 1 then relevant_chunks ++ [clip 400 section]
       else relevant_chunks)
    sections [].

(** The body of the [for] loop of [search_documents], lines 153-229. *)
Definition search_one (query_lower : str) (query_keywords : list str)
           (results : list search_result) (item : str * doc_info)
  : M (list search_result) :=
  let '(doc_id, doc_info) := item in
  try_except
    (let markdown_file := markdown_file doc_info in
     found <- path_exists markdown_file ;;
     if negb found then ret results
     else
       content <- read_file markdown_file ;;
       let content_lower := lower content in
       let score := score_of query_lower query_keywords content_lower in
       if score >? 0 then
         let lines := split_on NL content in
         let relevant_chunks := line_contexts query_lower query_keywords lines in
         let relevant_chunks :=
           if negb (truthy relevant_chunks)
           then section_contexts query_keywords (split_on (NL ++ NL) content)
           else relevant_chunks in
         if truthy relevant_chunks then
           ret (results ++
                [{| content := join (NL ++ NL) (slice_to relevant_chunks 3);
                    result_meta :=
                      {| document_id := doc_id;
                         source := filename doc_info;
                         result_upload_time := upload_time doc_info |};
                    score := score |}])
         else ret results
       else ret results)
    (fun e => ret results).

Definition search_documents (query : str) (max_results : Z)
  : M (list search_result) :=
  let query_lower := lower query in
  let query_keywords := _extract_keywords query_lower in
  ix <- get_index ;;
  results <- for_each ix (search_one query_lower query_keywords) [] ;;
  let results := sort_by_score_desc results in
  ret (slice_to results max_results).

(** The body of the [for] loop of [get_all_documents], lines 240-262. *)
Definition list_one (documents : list listed_document) (item : str * doc_info)
  : M (list listed_document) :=
  let '(doc_id, doc_info) := item in
  try_except
    (let markdown_file := markdown_file doc_info in
     let content_preview := [] in
     found <- path_exists markdown_file ;;
     content_preview <-
       (if found then
          content <- read_file markdown_file ;;
          let parts := split_on_max (U "---") content 2 in
          if len parts >? 2 then
            let original_content := strip (nth 1 parts []) in
            ret (clip 500 original_content)
          else ret content_preview
        else ret content_preview) ;;
     ret (documents ++
          [{| listed_id := doc_id;
              listed_content := content_preview;
              listed_metadata := doc_info |}]))
    (fun e => ret documents).

Definition get_all_documents : M (list listed_document) :=
  ix <- get_index ;;
  for_each ix list_one [].

Definition delete_document (document_id : str) : M bool :=
  try_except
    (ix <- get_index ;;
     if dict_mem ix document_id then
       match dict_get ix document_id with
       | None => raise (U "KeyError")
       | Some doc_info =>
           let markdown_file := markdown_file doc_info in
           found <- path_exists markdown_file ;;
           (if found then remove_file markdown_file else ret tt) ;;;
           ix <- get_index ;;
           set_index (dict_del ix document_id) ;;;
           _save_documents_index ;;;
           ret true
       end
     else ret false)
    (fun e => ret false).

(** [json.load] of [documents.json]; a missing or unparsable file gives the
    empty index.  The index holds strings, integers and string-keyed maps of
    those, which [json.dump] followed by [json.load] gives back unchanged. *)
Definition _load_documents_index : M (dict doc_info) :=
  fun w =>
    match documents_json w with
    | Some ix => (Ok ix, w)
    | None => (Ok [], w)
    end.

(** [__init__]: a new store object reads its index from the disk. *)
Definition init : M unit :=
  ix <- _load_documents_index ;;
  set_index ix.

Record store_stats := {
  total_documents : Z;
  total_chunks : Z;
  stats_storage_type : str;
  markdown_directory : str
}.

Definition get_store_stats : M store_stats :=
  ix <- get_index ;;
  let total_docs := len ix in
  let total_chunks :=
    fold_left (fun total item => total + chunks_count (snd item)) ix 0 in
  ret {| total_documents := total_docs;
         total_chunks := total_chunks;
         stats_storage_type := U "markdown_files";
         markdown_directory := markdown_dir |}.

End WithEnv.
End SimpleDocumentStore.

(** An index entry read as the dict [add_document] stores: its keys and
    the values under them. *)
Inductive field : Type :=
| FStr (s : str)
| FInt (n : Z)
| FDict (d : dict value).

Definition doc_info_get (info : doc_info) (key : str) : option field :=
  if str_eqb key (U "filename") then Some (FStr (filename info))
  else if str_eqb key (U "markdown_file") then Some (FStr (markdown_file info))
  else if str_eqb key (U "upload_time") then Some (FStr (upload_time info))
  else if str_eqb key (U "content_length") then Some (FInt (content_length info))
  else if str_eqb key (U "chunks_count") then Some (FInt (chunks_count info))
  else if str_eqb key (U "metadata") then Some (FDict (metadata info))
  else None.

(** ** services/azure_ai.py *)
Definition QUOTE : str := [34%N].

Module AzureAIService.
Section WithEnv.
Context {E : Env}.

Definition no_information_message : str :=
  U "Based on your uploaded documents, I cannot find relevant information to answer your question. Please ensure the relevant content has been uploaded to the knowledge base.".

Definition system_message : str :=
  U "You are a Virtual Mentor, a knowledge base assistant. Please answer questions in English only, based on the provided context. Be helpful, clear, and professional.".

(** [a or b] on strings *)
Definition str_or (a b : str) : str := if truthy a then a else b.

Definition _generate_with_openai (prompt : str) (max_tokens : Z) : M str :=
  try_except
    (let model_name :=
       str_or (match azure_openai_deployment_name settings with
               | Some d => str_or d (azure_ai_model_name settings)
               | None => azure_ai_model_name settings
               end) (U "gpt-4") in
     create_completion model_name system_message prompt max_tokens)
    (fun e => raise (U "Azure OpenAI API error: " ++ e)).

Definition _prepare_context (documents : list search_result) : str :=
  if negb (truthy documents) then []
  else
    let context_parts :=
      fold_left
        (fun context_parts '(i, doc) =>
           let content := strip (content doc) in
           let source := source (result_meta doc) in
           if truthy content
           then context_parts ++
                [U "[来源 " ++ str_of_int i ++ U ": " ++ source ++ U "]"
                 ++ NL ++ content]
           else context_parts)
        (enumerate 1 documents) [] in
    join (NL ++ NL) context_parts.

Definition _create_rag_prompt (query context : str) : str :=
  if negb (truthy context) || str_eqb (strip context) [] then []
  else
    U "You are Virtual Mentor, a knowledge base assistant. Please answer the user's question strictly based on the provided context information." ++ NL
    ++ NL
    ++ U "Important rules:" ++ NL
    ++ U "1. Only use the provided context information to answer questions" ++ NL
    ++ U "2. Do not use your pre-trained knowledge to answer" ++ NL
    ++ U "3. If there is no relevant information in the context, clearly state "
    ++ QUOTE ++ U "Based on the provided documents, I cannot find relevant information to answer this question" ++ QUOTE ++ NL
    ++ U "4. When answering, please indicate which source the information comes from" ++ NL
    ++ U "5. Answer in English only" ++ NL
    ++ U "6. Be helpful, clear, and professional in your responses" ++ NL
    ++ U "7. You may quote code examples or technical content exactly as it appears in the documents" ++ NL
    ++ NL
    ++ U "Context information:" ++ NL
    ++ context ++ NL
    ++ NL
    ++ U "User question: " ++ query ++ NL
    ++ NL
    ++ U "Please answer based on the above context information:".

Definition _mock_response (query context : str) : str :=
  U "Virtual Mentor - Mock Response for development:" ++ NL
  ++ NL
  ++ U "Query: " ++ query ++ NL
  ++ NL
  ++ U "Based on the available context, this is a simulated response. In a production environment, this would be generated by Azure AI Foundry or Azure OpenAI." ++ NL
  ++ NL
  ++ U "Context summary: " ++ str_of_int (len context) ++ U " characters of context were provided." ++ NL
  ++ NL
  ++ U "To enable real AI responses, please configure your Azure AI credentials in the .env file.".

Definition generate_response (query : str)
           (context_documents : list search_result) (max_tokens : Z) : M str :=
  let context := _prepare_context context_documents in
  if negb (truthy context) || str_eqb (strip context) [] then
    ret no_information_message
  else
    let prompt := _create_rag_prompt query context in
    try_except
      (if openai_client then _generate_with_openai prompt max_tokens
       else ret (_mock_response query context))
      (fun e => ret (U "Sorry, an error occurred while generating the response: " ++ e)).

Definition summarize_document (text : str) (max_length : Z) : M str :=
  let prompt :=
    U "Please provide a concise summary of the following text in no more than "
    ++ str_of_int max_length ++ U " words:" ++ NL
    ++ NL
    ++ slice_to text 2000 ++ U "  # Limit input text to avoid token limits" ++ NL
    ++ NL
    ++ U "Summary:" in
  try_except
    (if openai_client then _generate_with_openai prompt max_length
     else ret (U "Document summary (mock): This document contains approximately "
               ++ str_of_int (len (split_ws text)) ++ U " words."))
    (fun e => ret (U "Summary unavailable. Document length: "
                   ++ str_of_int (len text) ++ U " characters.")).

End WithEnv.
End AzureAIService.

(** ** models/schemas.py and services/rag_service.py

    The two [float] fields, [processing_time] and [response_time], are left
    out of the responses. *)
Module RAGService.

Record DocumentResponse := {
  id : str;
  filename : str;
  content_preview : str;
  upload_time : str;
  summary : str;
  file_size : Z;
  storage_type : str
}.

Record QueryRequest := {
  query : str;
  max_results : Z
}.

Record Source := {
  source : str;
  document_id : str;
  score : Z;
  source_preview : str
}.

Record QueryResponse := {
  response_query : str;
  answer : str;
  sources : list Source
}.

Section WithEnv.
Context {E : Env}.

Definition upload_document (file_content : str) (filename : str)
  : M DocumentResponse :=
  try_except
    (let '(is_valid, message) :=
       DocumentProcessor.validate_file filename (len file_content) in
     if negb is_valid then raise message
     else
       file_path <- DocumentProcessor.save_file file_content filename ;;
       (* from here on [file_path] is bound: a failure removes the file *)
       try_except
         (text_content <- DocumentProcessor.extract_text_from_file file_path ;;
          document_id <- new_uuid ;;
          now <- now_isoformat ;;
          let metadata :=
            [(U "source", VStr filename);
             (U "file_path", VStr file_path);
             (U "upload_time", VStr now);
             (U "file_size", VInt (len file_content))] in
          success <- SimpleDocumentStore.add_document
                       document_id filename text_content metadata ;;
          if negb success then raise (U "Failed to store document")
          else
            summary <- AzureAIService.summarize_document text_content 200 ;;
            now' <- now_isoformat ;;
            ret {| id := document_id;
                   filename := filename;
                   content_preview := SimpleDocumentStore.clip 500 text_content;
                   upload_time := now';
                   summary := summary;
                   file_size := len file_content;
                   storage_type := U "markdown_file" |})
         (fun e =>
            try_except (remove_file file_path) (fun _ => ret tt) ;;;
            raise e))
    (fun e => raise (U "Error processing document: " ++ e)).

Definition query_documents (request : QueryRequest) : M QueryResponse :=
  try_except
    (relevant_docs <- SimpleDocumentStore.search_documents
                        (query request) (max_results request) ;;
     answer <- AzureAIService.generate_response (query request) relevant_docs 1000 ;;
     let sources :=
       fold_left
         (fun sources doc =>
            let metadata := result_meta doc in
            sources ++
            [{| source := Records.source metadata;
                document_id := Records.document_id metadata;
                score := Records.score doc;
                source_preview := slice_to (content doc) 200 ++ U "..." |}])
         relevant_docs [] in
     ret {| response_query := query request;
            answer := answer;
            sources := sources |})
    (fun e => raise (U "Error querying documents: " ++ e)).

Definition delete_document (document_id : str) : M bool :=
  try_except
    (SimpleDocumentStore.delete_document document_id)
    (fun e => ret false).

(** What [list_documents] returns for one document; [listed_upload_time]
    stands for the [datetime] value. *)
Record DocumentListing := {
  listed_document_id : str;
  listed_filename : str;
  listed_preview : str;
  listed_upload_time : str;
  listed_chunks_count : Z;
  listed_content_length : Z;
  listed_storage_type : str
}.

(** [fromisoformat] is [datetime.fromisoformat]; [None] stands for the
    [ValueError] of a text it cannot parse. *)
Definition list_documents (fromisoformat : str -> option str)
  : M (list DocumentListing) :=
  try_except
    (all_docs <- SimpleDocumentStore.get_all_documents ;;
     for_each all_docs
       (fun document_responses doc =>
          let doc_metadata := listed_metadata doc in
          upload_time <-
            match doc_info_get doc_metadata (U "upload_time") with
            | Some (FStr upload_time) =>
                try_except
                  (match fromisoformat
                           (replace_char 90%N (U "+00:00") upload_time) with
                   | Some parsed => ret parsed
                   | None => raise (U "Invalid isoformat string")
                   end)
                  (fun _ => now_isoformat)
            | _ => now_isoformat
            end ;;
          ret (document_responses ++
               [{| listed_document_id := listed_id doc;
                   listed_filename :=
                     match doc_info_get doc_metadata (U "source") with
                     | Some (FStr source) => source
                     | _ => U "Unknown"
                     end;
                   listed_preview := listed_content doc;
                   listed_upload_time := upload_time;
                   listed_chunks_count :=
                     match doc_info_get doc_metadata (U "chunks_count") with
                     | Some (FInt n) => n
                     | _ => 0
                     end;
                   listed_content_length :=
                     match doc_info_get doc_metadata (U "content_length") with
                     | Some (FInt n) => n
                     | _ => 0
                     end;
                   listed_storage_type := U "markdown" |}]))
       [])
    (fun e => raise (U "Error listing documents: " ++ e)).

Record SystemStats := {
  system_total_documents : Z;
  system_total_chunks : Z;
  system_status : str;
  system_error : option str
}.

Definition get_system_stats (fromisoformat : str -> option str)
  : M SystemStats :=
  try_except
    (store_stats <- SimpleDocumentStore.get_store_stats ;;
     documents <- list_documents fromisoformat ;;
     ret {| system_total_documents := len documents;
            system_total_chunks := SimpleDocumentStore.total_chunks store_stats;
            system_status := U "operational";
            system_error := None |})
    (fun e =>
       ret {| system_total_documents := 0;
              system_total_chunks := 0;
              system_status := U "error";
              system_error := Some e |}).

End WithEnv.
End RAGService.

(** ** routers/rag.py

    Every request builds a new [RAGService], whose store reads the index
    from the disk.  [HTTPException] is an [Exception]: raised inside a [try]
    it is caught by [except Exception as e] like any other, and
    [exception_text] gives its [str(e)]. *)
Module Router.

(** What a handler body can raise: an ordinary exception with its text, or
    an [HTTPException]. *)
Inductive thrown : Type :=
| Plain (text : str)
| Http (status_code : Z) (detail : str).

(** How the body of a [try] block ends. *)
Inductive attempt (A : Type) : Type :=
| Done (result : A)
| Thrown (e : thrown)
| Stuck.
Arguments Done {A} result.
Arguments Thrown {A} e.
Arguments Stuck {A}.

(** What the client gets. *)
Inductive response (A : Type) : Type :=
| Returns (body : A)
| HTTPException (status_code : Z) (detail : str)
| NoResponse.
Arguments Returns {A} body.
Arguments HTTPException {A} status_code detail.
Arguments NoResponse {A}.

Section WithEnv.
Context {E : Env}.
Variable exception_text : Z -> str -> str.

(** [Depends(get_rag_service)] *)
Definition get_rag_service : M unit := SimpleDocumentStore.init.

(** [await rag_service.method(...)] inside the [try] *)
Definition await {A} (call : M A) : world -> attempt A * world :=
  fun w =>
    match call w with
    | (Ok result, w') => (Done result, w')
    | (Raise e, w') => (Thrown (Plain e), w')
    | (Hang, w') => (Stuck, w')
    end.

(** [except Exception as e:
       raise HTTPException(status_code=400, detail=str(e))] *)
Definition except_exception {A} (body : attempt A) : response A :=
  match body with
  | Done result => Returns result
  | Thrown (Plain text) => HTTPException 400 text
  | Thrown (Http status_code detail) =>
      HTTPException 400 (exception_text status_code detail)
  | Stuck => NoResponse
  end.

Definition upload_document (file_content filename : str)
  : world -> response RAGService.DocumentResponse * world :=
  fun w =>
    let '(body, w') :=
      await (get_rag_service ;;;
             RAGService.upload_document file_content filename) w in
    (except_exception body, w').

Definition query_documents (request : RAGService.QueryRequest)
  : world -> response RAGService.QueryResponse * world :=
  fun w =>
    let '(body, w') :=
      await (get_rag_service ;;; RAGService.query_documents request) w in
    (except_exception body, w').

Definition delete_document (document_id : str) : world -> response str * world :=
  fun w =>
    let '(success, w') :=
      await (get_rag_service ;;; RAGService.delete_document document_id) w in
    let body :=
      match success with
      | Done true => Done (U "Document deleted successfully")
      | Done false =>
          Thrown (Http 404 (U "Document not found or couldn't be deleted"))
      | Thrown e => Thrown e
      | Stuck => Stuck
      end in
    (except_exception body, w').

End WithEnv.
End Router.

(** ** A concrete environment, for running the services on examples

    [ascii_lower] agrees with [str.lower] on ASCII text and [name_suffix]
    with [Path.suffix] on POSIX paths; files can be created in the upload
    directory and in the directory of the artifacts, named as the settings
    name them, and nowhere else; the parsers reject everything, the endpoint
    answers every request, and uuids and timestamps are numbered. *)
Module Demo.

Definition ascii_lower (s : str) : str :=
  map (fun c => if ((65 <=? c) && (c <=? 90))%N then (c + 32)%N else c) s.

Definition name_suffix (p : str) : str :=
  let name := last (split_on (U "/") p) [] in
  let i := rfind (U ".") name 0 (len name) in
  if (0 <? i) && (i <? len name - 1) then slice name i (len name) else [].

(** [os.path.dirname(p)] on POSIX paths *)
Definition dirname (p : str) : str :=
  let i := rfind (U "/") p 0 (len p) + 1 in
  let head := slice_to p i in
  if truthy head && negb (forallb (char_eqb 47%N) head)
  then rstrip_with (char_eqb 47%N) head
  else head.

Definition in_data_directories (s : Settings) (p : str) : bool :=
  str_mem (dirname p)
          [uploads_dir s; path_join (data_dir s) (U "markdown")].

Definition env (s : Settings) (client : bool) : Env := {|
  settings := s;
  lower := ascii_lower;
  path_suffix := name_suffix;
  creatable := in_data_directories s;
  pdf_pages := fun _ => Raise (U "not a PDF file");
  docx_paragraphs := fun _ => Raise (U "not a DOCX file");
  markdown_get_text := fun md => Ok md;
  openai_client := client;
  chat_completion := fun _ _ _ _ => Ok (U "an answer");
  uuid4 := fun n => U "uuid-" ++ str_of_int (Z.of_nat n);
  isoformat := fun n => U "2025-01-01T00:00:00." ++ str_of_int (Z.of_nat n);
  loop_budget := 1000
|}.

Definition empty_world : world := {|
  documents_index := []; disk := []; documents_json := None;
  llm_requests := []; clock := O; entropy := O; raw := []
|}.

End Demo.

(** * Derived notions and example states *)

(** What one index entry adds to [results] in the scan of [search_documents]. *)
Definition emitted {E : Env} (query_lower : str) (query_keywords : list str) (w : world)
           (item : str * doc_info) : list search_result :=
  match SimpleDocumentStore.search_one query_lower query_keywords [] item w with
  | (Ok results, _) => results
  | _ => []
  end.

(** What one index entry adds to the listing of [get_all_documents]. *)
Definition listed (w : world) (item : str * doc_info) : list listed_document :=
  match SimpleDocumentStore.list_one [] item w with
  | (Ok documents, _) => documents
  | _ => []
  end.

(** The order of the results: by score, descending. *)
Definition by_score_desc (a b : search_result) : Prop := score a >= score b.

(** The keywords of a list that are kept when each is counted once. *)
Fixpoint distinct (l : list str) : list str :=
  match l with
  | [] => []
  | x :: l' => if str_mem x l' then distinct l' else x :: distinct l'
  end.

(** Order-preserving selection of elements. *)
Inductive subsequence {A} : list A -> list A -> Prop :=
| subsequence_nil : subsequence [] []
| subsequence_skip x l l' : subsequence l l' -> subsequence l (x :: l')
| subsequence_keep x l l' : subsequence l l' -> subsequence (x :: l) (x :: l').

(** A text, a window of 10 and an overlap of 7: the first window is cut after
    the period at index 6, and [7 - 7] is the start of the first window. *)
Definition stuck_text : str := U "aaaaaa.aaaaaaaaaaaaa".

(** ** Example states *)
Definition demo_env : Env := Demo.env Config.defaults false.

(** The default settings with a window of 10 and an overlap of 7. *)
Definition narrow_env : Env :=
  Demo.env {| azure_ai_model_name := U "gpt-4";
              azure_openai_deployment_name := None;
              chunk_size := 10;
              chunk_overlap := 7;
              max_file_size := 10485760;
              allowed_extensions := U "pdf,txt,docx,md";
              data_dir := U "/app/data";
              uploads_dir := U "/app/data/uploads" |} false.

Definition record_of (name : str) : doc_info := {|
  filename := name ++ U ".txt";
  markdown_file := U "/app/data/markdown/" ++ name ++ U ".md";
  upload_time := U "2025-01-01T00:00:00";
  content_length := 17;
  chunks_count := 1;
  metadata := []
|}.

(** Two records with readable artifacts that both mention a fox, one record
    about a cat, one whose artifact is missing and one whose artifact cannot
    be read. *)
Definition library : world := {|
  documents_index :=
    [(U "d1", record_of (U "d1")); (U "d2", record_of (U "d2"));
     (U "d3", record_of (U "d3")); (U "d4", record_of (U "d4"));
     (U "d5", record_of (U "d5"))];
  disk :=
    [(U "/app/data/markdown/d1.md", Readable (U "The fox runs fast"));
     (U "/app/data/markdown/d2.md", Readable (U "a quick brown fox"));
     (U "/app/data/markdown/d3.md", Readable (U "the cat sleeps all day"));
     (U "/app/data/markdown/d5.md", Unreadable)];
  documents_json := None;
  llm_requests := [];
  clock := O;
  entropy := O;
  raw := []
|}.


(** A result whose content is empty and one whose content is blank. *)
Definition empty_result : search_result := {|
  content := [];
  result_meta := {| document_id := U "d1"; source := U "d1.txt";
                    result_upload_time := U "2025-01-01T00:00:00" |};
  score := 3
|}.
Definition blank_result : search_result := {|
  content := U "  " ++ NL;
  result_meta := {| document_id := U "d2"; source := U "d2.txt";
                    result_upload_time := U "2025-01-01T00:00:00" |};
  score := 3
|}.

(** The artifact at [path] exists but cannot be read. *)
Definition unreadable (w : world) (path : str) : bool :=
  match dict_get (disk w) path with
  | Some Unreadable | Some Directory => true
  | _ => false
  end.

(** Where [add_document] puts the artifact of a document. *)
Definition artifact_path {E : Env} (document_id : str) : str :=
  path_join SimpleDocumentStore.markdown_dir (document_id ++ U ".md").

(** The index record [add_document] writes. *)
Definition stored_record {E : Env} (document_id filename content : str)
           (metadata : dict value) (chunks : list str) (now : str) : doc_info :=
  {| filename := filename;
     markdown_file := artifact_path document_id;
     upload_time := now;
     content_length := len content;
     chunks_count := len chunks;
     metadata := metadata |}.

(** The artifact [add_document] renders, cut at its two delimiter lines:
    the header, the content between blank lines, and the list of chunks. *)
Definition artifact_header (filename document_id now content : str)
           (chunks : list str) : str :=
  U "# " ++ filename ++ NL ++ NL
  ++ U "**文档ID**: " ++ document_id ++ NL
  ++ U "**上传时间**: " ++ now ++ NL
  ++ U "**文件大小**: " ++ str_of_int (len content) ++ U " 字符" ++ NL
  ++ U "**分块数量**: " ++ str_of_int (len chunks) ++ NL ++ NL.

Definition artifact_body (content : str) : str :=
  NL ++ NL ++ content ++ NL ++ NL.

Definition artifact_tail (chunks : list str) : str :=
  NL ++ NL ++ U "## 文档分块" ++ NL ++ NL
  ++ flat_map (fun '(i, chunk) =>
                 U "### 分块 " ++ str_of_int (i + 1) ++ NL ++ NL
                 ++ chunk ++ NL ++ NL
                 ++ U "---" ++ NL ++ NL)
              (enumerate 0 chunks).

Definition artifact (filename document_id now content : str)
           (chunks : list str) : str :=
  artifact_header filename document_id now content chunks
  ++ U "---" ++ artifact_body content ++ U "---" ++ artifact_tail chunks.

(** An environment with a client whose endpoint fails on every request. *)
Definition failing_env : Env := {|
  settings := Config.defaults;
  lower := Demo.ascii_lower;
  path_suffix := Demo.name_suffix;
  creatable := Demo.in_data_directories Config.defaults;
  pdf_pages := fun _ => Raise (U "not a PDF file");
  docx_paragraphs := fun _ => Raise (U "not a DOCX file");
  markdown_get_text := fun md => Ok md;
  openai_client := true;
  chat_completion := fun _ _ _ _ => Raise (U "quota exceeded");
  uuid4 := fun n => U "uuid-" ++ str_of_int (Z.of_nat n);
  isoformat := fun n => U "2025-01-01T00:00:00." ++ str_of_int (Z.of_nat n);
  loop_budget := 1000
|}.

(** A search result with a non-blank content. *)
Definition fox_result : search_result := {|
  content := U "The fox runs fast";
  result_meta := {| document_id := U "d1"; source := U "d1.txt";
                    result_upload_time := U "2025-01-01T00:00:00" |};
  score := 13
|}.

(** A text that holds neither of the two line-end characters. *)
Definition no_line_end (d : str) : bool :=
  forallb (fun x => negb (x =? 10)%N && negb (x =? 13)%N) d.

(** Where [save_file] puts the next upload named [filename]. *)
Definition upload_path {E : Env} (w : world) (filename : str) : str :=
  path_join (uploads_dir settings) (uuid4 (entropy w) ++ U "_" ++ filename).

(** The index a new store object starts from. *)
Definition persisted_index (w : world) : dict doc_info :=
  match documents_json w with
  | Some ix => ix
  | None => []
  end.

(** How an entry of [list_documents] relates to the listed document it
    was made from. *)
Definition entry_of (fromisoformat : str -> option str)
           (doc : listed_document) (entry : RAGService.DocumentListing) : Prop :=
  RAGService.listed_document_id entry = listed_id doc
  /\ RAGService.listed_filename entry = U "Unknown"
  /\ RAGService.listed_preview entry = listed_content doc
  /\ RAGService.listed_chunks_count entry = chunks_count (listed_metadata doc)
  /\ RAGService.listed_content_length entry
     = content_length (listed_metadata doc)
  /\ RAGService.listed_storage_type entry = U "markdown"
  /\ (forall parsed,
        fromisoformat
          (replace_char 90%N (U "+00:00") (upload_time (listed_metadata doc)))
        = Some parsed ->
        RAGService.listed_upload_time entry = parsed).

(** * Properties *)

(** ** The built-ins on examples *)
Example utf8_decode_example : U "的a然后" = [30340%N; 97%N; 28982%N; 21518%N].
Proof. reflexivity. Qed.

Example split_ws_example :
  split_ws (U "  how to  use the API? ")
  = [U "how"; U "to"; U "use"; U "the"; U "API?"]
  /\ split_ws (U "") = [].
Proof. split; reflexivity. Qed.

Example split_on_example :
  split_on (U "--") (U "a--b---c--") = [U "a"; U "b"; U "-c"; U ""]
  /\ split_on_max (U "---") (U "x---y---z---w") 2 = [U "x"; U "y"; U "z---w"]
  /\ split_on (U "-") (U "") = [U ""]
  /\ split_on (U "-") (U "-") = [U ""; U ""].
Proof. repeat split; reflexivity. Qed.

Example strip_chars_example :
  strip_chars (U ".,!?;:()[]{}" ++ [34%N; 39%N] ++ U "-") (U ".,a-b'") = U "a-b"
  /\ strip (U "  a b " ++ [10%N]) = U "a b".
Proof. split; reflexivity. Qed.

Example rfind_example :
  rfind (U ".") (U "a.b.c") 0 4 = 3
  /\ rfind (U ".") (U "a.b.c") 0 3 = 1
  /\ rfind (U ".") (U "a.b.c") 4 5 = -1
  /\ rfind (U ".") (U "a.b.c") (-1) 9 = -1
  /\ rfind (U ".") (U "a.b.c") (-2) 9 = 3
  /\ rfind (U ".") (U "a.b") 0 (-1) = 1
  /\ rfind (U ".") (U "a.b") 0 (-5) = -1
  /\ rfind (U ".") (U "abc") 5 2 = -1.
Proof. repeat split; reflexivity. Qed.

Example slice_example :
  slice (U "abcdef") (-1) 9 = U "f"
  /\ slice (U "abcdef") 2 4 = U "cd"
  /\ slice_to (U "abcdef") (-2) = U "abcd"
  /\ slice (U "abcdef") 4 2 = U ""
  /\ slice_to [1; 2] (-1) = [1]
  /\ slice_to [1; 2] (-5) = [].
Proof. repeat split; reflexivity. Qed.

Example str_of_int_example :
  str_of_int 1204 = U "1204" /\ str_of_int 0 = U "0" /\ str_of_int (-35) = U "-35".
Proof. repeat split; reflexivity. Qed.

Example decode_utf8_example :
  decode_utf8 [97; 195; 169; 13; 10]%N = Some [97; 233; 13; 10]%N
  /\ decode_utf8 [97; 255]%N = None
  /\ decode_utf8 [237; 160; 128]%N = None
  /\ decode_utf8 [192; 128]%N = None.
Proof. repeat split; reflexivity. Qed.

Example universal_newlines_example :
  universal_newlines [97; 13; 10; 98; 13; 99; 13; 13; 10; 100; 13]%N
  = [97; 10; 98; 10; 99; 10; 10; 100; 10]%N.
Proof. reflexivity. Qed.

Example dirname_example :
  Demo.dirname (U "/app/data/markdown/a/b.md") = U "/app/data/markdown/a"
  /\ Demo.dirname (U "/app/data/markdown/d1.md") = U "/app/data/markdown"
  /\ Demo.dirname (U "/b") = U "/"
  /\ Demo.dirname (U "b") = [].
Proof. repeat split; vm_compute; reflexivity. Qed.

Example path_join_example :
  path_join (U "/app/data") (U "markdown") = U "/app/data/markdown"
  /\ path_join (U "/app/data/") (U "x") = U "/app/data/x"
  /\ path_join (U "") (U "x") = U "x"
  /\ path_join (U "/a") (U "/b") = U "/b".
Proof. repeat split; reflexivity. Qed.

(** ** The services on the examples of the specification *)
Example extract_keywords_example :
  @SimpleDocumentStore._extract_keywords demo_env
    (@lower demo_env (U "How to use the API?"))
  = [U "use"; U "api"].
Proof. reflexivity. Qed.

Example chunking_example :
  Chunking.split 100
    (U "The quick brown fox jumps over the lazy dog. The fox runs fast.") 50 10
  = Some [U "The quick brown fox jumps over the lazy dog.";
          U "lazy dog. The fox runs fast."].
Proof. reflexivity. Qed.

Example validate_file_example :
  @DocumentProcessor.validate_file demo_env (U "notes.TXT") 10
  = (true, U "Valid file")
  /\ @DocumentProcessor.validate_file demo_env (U "a.pdf") 104857600
     = (false, U "File size 104857600 exceeds maximum allowed size 10485760").
Proof. split; vm_compute; reflexivity. Qed.

(** An accepted upload writes the raw file and the artifact and adds the
    record; the search then finds it. *)
Example upload_then_search :
  let text := U "The quick brown fox jumps over the lazy dog. The fox runs fast." in
  match @RAGService.upload_document demo_env text (U "fox.txt") Demo.empty_world with
  | (Ok response, w) =>
      RAGService.id response = U "uuid-1"
      /\ map fst (disk w)
         = [U "/app/data/uploads/uuid-0_fox.txt"; U "/app/data/markdown/uuid-1.md"]
      /\ map fst (documents_index w) = [U "uuid-1"]
      /\ documents_json w = Some (documents_index w)
      /\ match @SimpleDocumentStore.search_documents demo_env (U "fox") 5 w with
         | (Ok [r], w') =>
             document_id (result_meta r) = U "uuid-1" /\ score r = 13 /\ w' = w
         | _ => False
         end
  | _ => False
  end.
Proof. vm_compute. repeat split; reflexivity. Qed.

(** ** The chunker *)
Section ChunkerFacts.
Import Chunking.

Variables (text : str) (chunk_size chunk_overlap : Z).

(** With enough net advance per window the next [start] lies strictly
    after the current one, whichever way the window end was chosen. *)
Lemma chunk_body_advances (start : Z) (chunks : list str) :
  chunk_overlap < chunk_size ->
  chunk_overlap <= chunk_size / 2 + 1 ->
  start + 1 <= fst (chunk_body text chunk_size chunk_overlap start chunks).
Proof.
  intros Hlt Hhalf. unfold chunk_body.
  destruct (start + chunk_size <? len text); cbn [fst]; [|lia].
  destruct (negb (rfind (U ".") text start (start + chunk_size) =? -1)
            && (rfind (U ".") text start (start + chunk_size)
                >? start + chunk_size / 2)) eqn:Hp; [|lia].
  apply andb_true_iff in Hp as [_ Hp]. lia.
Qed.

Lemma chunk_loop_returns (fuel : nat) : forall start chunks,
  chunk_overlap < chunk_size ->
  chunk_overlap <= chunk_size / 2 + 1 ->
  Z.max 0 (len text - start) < Z.of_nat fuel ->
  exists result,
    chunk_loop fuel text chunk_size chunk_overlap start chunks = Some result.
Proof.
  induction fuel as [|fuel IH]; intros start chunks Hlt Hhalf Hfuel.
  - lia.
  - cbn [chunk_loop].
    destruct (start <? len text) eqn:Hs; [|eauto].
    pose proof (chunk_body_advances start chunks Hlt Hhalf) as Hadv.
    destruct (chunk_body text chunk_size chunk_overlap start chunks)
      as [start' chunks'].
    cbn [fst] in Hadv.
    destruct (start' >=? len text) eqn:Hge; [eauto|].
    apply IH; lia.
Qed.

(** Fuel beyond what the loop needs does not change its result. *)
Lemma chunk_loop_more_fuel (fuel : nat) : forall fuel' start chunks result,
  chunk_loop fuel text chunk_size chunk_overlap start chunks = Some result ->
  (fuel <= fuel')%nat ->
  chunk_loop fuel' text chunk_size chunk_overlap start chunks = Some result.
Proof.
  induction fuel as [|fuel IH]; intros fuel' start chunks result Hrun Hle.
  - discriminate.
  - destruct fuel' as [|fuel']; [lia|].
    cbn [chunk_loop] in *.
    destruct (start <? len text); [|assumption].
    destruct (chunk_body text chunk_size chunk_overlap start chunks)
      as [start' chunks'].
    destruct (start' >=? len text); [assumption|].
    apply IH; [assumption|lia].
Qed.

Lemma split_returns :
  chunk_overlap < chunk_size ->
  chunk_overlap <= chunk_size / 2 + 1 ->
  exists chunks, forall fuel,
    (List.length text < fuel)%nat ->
    split fuel text chunk_size chunk_overlap = Some chunks.
Proof.
  intros Hlt Hhalf. unfold split.
  destruct (len text <=? chunk_size); [eauto|].
  destruct (chunk_loop_returns (S (List.length text)) 0 [] Hlt Hhalf)
    as [chunks Hchunks]; [unfold len; lia|].
  exists chunks. intros fuel Hfuel.
  eapply chunk_loop_more_fuel; [exact Hchunks|lia].
Qed.

Lemma split_short (fuel : nat) :
  len text <= chunk_size ->
  split fuel text chunk_size chunk_overlap = Some [text].
Proof.
  intros Hshort. unfold split.
  destruct (len text <=? chunk_size) eqn:Hle; [reflexivity|lia].
Qed.

End ChunkerFacts.

Lemma stuck_body (chunks : list str) :
  Chunking.chunk_body stuck_text 10 7 0 chunks = (0, chunks ++ [U "aaaaaa."]).
Proof. reflexivity. Qed.

Lemma stuck_loop (fuel : nat) : forall chunks,
  Chunking.chunk_loop fuel stuck_text 10 7 0 chunks = None.
Proof.
  induction fuel as [|fuel IH]; intros chunks; [reflexivity|].
  cbn [Chunking.chunk_loop].
  replace (0 <? len stuck_text) with true by reflexivity.
  rewrite stuck_body.
  replace (0 >=? len stuck_text) with false by reflexivity.
  apply IH.
Qed.

(** ** Sorting and slicing the result list *)
Lemma insert_by_score_In (x r : search_result) (l : list search_result) :
  In r (insert_by_score x l) <-> r = x \/ In r l.
Proof.
  induction l as [|y l IH]; cbn [insert_by_score].
  - cbn. intuition.
  - destruct (score y >? score x); cbn [In]; [rewrite IH|]; intuition.
Qed.

Lemma insert_by_score_sorted (x : search_result) (l : list search_result) :
  StronglySorted by_score_desc l ->
  StronglySorted by_score_desc (insert_by_score x l).
Proof.
  induction 1 as [|y l Hsorted IH Hall]; cbn [insert_by_score].
  - repeat constructor.
  - destruct (score y >? score x) eqn:Hcmp.
    + constructor; [exact IH|].
      apply Forall_forall. intros r Hr.
      apply insert_by_score_In in Hr as [->|Hr].
      * unfold by_score_desc. lia.
      * rewrite Forall_forall in Hall. auto.
    + constructor; [constructor; assumption|].
      constructor; [unfold by_score_desc; lia|].
      eapply Forall_impl; [|exact Hall].
      unfold by_score_desc. intros r Hr. lia.
Qed.

(** The elements of any one score come out in the order they went in. *)
Lemma insert_by_score_filter (s : Z) (x : search_result) (l : list search_result) :
  filter (fun r => score r =? s) (insert_by_score x l)
  = filter (fun r => score r =? s) (x :: l).
Proof.
  induction l as [|y l IH]; cbn [insert_by_score]; [reflexivity|].
  destruct (score y >? score x) eqn:Hcmp; [|reflexivity].
  cbn [filter] in *. rewrite IH.
  destruct (score x =? s) eqn:Hx; [|reflexivity].
  destruct (score y =? s) eqn:Hy; [lia|reflexivity].
Qed.

Lemma sort_by_score_desc_sorted (l : list search_result) :
  StronglySorted by_score_desc (sort_by_score_desc l).
Proof.
  induction l as [|x l IH]; cbn; [constructor|].
  apply insert_by_score_sorted, IH.
Qed.

Lemma sort_by_score_desc_stable (s : Z) (l : list search_result) :
  filter (fun r => score r =? s) (sort_by_score_desc l)
  = filter (fun r => score r =? s) l.
Proof.
  induction l as [|x l IH]; [reflexivity|].
  cbn [sort_by_score_desc fold_right].
  rewrite insert_by_score_filter. cbn [filter].
  fold (sort_by_score_desc l). rewrite IH. reflexivity.
Qed.

Lemma sort_by_score_desc_In (r : search_result) (l : list search_result) :
  In r (sort_by_score_desc l) <-> In r l.
Proof.
  induction l as [|x l IH]; cbn [sort_by_score_desc fold_right]; [reflexivity|].
  rewrite insert_by_score_In. fold (sort_by_score_desc l).
  rewrite IH. cbn. intuition.
Qed.

Lemma sort_by_score_desc_uniform (s : Z) (l : list search_result) :
  Forall (fun r => score r = s) l -> sort_by_score_desc l = l.
Proof.
  induction 1 as [|x l Hx Hall IH]; [reflexivity|].
  cbn [sort_by_score_desc fold_right]. fold (sort_by_score_desc l).
  rewrite IH. destruct Hall as [|y l Hy Hall]; [reflexivity|].
  cbn [insert_by_score].
  destruct (score y >? score x) eqn:Hcmp; [lia|reflexivity].
Qed.

Lemma slice_to_firstn {A} (l : list A) (stop : Z) :
  slice_to l stop = firstn (Z.to_nat (adjust_index stop (len l))) l.
Proof.
  unfold slice_to, slice.
  assert (adjust_index 0 (len l) = 0) as ->
    by (unfold adjust_index, len; cbn; lia).
  cbn [Z.to_nat skipn]. rewrite Z.sub_0_r. reflexivity.
Qed.

Lemma slice_to_length {A} (l : list A) (stop : Z) :
  0 <= stop -> len (slice_to l stop) <= stop.
Proof.
  intros Hstop. rewrite slice_to_firstn. unfold len, adjust_index.
  rewrite length_firstn.
  destruct (stop <? 0) eqn:Hneg; lia.
Qed.

Lemma slice_to_all {A} (l : list A) (stop : Z) :
  len l <= stop -> slice_to l stop = l.
Proof.
  intros Hstop. rewrite slice_to_firstn. unfold adjust_index, len in *.
  destruct (stop <? 0) eqn:Hneg; [lia|].
  apply firstn_all2. lia.
Qed.

Lemma slice_to_exact {A} (l : list A) (stop : Z) :
  0 <= stop <= len l -> len (slice_to l stop) = stop.
Proof.
  intros Hstop. rewrite slice_to_firstn. unfold adjust_index, len in *.
  destruct (stop <? 0) eqn:Hneg; [lia|].
  rewrite length_firstn. lia.
Qed.

Lemma firstn_sorted {A} (R : A -> A -> Prop) (n : nat) : forall l,
  StronglySorted R l -> StronglySorted R (firstn n l).
Proof.
  induction n as [|n IH]; intros l Hsorted; [constructor|].
  destruct Hsorted as [|x l Hsorted Hall]; cbn [firstn]; constructor.
  - apply IH, Hsorted.
  - apply Forall_forall. intros y Hy.
    rewrite Forall_forall in Hall. apply Hall.
    rewrite <- (firstn_skipn n l). apply in_or_app. left. exact Hy.
Qed.

Lemma firstn_filter_prefix {A} (p : A -> bool) (n : nat) (l : list A) :
  exists rest, filter p l = filter p (firstn n l) ++ rest.
Proof.
  exists (filter p (skipn n l)).
  rewrite <- filter_app, firstn_skipn. reflexivity.
Qed.

Lemma firstn_In {A} (n : nat) (l : list A) (x : A) :
  In x (firstn n l) -> In x l.
Proof.
  intros Hx. rewrite <- (firstn_skipn n l). apply in_or_app. left. exact Hx.
Qed.

(** ** Dictionaries *)
Lemma str_eqb_eq (a b : str) : str_eqb a b = true <-> a = b.
Proof.
  revert b. induction a as [|x a IH]; intros [|y b]; cbn; try easy.
  rewrite andb_true_iff, IH. unfold char_eqb. rewrite N.eqb_eq.
  split; [intros [-> ->]; reflexivity|intros [= -> ->]; auto].
Qed.

Lemma dict_mem_get {V} (d : dict V) (k : str) :
  dict_mem d k = true <-> exists v, dict_get d k = Some v.
Proof.
  unfold dict_mem, dict_get.
  induction d as [|[k' v'] d IH]; cbn.
  - split; [discriminate|intros [v [=]]].
  - destruct (str_eqb k' k); cbn; [split; eauto|exact IH].
Qed.

Lemma dict_get_In {V} (d : dict V) (k : str) (v : V) :
  dict_get d k = Some v -> In (k, v) d.
Proof.
  unfold dict_get.
  destruct (find (fun kv => str_eqb (fst kv) k) d) as [[k' v']|] eqn:Hfind;
    [|discriminate].
  cbn. intros [= ->]. apply find_some in Hfind as [Hin Hk].
  apply str_eqb_eq in Hk. cbn in Hk. subst k'. exact Hin.
Qed.

Lemma dict_wf_functional {V} (d : dict V) (k : str) (a b : V) :
  dict_wf d -> In (k, a) d -> In (k, b) d -> a = b.
Proof.
  unfold dict_wf. induction d as [|[k' v'] d IH]; cbn; [easy|].
  intros Hwf Ha Hb. inversion Hwf as [|? ? Hnotin Hwf']; subst.
  assert (forall c, In (k, c) d -> In k (map fst d)) as Hkey
    by (intros c Hc; apply (in_map fst) in Hc; exact Hc).
  destruct Ha as [Ha|Ha], Hb as [Hb|Hb].
  - congruence.
  - injection Ha as -> _. exfalso. eauto.
  - injection Hb as -> _. exfalso. eauto.
  - auto.
Qed.

Lemma dict_del_absent {V} (d : dict V) (k : str) :
  dict_mem d k = false -> dict_del d k = d.
Proof.
  unfold dict_mem, dict_del.
  induction d as [|[k' v'] d IH]; cbn; [reflexivity|].
  destruct (str_eqb k' k); cbn; [discriminate|].
  intros Hd. rewrite IH by exact Hd. reflexivity.
Qed.

Lemma dict_del_mem {V} (d : dict V) (k : str) :
  dict_mem (dict_del d k) k = false.
Proof.
  unfold dict_mem, dict_del.
  induction d as [|[k' v'] d IH]; cbn; [reflexivity|].
  destruct (str_eqb k' k) eqn:Hk; cbn; [exact IH|].
  rewrite Hk. exact IH.
Qed.


(** ** The scan of [search_documents] *)
Section SearchFacts.
Context {E : Env}.
Import SimpleDocumentStore.

Lemma search_one_appends ql kws results item w :
  search_one ql kws results item w = (Ok (results ++ emitted ql kws w item), w).
Proof.
  destruct item as [doc_id info].
  unfold emitted, search_one, try_except, bind, path_exists, read_file, ret.
  destruct (dict_mem (disk w) (markdown_file info)); cbn;
    [|rewrite app_nil_r; reflexivity].
  destruct (dict_get (disk w) (markdown_file info)) as [[content| |]|]; cbn;
    try (rewrite app_nil_r; reflexivity).
  destruct (score_of ql kws (lower content) >? 0); cbn;
    [|rewrite app_nil_r; reflexivity].
  match goal with |- context [if truthy ?c then _ else _] =>
    destruct (truthy c) end; cbn; [reflexivity|].
  rewrite app_nil_r; reflexivity.
Qed.

Lemma scan_appends ql kws (ix : dict doc_info) : forall results w,
  for_each ix (search_one ql kws) results w
  = (Ok (results ++ flat_map (emitted ql kws w) ix), w).
Proof.
  induction ix as [|item ix IH]; intros results w; cbn [for_each flat_map].
  - unfold ret. rewrite app_nil_r. reflexivity.
  - unfold bind. rewrite search_one_appends, IH, <- app_assoc. reflexivity.
Qed.

Lemma search_documents_run query max_results w :
  search_documents query max_results w
  = (Ok (slice_to
           (sort_by_score_desc
              (flat_map (emitted (lower query) (_extract_keywords (lower query)) w)
                        (documents_index w)))
           max_results), w).
Proof.
  unfold search_documents, bind, get_index.
  rewrite scan_appends. reflexivity.
Qed.

(** Where an emitted result comes from. *)
Lemma emitted_inv ql kws w doc_id info r :
  In r (emitted ql kws w (doc_id, info)) ->
  emitted ql kws w (doc_id, info) = [r]
  /\ document_id (result_meta r) = doc_id
  /\ source (result_meta r) = filename info
  /\ exists content,
       dict_get (disk w) (markdown_file info) = Some (Readable content)
       /\ score r = score_of ql kws (lower content)
       /\ 0 < score r.
Proof.
  unfold emitted, search_one, try_except, bind, path_exists, read_file, ret.
  destruct (dict_mem (disk w) (markdown_file info)); cbn; [|easy].
  destruct (dict_get (disk w) (markdown_file info)) as [[content| |]|]; cbn;
    try easy.
  destruct (score_of ql kws (lower content) >? 0) eqn:Hscore; cbn; [|easy].
  match goal with |- context [if truthy ?c then _ else _] =>
    destruct (truthy c) end; cbn; [|easy].
  intros [<-|[]]. cbn. repeat split; try reflexivity.
  exists content. repeat split; lia.
Qed.


Lemma emitted_hit ql kws w doc_id info content :
  dict_get (disk w) (markdown_file info) = Some (Readable content) ->
  0 < score_of ql kws (lower content) ->
  truthy (line_contexts ql kws (split_on NL content)) = true ->
  exists r,
    emitted ql kws w (doc_id, info) = [r]
    /\ document_id (result_meta r) = doc_id
    /\ score r = score_of ql kws (lower content).
Proof.
  intros Hread Hscore Hlines.
  unfold emitted, search_one, try_except, bind, path_exists, read_file, ret.
  assert (dict_mem (disk w) (markdown_file info) = true) as ->
    by (apply dict_mem_get; eauto).
  cbn. rewrite Hread. cbn.
  assert ((score_of ql kws (lower content) >? 0) = true) as -> by lia.
  rewrite Hlines. cbn [negb]. rewrite Hlines.
  eexists. repeat split.
Qed.

(** The score, in closed form. *)
Lemma score_of_closed ql kws cl :
  score_of ql kws cl
  = (if str_in ql cl then 10 else 0)
    + 3 * len (filter (fun keyword => str_in keyword cl) kws).
Proof.
  unfold score_of.
  replace (if str_in ql cl then 0 + 10 else 0)
    with (if str_in ql cl then 10 else 0) by (destruct (str_in ql cl); reflexivity).
  generalize (if str_in ql cl then 10 else 0) as base.
  induction kws as [|k kws IH]; intros base; cbn [fold_left filter].
  - unfold len. cbn. lia.
  - rewrite IH. destruct (str_in k cl); unfold len; cbn [List.length]; lia.
Qed.

Lemma score_of_positive ql kws cl :
  0 < score_of ql kws cl ->
  str_in ql cl = true \/ exists k, In k kws /\ str_in k cl = true.
Proof.
  rewrite score_of_closed. destruct (str_in ql cl); [auto|].
  intros Hpos. right.
  destruct (filter (fun keyword => str_in keyword cl) kws) as [|k ks] eqn:Hf.
  - unfold len in Hpos. cbn in Hpos. lia.
  - exists k.
    apply (filter_In (fun keyword => str_in keyword cl)).
    rewrite Hf. left. reflexivity.
Qed.

End SearchFacts.

(** ** The empty query *)
Lemma str_in_empty (s : str) : str_in [] s = true.
Proof. destruct s; reflexivity. Qed.

Lemma fold_left_appends {A B} (f : list B -> A -> list B) (g : A -> list B) :
  (forall acc x, f acc x = acc ++ g x) ->
  forall l acc, fold_left f l acc = acc ++ flat_map g l.
Proof.
  intros Hf l. induction l as [|x l IH]; intros acc; cbn [fold_left flat_map].
  - rewrite app_nil_r. reflexivity.
  - rewrite IH, Hf, <- app_assoc. reflexivity.
Qed.

Lemma enumerate_In {A} (l : list A) : forall start i,
  start <= i < start + len l -> exists x, In (i, x) (enumerate start l).
Proof.
  induction l as [|y l IH]; intros start i Hi; unfold len in *;
    cbn [List.length enumerate] in *; [lia|].
  destruct (Z.eq_dec i start) as [->|Hne].
  - exists y. left. reflexivity.
  - destruct (IH (start + 1) i) as [x Hx]; [lia|].
    exists x. right. exact Hx.
Qed.

Section EmptyQueryFacts.
Context {E : Env}.
Import SimpleDocumentStore.

Lemma extract_keywords_empty : _extract_keywords [] = [].
Proof. reflexivity. Qed.

Lemma score_of_empty_query (cl : str) : score_of [] [] cl = 10.
Proof. unfold score_of. rewrite str_in_empty. reflexivity. Qed.

(** Every line matches the empty phrase, so only the length filter decides. *)
Lemma line_contexts_empty_query (kws : list str) (lines : list str) :
  line_contexts [] kws lines
  = flat_map
      (fun '(i, _) =>
         if 10 <? len (context_around lines i)
         then [clip 400 (context_around lines i)] else [])
      (enumerate 0 lines).
Proof.
  unfold line_contexts.
  rewrite fold_left_appends
    with (g := fun '(i, _) =>
                 if 10 <? len (context_around lines i)
                 then [clip 400 (context_around lines i)] else []);
    [reflexivity|].
  intros acc [i line]. rewrite str_in_empty.
  destruct (context_around lines i) as [|c cs] eqn:Hctx; cbn [truthy andb].
  - unfold len. cbn. rewrite app_nil_r. reflexivity.
  - rewrite Z.gtb_ltb.
    destruct (10 <? len (c :: cs)); [reflexivity|].
    rewrite app_nil_r. reflexivity.
Qed.

Lemma line_contexts_empty_query_truthy (kws : list str) (lines : list str) (i : Z) :
  0 <= i < len lines ->
  10 < len (context_around lines i) ->
  truthy (line_contexts [] kws lines) = true.
Proof.
  intros Hi Hlong. rewrite line_contexts_empty_query.
  destruct (enumerate_In lines 0 i) as [line Hline]; [lia|].
  match goal with |- truthy (flat_map ?g ?l) = true =>
    assert (In (clip 400 (context_around lines i)) (flat_map g l)) as Hin
  end.
  { apply in_flat_map. exists (i, line). split; [exact Hline|].
    assert ((10 <? len (context_around lines i)) = true) as -> by lia.
    left. reflexivity. }
  destruct (flat_map _ _); [destruct Hin|reflexivity].
Qed.

End EmptyQueryFacts.

(** ** Listing and deleting *)
Section LifecycleFacts.
Context {E : Env}.
Import SimpleDocumentStore.

Lemma list_one_appends documents item w :
  list_one documents item w = (Ok (documents ++ listed w item), w).
Proof.
  destruct item as [doc_id info].
  unfold listed, list_one, try_except, bind, path_exists, read_file, ret.
  destruct (dict_mem (disk w) (markdown_file info)); cbn; [|reflexivity].
  destruct (dict_get (disk w) (markdown_file info)) as [[content| |]|]; cbn;
    try (rewrite app_nil_r; reflexivity).
  match goal with |- context [if ?c then _ else _] => destruct c end;
    reflexivity.
Qed.


Lemma get_all_documents_run w :
  get_all_documents w = (Ok (flat_map (listed w) (documents_index w)), w).
Proof.
  unfold get_all_documents, bind, get_index.
  generalize (documents_index w) as ix.
  assert (forall ix acc,
             for_each ix list_one acc w = (Ok (acc ++ flat_map (listed w) ix), w))
    as Hloop.
  { induction ix as [|item ix IH]; intros acc; cbn [for_each flat_map].
    - unfold ret. rewrite app_nil_r. reflexivity.
    - unfold bind. rewrite list_one_appends, IH, <- app_assoc. reflexivity. }
  intros ix. apply Hloop.
Qed.


Lemma delete_document_absent w document_id :
  dict_mem (documents_index w) document_id = false ->
  delete_document document_id w = (Ok false, w).
Proof.
  intros Habsent. unfold delete_document, try_except, bind, get_index.
  rewrite Habsent. reflexivity.
Qed.

Lemma delete_document_present w document_id info :
  dict_get (documents_index w) document_id = Some info ->
  dict_get (disk w) (markdown_file info) <> Some Directory ->
  exists w',
    delete_document document_id w = (Ok true, w')
    /\ documents_index w' = dict_del (documents_index w) document_id
    /\ disk w' = dict_del (disk w) (markdown_file info)
    /\ documents_json w' = Some (dict_del (documents_index w) document_id)
    /\ llm_requests w' = llm_requests w.
Proof.
  intros Hget Hfile.
  assert (dict_mem (documents_index w) document_id = true) as Hmem
    by (apply dict_mem_get; eauto).
  unfold delete_document, _save_documents_index, try_except, bind, get_index,
    path_exists, remove_file, set_index, dump_index, ret.
  rewrite Hmem, Hget.
  destruct (dict_mem (disk w) (markdown_file info)) eqn:Hthere; cbn.
  - destruct (dict_get (disk w) (markdown_file info)) as [[data| |]|] eqn:Hentry;
      cbn; [| |contradiction|];
      try (eexists; repeat split; fail).
    apply dict_mem_get in Hthere as [f Hf]. congruence.
  - eexists. repeat split. cbn.
    symmetry. apply dict_del_absent. exact Hthere.
Qed.

(** When the artifact cannot be removed the call ends in the [except]
    clause: nothing has changed by then. *)
Lemma delete_document_blocked w document_id info :
  dict_get (documents_index w) document_id = Some info ->
  dict_get (disk w) (markdown_file info) = Some Directory ->
  delete_document document_id w = (Ok false, w).
Proof.
  intros Hget Hfile.
  assert (dict_mem (documents_index w) document_id = true) as Hmem
    by (apply dict_mem_get; eauto).
  assert (dict_mem (disk w) (markdown_file info) = true) as Hthere
    by (apply dict_mem_get; eauto).
  unfold delete_document, _save_documents_index, try_except, bind, get_index,
    path_exists, remove_file, set_index, dump_index, ret.
  rewrite Hmem, Hget. cbn. rewrite Hthere, Hfile. reflexivity.
Qed.

(** [delete_document] returns [True] or [False]; after [True] the index
    file holds the index. *)
Lemma delete_document_returns w document_id :
  exists success w',
    delete_document document_id w = (Ok success, w')
    /\ (success = true -> documents_json w' = Some (documents_index w')).
Proof.
  destruct (dict_get (documents_index w) document_id) as [info|] eqn:Hget.
  - destruct (dict_get (disk w) (markdown_file info)) as [[data| |]|] eqn:Hfile.
    4: { destruct (delete_document_present w document_id info Hget)
           as (w' & Hrun & Hindex & _ & Hjson & _); [congruence|].
         exists true, w'. split; [exact Hrun|]. congruence. }
    3: { exists false, w. split; [|discriminate].
         apply (delete_document_blocked w document_id info); assumption. }
    all: destruct (delete_document_present w document_id info Hget)
           as (w' & Hrun & Hindex & _ & Hjson & _); [congruence|];
         exists true, w'; split; [exact Hrun|]; congruence.
  - exists false, w. split; [|discriminate].
    apply delete_document_absent.
    destruct (dict_mem (documents_index w) document_id) eqn:Hmem; [|reflexivity].
    apply dict_mem_get in Hmem as [info Hinfo]. congruence.
Qed.

End LifecycleFacts.

Lemma library_wf : dict_wf (documents_index library).
Proof.
  unfold dict_wf. vm_compute.
  repeat (constructor; [cbn; intuition discriminate|]). constructor.
Defined.

Lemma scan_in_index_order (E : Env) ql kws w (ix : dict doc_info) :
  subsequence
    (map (fun r => document_id (result_meta r)) (flat_map (emitted ql kws w) ix))
    (map fst ix).
Proof.
  induction ix as [|[doc_id info] ix IH]; cbn [flat_map map fst]; [constructor|].
  destruct (emitted ql kws w (doc_id, info)) as [|r rs] eqn:Hem.
  - cbn [app]. constructor. exact IH.
  - destruct (emitted_inv ql kws w doc_id info r) as (Hone & Hid & _).
    + rewrite Hem. left. reflexivity.
    + rewrite Hem in Hone. injection Hone as ->.
      cbn [app map]. rewrite Hid. apply subsequence_keep. exact IH.
Qed.

(** * The claims *)

(** C1, as stated, fails: the query "fox fox" yields the keyword list
    [fox; fox], and a content holding "fox" once gets 3 for each of the two
    entries, 6 in all, where one hit per distinct keyword would give 3. *)
Lemma C1_counterexample :
  let query_lower := @lower demo_env (U "fox fox") in
  let query_keywords :=
    @SimpleDocumentStore._extract_keywords demo_env query_lower in
  let content_lower := @lower demo_env (U "The fox runs fast") in
  query_keywords = [U "fox"; U "fox"]
  /\ str_in query_lower content_lower = false
  /\ SimpleDocumentStore.score_of query_lower query_keywords content_lower = 6
  /\ 3 * len (distinct (filter (fun keyword => str_in keyword content_lower)
                               query_keywords)) = 3
  /\ SimpleDocumentStore.score_of query_lower query_keywords content_lower
     <> (if str_in query_lower content_lower then 10 else 0)
        + 3 * len (distinct (filter (fun keyword => str_in keyword content_lower)
                                    query_keywords)).
Proof. vm_compute. repeat split; discriminate. Qed.

(** C1 (amended): the score of a document is 10 for the exact phrase, if
    present, plus 3 for every entry of the extracted keyword list, repeated
    entries included, that occurs as a substring of the lowercased content;
    an entry adds 3 once, however often it occurs in the content. *)
Theorem C1_keyword_score (E : Env) (query content : str) :
  let query_lower := lower query in
  let query_keywords := SimpleDocumentStore._extract_keywords query_lower in
  let content_lower := lower content in
  SimpleDocumentStore.score_of query_lower query_keywords content_lower
  = (if str_in query_lower content_lower then 10 else 0)
    + 3 * len (filter (fun keyword => str_in keyword content_lower)
                      query_keywords).
Proof. cbv zeta. apply score_of_closed. Qed.

(** C2, as stated, fails: a short text comes back as it is, with its
    leading blank, not trimmed. *)
Lemma C2_counterexample :
  len (U " a") <= chunk_size (@settings demo_env)
  /\ @SimpleDocumentStore._split_text_into_chunks demo_env 1 (U " a")
     = Some [U " a"]
  /\ @DocumentProcessor.split_text_into_chunks demo_env 1 (U " a") None None
     = Some [U " a"]
  /\ [U " a"] <> [strip (U " a")].
Proof. vm_compute. repeat split; discriminate. Qed.

(** C2 (amended): for every text with [len(text) <= chunk_size] both
    chunking functions return exactly one chunk, the input text itself,
    untrimmed. *)
Theorem C2_short_text_is_one_chunk (E : Env) (fuel : nat) (text : str)
        (size overlap : option Z) :
  (len text <= chunk_size settings ->
   SimpleDocumentStore._split_text_into_chunks fuel text = Some [text])
  /\ (len text <= DocumentProcessor.int_or size (chunk_size settings) ->
      DocumentProcessor.split_text_into_chunks fuel text size overlap
      = Some [text]).
Proof.
  split; intros Hshort.
  - apply split_short. exact Hshort.
  - apply split_short. exact Hshort.
Qed.

Lemma C2_witness :
  @SimpleDocumentStore._split_text_into_chunks demo_env 0 (U " a") = Some [U " a"]
  /\ @DocumentProcessor.split_text_into_chunks demo_env 0 (U " a") (Some 5) None
     = Some [U " a"].
Proof.
  destruct (C2_short_text_is_one_chunk demo_env 0 (U " a") (Some 5) None)
    as [Hstore Hprocessor].
  split; [apply Hstore|apply Hprocessor]; vm_compute; discriminate.
Defined.

(** C3, as stated, fails: with a window of 10 and an overlap of 7 the
    overlap is below the window size, yet on a text with a period at index 6
    the first window ends at 7, the next start is 0 again, and no number of
    iterations ends the loop. *)
Lemma C3_counterexample :
  chunk_overlap (@settings narrow_env) < chunk_size (@settings narrow_env)
  /\ forall fuel,
       @SimpleDocumentStore._split_text_into_chunks narrow_env fuel stuck_text
       = None.
Proof.
  split; [reflexivity|].
  intros fuel. unfold SimpleDocumentStore._split_text_into_chunks, Chunking.split.
  replace (len stuck_text <=? chunk_size (@settings narrow_env)) with false
    by reflexivity.
  apply stuck_loop.
Qed.

(** C3 (amended): for every input text, whenever [chunk_overlap < chunk_size]
    and [chunk_overlap <= chunk_size // 2 + 1], the chunking loop terminates:
    [len(text) + 1] tests of the loop condition suffice, in either chunking
    function.  Only configurations outside these two bounds can fail to
    advance. *)
Theorem C3_chunking_terminates (E : Env) (text : str) (size overlap : option Z) :
  (chunk_overlap settings < chunk_size settings ->
   chunk_overlap settings <= chunk_size settings / 2 + 1 ->
   exists chunks, forall fuel,
     (List.length text < fuel)%nat ->
     SimpleDocumentStore._split_text_into_chunks fuel text = Some chunks)
  /\ (DocumentProcessor.int_or overlap (chunk_overlap settings)
      < DocumentProcessor.int_or size (chunk_size settings) ->
      DocumentProcessor.int_or overlap (chunk_overlap settings)
      <= DocumentProcessor.int_or size (chunk_size settings) / 2 + 1 ->
      exists chunks, forall fuel,
        (List.length text < fuel)%nat ->
        DocumentProcessor.split_text_into_chunks fuel text size overlap
        = Some chunks).
Proof.
  split; intros Hlt Hhalf; apply split_returns; assumption.
Qed.

Lemma C3_witness :
  (exists chunks, forall fuel,
      (List.length stuck_text < fuel)%nat ->
      @SimpleDocumentStore._split_text_into_chunks demo_env fuel stuck_text
      = Some chunks)
  /\ (exists chunks, forall fuel,
         (List.length stuck_text < fuel)%nat ->
         @DocumentProcessor.split_text_into_chunks
           narrow_env fuel stuck_text None (Some 6)
         = Some chunks).
Proof.
  split.
  - apply (C3_chunking_terminates demo_env stuck_text None None);
      vm_compute; [reflexivity|discriminate].
  - apply (C3_chunking_terminates narrow_env stuck_text None (Some 6));
      vm_compute; [reflexivity|discriminate].
Defined.

Lemma subsequence_trans {A} (a b c : list A) :
  subsequence a b -> subsequence b c -> subsequence a c.
Proof.
  intros Hab Hbc. revert a Hab.
  induction Hbc as [|x b c Hbc IH|x b c Hbc IH]; intros a Hab.
  - exact Hab.
  - constructor. apply IH, Hab.
  - inversion Hab; subst.
    + constructor. apply IH. assumption.
    + apply subsequence_keep. apply IH. assumption.
Qed.

Lemma subsequence_filter {A} (p : A -> bool) (l : list A) :
  subsequence (filter p l) l.
Proof.
  induction l as [|x l IH]; cbn [filter]; [constructor|].
  destruct (p x); constructor; exact IH.
Qed.

Lemma subsequence_prefix {A} (a rest : list A) : subsequence a (a ++ rest).
Proof.
  induction a as [|x a IH]; cbn [app].
  - induction rest; constructor; assumption.
  - apply subsequence_keep, IH.
Qed.

Lemma subsequence_map {A B} (f : A -> B) (a b : list A) :
  subsequence a b -> subsequence (map f a) (map f b).
Proof. induction 1; cbn [map]; constructor; assumption. Qed.

Lemma result_origin (E : Env) ql kws w (ix : dict doc_info) max_results r :
  In r (slice_to (sort_by_score_desc (flat_map (emitted ql kws w) ix)) max_results) ->
  exists doc_id info,
    In (doc_id, info) ix /\ In r (emitted ql kws w (doc_id, info)).
Proof.
  rewrite slice_to_firstn. intros Hr.
  apply firstn_In, sort_by_score_desc_In, in_flat_map in Hr
    as [[doc_id info] [Hitem Hr]].
  eauto.
Qed.

(** C4: for every state and query the search returns, and (a) a content
    whose lowercased form contains the lowercased query scores at least 10;
    (b) every returned result carries the score of the readable content of
    the index record it names; (c) a record whose content holds neither the
    phrase nor any extracted keyword is named by no returned result. *)
Theorem C4_search_scoring (E : Env) (w : world) (query : str) (max_results : Z) :
  let query_lower := lower query in
  let query_keywords := SimpleDocumentStore._extract_keywords query_lower in
  exists results,
    SimpleDocumentStore.search_documents query max_results w = (Ok results, w)
    /\ (forall content,
          str_in query_lower (lower content) = true ->
          10 <= SimpleDocumentStore.score_of query_lower query_keywords
                  (lower content))
    /\ (forall r,
          In r results ->
          exists info content,
            In (document_id (result_meta r), info) (documents_index w)
            /\ dict_get (disk w) (markdown_file info) = Some (Readable content)
            /\ score r = SimpleDocumentStore.score_of query_lower query_keywords
                           (lower content))
    /\ (forall doc_id info content,
          dict_wf (documents_index w) ->
          In (doc_id, info) (documents_index w) ->
          dict_get (disk w) (markdown_file info) = Some (Readable content) ->
          str_in query_lower (lower content) = false ->
          (forall keyword,
              In keyword query_keywords ->
              str_in keyword (lower content) = false) ->
          forall r, In r results -> document_id (result_meta r) <> doc_id).
Proof.
  intros ql kws. eexists. split; [apply search_documents_run|].
  fold ql. fold kws. split; [|split].
  - intros content Hphrase. rewrite score_of_closed, Hphrase.
    unfold len. lia.
  - intros r Hr.
    apply result_origin in Hr as (doc_id & info & Hitem & Hr).
    apply emitted_inv in Hr as (_ & Hid & _ & content & Hread & Hscore & _).
    exists info, content. rewrite Hid. auto.
  - intros doc_id info content Hwf Hitem Hread Hphrase Hkeywords r Hr Hid.
    apply result_origin in Hr as (doc_id' & info' & Hitem' & Hr).
    apply emitted_inv in Hr as (_ & Hid' & _ & content' & Hread' & Hscore & Hpos).
    assert (doc_id' = doc_id) as -> by congruence.
    assert (info' = info) as ->
      by (eapply dict_wf_functional; eassumption).
    assert (content' = content) as -> by congruence.
    rewrite Hscore in Hpos.
    apply score_of_positive in Hpos as [Hp|(keyword & Hk & Hp)].
    + congruence.
    + rewrite (Hkeywords keyword Hk) in Hp. discriminate.
Qed.

Lemma C4_witness :
  10 <= SimpleDocumentStore.score_of
          (@lower demo_env (U "fox"))
          (@SimpleDocumentStore._extract_keywords demo_env (@lower demo_env (U "fox")))
          (@lower demo_env (U "The fox runs fast"))
  /\ exists results,
       @SimpleDocumentStore.search_documents demo_env (U "fox") 5 library
       = (Ok results, library)
       /\ forall r, In r results -> document_id (result_meta r) <> U "d3".
Proof.
  destruct (C4_search_scoring demo_env library (U "fox") 5)
    as (results & Hrun & Hexact & _ & Hnone).
  split.
  - apply (Hexact (U "The fox runs fast")). reflexivity.
  - exists results. split; [exact Hrun|].
    apply (Hnone (U "d3") (record_of (U "d3")) (U "the cat sleeps all day")).
    + exact library_wf.
    + right. right. left. reflexivity.
    + reflexivity.
    + reflexivity.
    + intros keyword Hk. vm_compute in Hk. destruct Hk as [<-|[]]. reflexivity.
Defined.

(** C5, as stated, fails on the length bound: [max_results] is an unchecked
    [int], and with [max_results = -1] the slice [results[:-1]] drops the
    last of two results and returns one, which is more than -1. *)
Lemma C5_counterexample :
  exists results,
    @SimpleDocumentStore.search_documents demo_env (U "fox") (-1) library
    = (Ok results, library)
    /\ len results = 1
    /\ ~ len results <= -1.
Proof.
  eexists. split; [vm_compute; reflexivity|].
  split; [reflexivity|]. unfold len. cbn [List.length]. lia.
Qed.

(** C5 (amended): for every state, query and [max_results] the returned list
    is ordered by score, descending; results of equal score keep the order
    in which the scan of the index produced them, which is the iteration
    order of the index; and whenever [max_results >= 0] the list has at most
    [max_results] elements. *)
Theorem C5_search_ranking (E : Env) (w : world) (query : str) (max_results : Z) :
  let scanned :=
    flat_map (emitted (lower query)
                      (SimpleDocumentStore._extract_keywords (lower query)) w)
             (documents_index w) in
  exists results,
    SimpleDocumentStore.search_documents query max_results w = (Ok results, w)
    /\ StronglySorted by_score_desc results
    /\ (forall s, exists rest,
          filter (fun r => score r =? s) scanned
          = filter (fun r => score r =? s) results ++ rest)
    /\ (forall s,
          subsequence
            (map (fun r => document_id (result_meta r))
                 (filter (fun r => score r =? s) results))
            (map fst (documents_index w)))
    /\ (0 <= max_results -> len results <= max_results).
Proof.
  intros scanned. eexists. split; [apply search_documents_run|].
  fold scanned. rewrite slice_to_firstn.
  split; [|split; [|split]].
  - apply firstn_sorted, sort_by_score_desc_sorted.
  - intros s. rewrite <- (sort_by_score_desc_stable s scanned).
    apply firstn_filter_prefix.
  - intros s.
    eapply subsequence_trans; [|apply scan_in_index_order].
    apply subsequence_map. fold scanned.
    apply subsequence_trans with (b := filter (fun r => score r =? s) scanned);
      [|apply subsequence_filter].
    rewrite <- (sort_by_score_desc_stable s scanned).
    match goal with |- subsequence (filter _ (firstn ?n ?l)) _ =>
      destruct (firstn_filter_prefix (fun r => score r =? s) n l) as [rest ->]
    end.
    apply subsequence_prefix.
  - intros Hmax. rewrite <- slice_to_firstn. apply slice_to_length. exact Hmax.
Qed.

Lemma C5_witness :
  exists results,
    @SimpleDocumentStore.search_documents demo_env (U "the fox") 1 library
    = (Ok results, library)
    /\ len results <= 1.
Proof.
  destruct (C5_search_ranking demo_env library (U "the fox") 1)
    as (results & Hrun & _ & _ & _ & Hlen).
  exists results. split; [exact Hrun|].
  apply Hlen. discriminate.
Defined.

(** C6: for every upload whose filename has an extension outside the allowed
    list, or whose size exceeds the configured maximum, the validation fails
    and [upload_document] raises without changing the state: no raw file is
    written, no artifact is rendered, the index is as before. *)
Theorem C6_invalid_upload_no_effect (E : Env) (file_content filename : str)
        (w : world) :
  str_mem (lstrip_chars (U ".") (lower (path_suffix filename)))
          DocumentProcessor.allowed_extensions = false
  \/ len file_content > max_file_size settings ->
  fst (DocumentProcessor.validate_file filename (len file_content)) = false
  /\ RAGService.upload_document file_content filename w
     = (Raise (U "Error processing document: "
               ++ snd (DocumentProcessor.validate_file filename (len file_content))),
        w).
Proof.
  intros Hinvalid.
  assert (fst (DocumentProcessor.validate_file filename (len file_content)) = false)
    as Hfails.
  { unfold DocumentProcessor.validate_file.
    destruct (str_mem (lstrip_chars (U ".") (lower (path_suffix filename)))
                      DocumentProcessor.allowed_extensions);
      [|reflexivity].
    destruct Hinvalid as [Hext|Hsize]; [discriminate|].
    cbn [negb].
    assert ((len file_content >? max_file_size settings) = true) as -> by lia.
    reflexivity. }
  split; [exact Hfails|].
  unfold RAGService.upload_document, try_except.
  destruct (DocumentProcessor.validate_file filename (len file_content))
    as [is_valid message].
  cbn [fst snd] in *. subst is_valid. reflexivity.
Qed.

Lemma C6_witness :
  @RAGService.upload_document demo_env (U "abc") (U "notes.exe") library
  = (Raise (U "Error processing document: File type .exe not allowed. Allowed types: pdf, txt, docx, md"),
     library).
Proof.
  destruct (C6_invalid_upload_no_effect demo_env (U "abc") (U "notes.exe") library)
    as [_ Hrun].
  - left. reflexivity.
  - exact Hrun.
Defined.

(** ** The answer step without context *)
Section ContextFacts.
Context {E : Env}.
Import AzureAIService.

Lemma prepare_context_blank (documents : list search_result) :
  Forall (fun doc => strip (content doc) = []) documents ->
  _prepare_context documents = [].
Proof.
  intros Hblank. unfold _prepare_context.
  destruct (truthy documents); [|reflexivity]. cbn [negb].
  match goal with |- join _ (fold_left ?f _ _) = _ =>
    assert (forall start acc, fold_left f (enumerate start documents) acc = acc)
      as Hloop
  end.
  { induction Hblank as [|doc documents Hdoc Hrest IH]; intros start acc;
      cbn [enumerate fold_left]; [reflexivity|].
    rewrite Hdoc. cbn [truthy]. apply IH. }
  rewrite Hloop. reflexivity.
Qed.

Lemma generate_response_blank query documents max_tokens w :
  Forall (fun doc => strip (content doc) = []) documents ->
  generate_response query documents max_tokens w
  = (Ok no_information_message, w).
Proof.
  intros Hblank. unfold generate_response.
  rewrite prepare_context_blank by exact Hblank. reflexivity.
Qed.

End ContextFacts.

(** C7: whenever the retrieved context is empty, that is, there are no
    context documents or every one of them has an empty (or blank) content,
    [generate_response] returns the fixed message and leaves the state, and
    with it the log of requests sent to the LLM endpoint, as it was; this
    holds with and without a configured client. *)
Theorem C7_empty_context_no_llm (E : Env) (query : str)
        (context_documents : list search_result) (max_tokens : Z) (w : world) :
  Forall (fun doc => strip (content doc) = []) context_documents ->
  AzureAIService._prepare_context context_documents = []
  /\ AzureAIService.generate_response query context_documents max_tokens w
     = (Ok AzureAIService.no_information_message, w)
  /\ llm_requests
       (snd (AzureAIService.generate_response query context_documents max_tokens w))
     = llm_requests w.
Proof.
  intros Hblank. split; [apply prepare_context_blank, Hblank|].
  rewrite generate_response_blank by exact Hblank. split; reflexivity.
Qed.

Lemma C7_witness :
  @AzureAIService.generate_response (Demo.env Config.defaults true)
    (U "what does the fox do?") [] 1000 library
  = (Ok AzureAIService.no_information_message, library)
  /\ @AzureAIService.generate_response (Demo.env Config.defaults true)
       (U "what does the fox do?") [empty_result; blank_result] 1000 library
     = (Ok AzureAIService.no_information_message, library).
Proof.
  split.
  - apply (C7_empty_context_no_llm (Demo.env Config.defaults true)
             (U "what does the fox do?") [] 1000 library).
    constructor.
  - apply (C7_empty_context_no_llm (Demo.env Config.defaults true)
             (U "what does the fox do?") [empty_result; blank_result] 1000 library).
    repeat constructor.
Defined.

(** With a client and a non-blank context the endpoint is called: the
    statement of C7 is not vacuous. *)
Example generate_response_calls_llm :
  let result :=
    {| content := U "The fox runs fast";
       result_meta := {| document_id := U "d1"; source := U "d1.txt";
                         result_upload_time := U "2025-01-01T00:00:00" |};
       score := 13 |} in
  let run :=
    @AzureAIService.generate_response (Demo.env Config.defaults true)
      (U "fox") [result] 1000 library in
  fst run = Ok (U "an answer") /\ len (llm_requests (snd run)) = 1.
Proof. vm_compute. split; reflexivity. Qed.






(** C10: the empty query is not rejected.  When [lower] maps the empty
    string to itself, it has no keywords, every content contains it, so
    every readable document scores 10; a document one of whose line windows
    is longer than 10 characters after trimming is among the hits; all hits
    score 10, so the search returns the hits in index order cut to
    [max_results], which are all of them when [max_results] is at least
    their number and exactly [max_results] when it lies between 0 and
    their number. *)
Theorem C10_empty_query (E : Env) (w : world) (max_results : Z) :
  lower [] = [] ->
  let hits := flat_map (emitted [] [] w) (documents_index w) in
  SimpleDocumentStore._extract_keywords (lower []) = []
  /\ SimpleDocumentStore.search_documents [] max_results w
     = (Ok (slice_to hits max_results), w)
  /\ Forall (fun r => score r = 10) hits
  /\ (forall doc_id info content,
        In (doc_id, info) (documents_index w) ->
        dict_get (disk w) (markdown_file info) = Some (Readable content) ->
        str_in (lower []) (lower content) = true
        /\ SimpleDocumentStore.score_of
             (lower []) (SimpleDocumentStore._extract_keywords (lower []))
             (lower content) = 10
        /\ ((exists i,
                0 <= i < len (split_on NL content)
                /\ 10 < len (SimpleDocumentStore.context_around
                               (split_on NL content) i)) ->
            exists r,
              In r hits /\ document_id (result_meta r) = doc_id /\ score r = 10))
  /\ (len hits <= max_results -> slice_to hits max_results = hits)
  /\ (0 <= max_results <= len hits -> len (slice_to hits max_results) = max_results).
Proof.
  intros Hlower hits. rewrite Hlower.
  assert (Forall (fun r => score r = 10) hits) as Hten.
  { apply Forall_forall. intros r Hr.
    apply in_flat_map in Hr as [[doc_id info] [_ Hr]].
    apply emitted_inv in Hr as (_ & _ & _ & content & _ & Hscore & _).
    rewrite Hscore. apply score_of_empty_query. }
  split; [reflexivity|].
  split.
  { rewrite search_documents_run, Hlower.
    change (SimpleDocumentStore._extract_keywords []) with (@nil str).
    fold hits. rewrite (sort_by_score_desc_uniform 10 hits Hten). reflexivity. }
  split; [exact Hten|].
  split; [|split; [apply slice_to_all|apply slice_to_exact]].
  intros doc_id info content Hitem Hread.
  split; [apply str_in_empty|].
  change (SimpleDocumentStore._extract_keywords []) with (@nil str).
  split; [apply score_of_empty_query|].
  intros (i & Hi & Hlong).
  destruct (emitted_hit [] [] w doc_id info content Hread)
    as (r & Hr & Hid & Hscore).
  - rewrite score_of_empty_query. lia.
  - eapply line_contexts_empty_query_truthy; eassumption.
  - exists r. split; [|split; [exact Hid|]].
    + apply in_flat_map. exists (doc_id, info). split; [exact Hitem|].
      rewrite Hr. left. reflexivity.
    + rewrite Hscore. apply score_of_empty_query.
Qed.

Lemma C10_witness :
  @SimpleDocumentStore.search_documents demo_env [] 2 library
  = (Ok (slice_to (flat_map (@emitted demo_env [] [] library)
                            (documents_index library)) 2), library)
  /\ len (slice_to (flat_map (@emitted demo_env [] [] library)
                             (documents_index library)) 2) = 2
  /\ exists r,
       In r (flat_map (@emitted demo_env [] [] library) (documents_index library))
       /\ document_id (result_meta r) = U "d3" /\ score r = 10.
Proof.
  destruct (C10_empty_query demo_env library 2)
    as (_ & Hrun & _ & Hdoc & _ & Hexact); [reflexivity|].
  split; [exact Hrun|]. split.
  - apply Hexact. vm_compute. split; discriminate.
  - destruct (Hdoc (U "d3") (record_of (U "d3")) (U "the cat sleeps all day"))
      as (_ & _ & Hhit).
    + do 2 right. left. reflexivity.
    + reflexivity.
    + apply Hhit. exists 0. vm_compute. repeat split; discriminate.
Defined.

(** * Further properties of the services *)

(** ** Substrings, trimming and slicing *)
Lemma starts_with_prefix (sub s : str) :
  starts_with sub s = true <-> exists rest, s = sub ++ rest.
Proof.
  revert s. induction sub as [|x sub IH]; intros s; cbn [starts_with].
  - split; [intros _; exists s; reflexivity|reflexivity].
  - destruct s as [|y s].
    + split; [discriminate|intros [rest [=]]].
    + rewrite andb_true_iff, IH. unfold char_eqb. rewrite N.eqb_eq. split.
      * intros [-> [rest ->]]. exists rest. reflexivity.
      * intros [rest [= -> ->]]. eauto.
Qed.

Lemma str_in_infix (sub s : str) :
  str_in sub s = true <-> exists pre post, s = pre ++ sub ++ post.
Proof.
  induction s as [|y s IH].
  - cbn [str_in]. rewrite orb_false_r, starts_with_prefix. split.
    + intros [rest Hrest]. exists [], rest. exact Hrest.
    + intros (pre & post & Heq). symmetry in Heq.
      apply app_eq_nil in Heq as [-> Heq]. exists post. symmetry. exact Heq.
  - cbn [str_in]. rewrite orb_true_iff, starts_with_prefix, IH. split.
    + intros [[rest Hrest]|(pre & post & Heq)].
      * exists [], rest. exact Hrest.
      * exists (y :: pre), post. rewrite Heq. reflexivity.
    + intros ([|c pre] & post & Heq).
      * left. exists post. exact Heq.
      * right. injection Heq as -> Heq. eauto.
Qed.

Lemma str_in_refl (s : str) : str_in s s = true.
Proof. apply str_in_infix. exists [], []. rewrite app_nil_r. reflexivity. Qed.

Lemma infix_trans (a b c : str) :
  (exists pre post, b = pre ++ a ++ post) ->
  (exists pre post, c = pre ++ b ++ post) ->
  exists pre post, c = pre ++ a ++ post.
Proof.
  intros (p1 & q1 & ->) (p2 & q2 & ->).
  exists (p2 ++ p1), (q1 ++ q2). rewrite <- !app_assoc. reflexivity.
Qed.

Lemma lstrip_with_split (p : char -> bool) (s : str) :
  exists pre, s = pre ++ lstrip_with p s /\ Forall (fun c => p c = true) pre.
Proof.
  induction s as [|c s (pre & Heq & Hpre)]; cbn [lstrip_with].
  - exists []. split; [reflexivity|constructor].
  - destruct (p c) eqn:Hc.
    + exists (c :: pre). split; [cbn; f_equal; exact Heq|constructor; assumption].
    + exists []. split; [reflexivity|constructor].
Qed.

Lemma lstrip_with_head (p : char -> bool) (s : str) (c : char) (rest : str) :
  lstrip_with p s = c :: rest -> p c = false.
Proof.
  induction s as [|d s IH]; cbn [lstrip_with]; [discriminate|].
  destruct (p d) eqn:Hd; [exact IH|].
  intros [= <- _]. exact Hd.
Qed.

Lemma lstrip_with_fixed (p : char -> bool) (s : str) :
  (forall c rest, s = c :: rest -> p c = false) -> lstrip_with p s = s.
Proof.
  destruct s as [|c s]; intros Hhead; cbn [lstrip_with]; [reflexivity|].
  rewrite (Hhead c s eq_refl). reflexivity.
Qed.

Lemma lstrip_with_idempotent (p : char -> bool) (s : str) :
  lstrip_with p (lstrip_with p s) = lstrip_with p s.
Proof.
  apply lstrip_with_fixed. intros c rest Heq.
  eapply lstrip_with_head. exact Heq.
Qed.

Lemma rstrip_with_split (p : char -> bool) (s : str) :
  exists post, s = rstrip_with p s ++ post /\ Forall (fun c => p c = true) post.
Proof.
  unfold rstrip_with.
  destruct (lstrip_with_split p (rev s)) as (pre & Heq & Hpre).
  exists (rev pre). split.
  - rewrite <- rev_app_distr, <- Heq, rev_involutive. reflexivity.
  - apply Forall_rev. exact Hpre.
Qed.

Lemma strip_with_infix (p : char -> bool) (s : str) :
  exists pre post, s = pre ++ strip_with p s ++ post.
Proof.
  unfold strip_with.
  destruct (lstrip_with_split p s) as (pre & Heq & _).
  destruct (rstrip_with_split p (lstrip_with p s)) as (post & Heq' & _).
  exists pre, post. rewrite <- Heq'. exact Heq.
Qed.

Lemma strip_with_length (p : char -> bool) (s : str) :
  len (strip_with p s) <= len s.
Proof.
  destruct (strip_with_infix p s) as (pre & post & Heq).
  rewrite Heq at 2. unfold len. rewrite !length_app. lia.
Qed.

Lemma strip_with_idempotent (p : char -> bool) (s : str) :
  strip_with p (strip_with p s) = strip_with p s.
Proof.
  unfold strip_with.
  set (u := lstrip_with p s).
  assert (lstrip_with p (rstrip_with p u) = rstrip_with p u) as ->.
  { apply lstrip_with_fixed. intros c rest Heq.
    destruct (rstrip_with_split p u) as (post & Hu & _).
    rewrite Heq in Hu. cbn in Hu.
    eapply lstrip_with_head. unfold u in Hu. exact Hu. }
  unfold rstrip_with at 1. unfold rstrip_with at 1.
  rewrite rev_involutive, lstrip_with_idempotent. reflexivity.
Qed.

Lemma strip_with_empty (p : char -> bool) (s : str) :
  strip_with p s = [] <-> Forall (fun c => p c = true) s.
Proof.
  split.
  - intros Hempty. unfold strip_with in Hempty.
    destruct (lstrip_with_split p s) as (pre & Heq & Hpre).
    destruct (rstrip_with_split p (lstrip_with p s)) as (post & Heq' & Hpost).
    rewrite Hempty in Heq'. cbn in Heq'. rewrite Heq, Heq'.
    apply Forall_app. split; assumption.
  - intros Hall. unfold strip_with.
    assert (lstrip_with p s = []) as ->; [|reflexivity].
    induction Hall as [|c s Hc Hall IH]; cbn [lstrip_with]; [reflexivity|].
    rewrite Hc. exact IH.
Qed.

Lemma slice_infix {A} (l : list A) (start stop : Z) :
  exists pre post, l = pre ++ slice l start stop ++ post.
Proof.
  unfold slice.
  set (a := Z.to_nat (adjust_index start (len l))).
  set (n := Z.to_nat (adjust_index stop (len l) - adjust_index start (len l))).
  exists (firstn a l), (skipn n (skipn a l)).
  rewrite firstn_skipn, firstn_skipn. reflexivity.
Qed.

Lemma slice_length {A} (l : list A) (start stop : Z) :
  0 <= start -> 0 <= stop ->
  len (slice l start stop) <= Z.max 0 (stop - start).
Proof.
  intros Hstart Hstop. unfold slice, len, adjust_index.
  rewrite length_firstn, length_skipn.
  destruct (start <? 0) eqn:Ha; [lia|].
  destruct (stop <? 0) eqn:Hb; [lia|]. lia.
Qed.

Lemma rfind_down_bounds (sub s : str) (lo : Z) (k : nat) :
  rfind_down sub s lo k = -1
  \/ lo <= rfind_down sub s lo k < lo + Z.of_nat k.
Proof.
  induction k as [|k IH]; cbn [rfind_down]; [left; reflexivity|].
  destruct (starts_with sub (skipn (Z.to_nat (lo + Z.of_nat k)) s)).
  - right. lia.
  - destruct IH as [->|IH]; [left; reflexivity|right; lia].
Qed.

Lemma rfind_bounds (sub s : str) (start stop : Z) :
  0 <= start -> 0 <= stop ->
  rfind sub s start stop = -1
  \/ (start <= rfind sub s start stop
      /\ rfind sub s start stop + len sub <= stop).
Proof.
  intros Hstart Hstop. unfold rfind.
  assert ((start <? 0) = false) as -> by lia.
  assert ((stop <? 0) = false) as Hb by lia.
  set (b := if stop >? len s then len s else if stop <? 0
            then Z.max 0 (stop + len s) else stop).
  assert (b <= stop) as Hle.
  { unfold b. rewrite Hb. destruct (stop >? len s) eqn:Hgt; lia. }
  destruct (b - start <? len sub) eqn:Hroom; [left; reflexivity|].
  destruct (rfind_down_bounds sub s start
              (Z.to_nat (b - start - len sub + 1))) as [->|Hr];
    [left; reflexivity|right; lia].
Qed.

(** ** What the chunker produces *)
Section ChunkFacts.
Import Chunking.
Variables (text : str) (chunk_size chunk_overlap : Z).

(** One pass of the loop body: the window end [e] it settles on, the next
    start and the chunk it may add. *)
Lemma chunk_body_shape (start : Z) (chunks : list str) :
  exists e,
    chunk_body text chunk_size chunk_overlap start chunks
    = (e - chunk_overlap,
       if truthy (strip (slice text start e))
       then chunks ++ [strip (slice text start e)] else chunks)
    /\ (e = start + chunk_size
        \/ (start + chunk_size / 2 + 2 <= e
            /\ (0 <= start -> 0 <= start + chunk_size -> e <= start + chunk_size))).
Proof.
  unfold chunk_body.
  destruct (start + chunk_size <? len text);
    [|exists (start + chunk_size); split; [reflexivity|left; reflexivity]].
  destruct (negb (rfind (U ".") text start (start + chunk_size) =? -1)
            && (rfind (U ".") text start (start + chunk_size)
                >? start + chunk_size / 2)) eqn:Hcut;
    [|exists (start + chunk_size); split; [reflexivity|left; reflexivity]].
  eexists. split; [reflexivity|]. right.
  apply andb_true_iff in Hcut as [Hfound Hhalf].
  split; [lia|]. intros Hstart Hend.
  destruct (rfind_bounds (U ".") text start (start + chunk_size) Hstart Hend)
    as [Hnone|[_ Hr]].
  - rewrite Hnone in Hfound. discriminate.
  - change (len (U ".")) with 1 in Hr. exact Hr.
Qed.

Lemma chunk_loop_chunks (P : str -> Prop) :
  (forall a b, truthy (strip (slice text a b)) = true ->
               P (strip (slice text a b))) ->
  forall fuel start chunks result,
    Forall P chunks ->
    chunk_loop fuel text chunk_size chunk_overlap start chunks = Some result ->
    Forall P result.
Proof.
  intros Hchunk fuel.
  induction fuel as [|fuel IH]; intros start chunks result Hall Hrun;
    [discriminate|].
  cbn [chunk_loop] in Hrun.
  destruct (start <? len text); [|injection Hrun as <-; exact Hall].
  destruct (chunk_body_shape start chunks) as (e & Hbody & _).
  rewrite Hbody in Hrun.
  assert (Forall P (if truthy (strip (slice text start e))
                    then chunks ++ [strip (slice text start e)] else chunks))
    as Hall'.
  { destruct (truthy (strip (slice text start e))) eqn:Hne; [|exact Hall].
    apply Forall_app. split; [exact Hall|]. constructor; [|constructor].
    apply Hchunk. exact Hne. }
  destruct (e - chunk_overlap >=? len text).
  - injection Hrun as <-. exact Hall'.
  - eapply IH; eassumption.
Qed.

Lemma chunk_loop_bounded :
  0 <= chunk_size ->
  chunk_overlap < chunk_size ->
  chunk_overlap <= chunk_size / 2 + 1 ->
  forall fuel start chunks result,
    0 <= start ->
    Forall (fun c => len c <= chunk_size) chunks ->
    chunk_loop fuel text chunk_size chunk_overlap start chunks = Some result ->
    Forall (fun c => len c <= chunk_size) result
    /\ len result <= len chunks + Z.max 0 (len text - start).
Proof.
  intros Hsize Hlt Hhalf fuel.
  induction fuel as [|fuel IH]; intros start chunks result Hstart Hall Hrun;
    [discriminate|].
  cbn [chunk_loop] in Hrun.
  destruct (start <? len text) eqn:Hin;
    [|injection Hrun as <-; split; [exact Hall|]].
  2:{ unfold str in *. lia. }
  destruct (chunk_body_shape start chunks) as (e & Hbody & He).
  rewrite Hbody in Hrun.
  assert (start + 1 <= e - chunk_overlap /\ 0 <= e <= start + chunk_size)
    as [Hadv Hend].
  { clear - He Hstart Hsize Hlt Hhalf.
    assert (0 <= chunk_size / 2) as Hq by (apply Z.div_pos; lia).
    set (half := chunk_size / 2) in *. clearbody half.
    destruct He as [->|[Hlow Hup]]; [lia|].
    specialize (Hup Hstart ltac:(lia)). lia. }
  clear He Hhalf.
  match type of Hbody with context [truthy ?c] =>
    remember c as chunk eqn:Hchunk in * end.
  assert (len chunk <= chunk_size) as Hlen.
  { rewrite Hchunk. unfold strip.
    pose proof (strip_with_length is_space (slice text start e)).
    pose proof (slice_length text start e Hstart (proj1 Hend)). lia. }
  match type of Hbody with _ = (_, ?c) =>
    remember c as chunks' eqn:Hchunks' in * end.
  assert (Forall (fun c => len c <= chunk_size) chunks'
          /\ len chunks' <= len chunks + 1) as [Hall' Hcount].
  { rewrite Hchunks'. destruct (truthy chunk).
    - split; [apply Forall_app; split; [exact Hall|repeat constructor; exact Hlen]|].
      unfold len, str in *. rewrite length_app. cbn [List.length]. lia.
    - split; [exact Hall|unfold str in *; lia]. }
  clear Hchunks' Hchunk.
  destruct (e - chunk_overlap >=? len text).
  - injection Hrun as <-. split; [exact Hall'|unfold str in *; lia].
  - destruct (IH (e - chunk_overlap) chunks' result) as [Hres Hn];
      [lia|exact Hall'|exact Hrun|].
    split; [exact Hres|unfold str in *; lia].
Qed.

End ChunkFacts.

(** X1: every chunk either chunking function returns is a contiguous
    substring of the input text, for every configuration. *)
Theorem chunks_are_substrings (fuel : nat) (text : str)
        (chunk_size chunk_overlap : Z) (chunks : list str) :
  Chunking.split fuel text chunk_size chunk_overlap = Some chunks ->
  Forall (fun chunk => str_in chunk text = true) chunks.
Proof.
  unfold Chunking.split. destruct (len text <=? chunk_size).
  - intros [= <-]. repeat constructor. apply str_in_refl.
  - apply chunk_loop_chunks; [|constructor].
    intros a b _. apply str_in_infix.
    apply infix_trans with (b := slice text a b).
    + apply strip_with_infix.
    + apply slice_infix.
Qed.

Lemma chunks_are_substrings_witness :
  Forall (fun chunk =>
            str_in chunk
              (U "The quick brown fox jumps over the lazy dog. The fox runs fast.")
            = true)
         [U "The quick brown fox jumps over the lazy dog.";
          U "lazy dog. The fox runs fast."].
Proof.
  apply (chunks_are_substrings 100
           (U "The quick brown fox jumps over the lazy dog. The fox runs fast.")
           50 10).
  reflexivity.
Defined.

(** X2: with a non-negative window size and an overlap within the bounds
    that make the loop advance, no chunk is longer than [chunk_size]: a
    window cut at a sentence boundary only gets shorter. *)
Theorem chunks_within_size (fuel : nat) (text : str)
        (chunk_size chunk_overlap : Z) (chunks : list str) :
  0 <= chunk_size ->
  chunk_overlap < chunk_size ->
  chunk_overlap <= chunk_size / 2 + 1 ->
  Chunking.split fuel text chunk_size chunk_overlap = Some chunks ->
  Forall (fun chunk => len chunk <= chunk_size) chunks.
Proof.
  intros Hsize Hlt Hhalf. unfold Chunking.split.
  destruct (len text <=? chunk_size) eqn:Hshort.
  - intros [= <-]. repeat constructor. lia.
  - intros Hrun.
    apply (chunk_loop_bounded text chunk_size chunk_overlap Hsize Hlt Hhalf
             fuel 0 [] chunks); [lia|constructor|exact Hrun].
Qed.

Lemma chunks_within_size_witness :
  Forall (fun chunk => len chunk <= 50)
         [U "The quick brown fox jumps over the lazy dog.";
          U "lazy dog. The fox runs fast."].
Proof.
  apply (chunks_within_size 100
           (U "The quick brown fox jumps over the lazy dog. The fox runs fast.")
           50 10); try reflexivity; vm_compute; discriminate.
Defined.

(** X3: for a text longer than [chunk_size] every returned chunk is
    non-empty and carries no leading or trailing whitespace. *)
Theorem long_text_chunks_are_trimmed (fuel : nat) (text : str)
        (chunk_size chunk_overlap : Z) (chunks : list str) :
  chunk_size < len text ->
  Chunking.split fuel text chunk_size chunk_overlap = Some chunks ->
  Forall (fun chunk => chunk <> [] /\ strip chunk = chunk) chunks.
Proof.
  intros Hlong. unfold Chunking.split.
  assert ((len text <=? chunk_size) = false) as -> by lia.
  apply chunk_loop_chunks; [|constructor].
  intros a b Hne. split.
  - intros Hempty. rewrite Hempty in Hne. discriminate.
  - apply strip_with_idempotent.
Qed.

Lemma long_text_chunks_are_trimmed_witness :
  Forall (fun chunk => chunk <> [] /\ strip chunk = chunk)
         [U "The quick brown fox jumps over the lazy dog.";
          U "lazy dog. The fox runs fast."].
Proof.
  apply (long_text_chunks_are_trimmed 100
           (U "The quick brown fox jumps over the lazy dog. The fox runs fast.")
           50 10); reflexivity.
Defined.

(** X4: under the same bounds the chunker returns at most one chunk per
    character of the text (and the single chunk of a short text). *)
Theorem chunks_count_bounded (fuel : nat) (text : str)
        (chunk_size chunk_overlap : Z) (chunks : list str) :
  0 <= chunk_size ->
  chunk_overlap < chunk_size ->
  chunk_overlap <= chunk_size / 2 + 1 ->
  Chunking.split fuel text chunk_size chunk_overlap = Some chunks ->
  len chunks <= Z.max 1 (len text).
Proof.
  intros Hsize Hlt Hhalf. unfold Chunking.split.
  destruct (len text <=? chunk_size) eqn:Hshort.
  - intros [= <-]. unfold len at 1. cbn. lia.
  - intros Hrun.
    destruct (chunk_loop_bounded text chunk_size chunk_overlap Hsize Hlt Hhalf
                fuel 0 [] chunks) as [_ Hcount];
      [lia|constructor|exact Hrun|].
    unfold len at 2 in Hcount. cbn in Hcount. lia.
Qed.

Lemma chunks_count_bounded_witness :
  len [U "The quick brown fox jumps over the lazy dog.";
       U "lazy dog. The fox runs fast."] <= Z.max 1 63.
Proof.
  apply (chunks_count_bounded 100
           (U "The quick brown fox jumps over the lazy dog. The fox runs fast.")
           50 10); try reflexivity; vm_compute; discriminate.
Defined.

(** ** Keywords and results *)
Lemma fold_left_Forall {A B} (P : B -> Prop) (step : list B -> A -> list B) :
  (forall acc x, Forall P acc -> Forall P (step acc x)) ->
  forall l init, Forall P init -> Forall P (fold_left step l init).
Proof.
  intros Hstep l. induction l as [|x l IH]; intros init Hinit; cbn [fold_left].
  - exact Hinit.
  - apply IH, Hstep, Hinit.
Qed.

(** X5: every keyword the extractor returns is the lowercased form of a
    whitespace-separated token of the query with the surrounding punctuation
    removed, the stripped token has at least two characters, and the keyword
    is not a stop word. *)
Theorem extracted_keywords_are_filtered (E : Env) (query keyword : str) :
  In keyword (SimpleDocumentStore._extract_keywords query) ->
  exists token,
    In token (split_ws query)
    /\ keyword
       = lower (strip_chars SimpleDocumentStore.punctuation token)
    /\ 2 <= len (strip_chars SimpleDocumentStore.punctuation token)
    /\ str_mem keyword SimpleDocumentStore.stop_words = false.
Proof.
  unfold SimpleDocumentStore._extract_keywords.
  rewrite fold_left_appends
    with (g := fun word =>
                 if (len (strip_chars SimpleDocumentStore.punctuation word) >=? 2)
                    && negb (str_mem
                               (lower (strip_chars SimpleDocumentStore.punctuation word))
                               SimpleDocumentStore.stop_words)
                 then [lower (strip_chars SimpleDocumentStore.punctuation word)]
                 else []).
  - cbn [app]. intros Hin. apply in_flat_map in Hin as (token & Htoken & Hin).
    exists token. split; [exact Htoken|].
    destruct ((len (strip_chars SimpleDocumentStore.punctuation token) >=? 2)
              && negb (str_mem
                         (lower (strip_chars SimpleDocumentStore.punctuation token))
                         SimpleDocumentStore.stop_words)) eqn:Hkeep;
      [|destruct Hin].
    destruct Hin as [<-|[]].
    apply andb_true_iff in Hkeep as [Hlen Hstop].
    apply negb_true_iff in Hstop. repeat split; [lia|exact Hstop].
  - intros acc word. cbv zeta.
    match goal with |- (if ?c then _ else _) = _ => destruct c end;
      [reflexivity|rewrite app_nil_r; reflexivity].
Qed.

Lemma extracted_keywords_are_filtered_witness :
  exists token,
    In token (split_ws (U "how to use the API?"))
    /\ U "api"
       = @lower demo_env (strip_chars SimpleDocumentStore.punctuation token)
    /\ 2 <= len (strip_chars SimpleDocumentStore.punctuation token)
    /\ str_mem (U "api") SimpleDocumentStore.stop_words = false.
Proof.
  apply (extracted_keywords_are_filtered demo_env (U "how to use the API?") (U "api")).
  right. left. reflexivity.
Defined.

Lemma clip_length (limit : Z) (s : str) :
  0 <= limit -> len (SimpleDocumentStore.clip limit s) <= limit + 3.
Proof.
  intros Hlimit. unfold SimpleDocumentStore.clip.
  destruct (len s >? limit) eqn:Hlong; [|lia].
  pose proof (slice_to_length s limit Hlimit) as Hcut.
  unfold len in *. rewrite length_app. cbn [List.length U]. 
  change (List.length (U "...")) with 3%nat. lia.
Qed.

Section ResultFacts.
Context {E : Env}.
Import SimpleDocumentStore.

Lemma line_contexts_clipped ql kws lines :
  Forall (fun chunk => len chunk <= 403) (line_contexts ql kws lines).
Proof.
  unfold line_contexts. apply fold_left_Forall; [|constructor].
  intros acc [i line] Hacc.
  match goal with |- Forall _ (if ?c then _ else _) => destruct c end;
    [|exact Hacc].
  match goal with |- Forall _ (if ?c then _ else _) => destruct c end;
    [|exact Hacc].
  apply Forall_app. split; [exact Hacc|].
  repeat constructor. apply (clip_length 400). lia.
Qed.

Lemma section_contexts_clipped kws sections :
  Forall (fun chunk => len chunk <= 403) (section_contexts kws sections).
Proof.
  unfold section_contexts. apply fold_left_Forall; [|constructor].
  intros acc section Hacc.
  match goal with |- Forall _ (if ?c then _ else _) => destruct c end;
    [|exact Hacc].
  apply Forall_app. split; [exact Hacc|].
  repeat constructor. apply (clip_length 400). lia.
Qed.

Lemma join_three_length (chunks : list str) :
  Forall (fun chunk => len chunk <= 403) chunks ->
  len (join (NL ++ NL) (slice_to chunks 3)) <= 1213.
Proof.
  intros Hall. rewrite slice_to_firstn.
  assert (exists short, firstn (Z.to_nat (adjust_index 3 (len chunks))) chunks = short
                        /\ (List.length short <= 3)%nat
                        /\ Forall (fun chunk => len chunk <= 403) short)
    as (short & -> & Hshort & Hfew).
  { eexists. split; [reflexivity|]. split.
    - rewrite length_firstn. unfold adjust_index, len. cbn. lia.
    - apply Forall_forall. intros c Hc. apply firstn_In in Hc.
      rewrite Forall_forall in Hall. auto. }
  clear Hall.
  destruct short as [|a [|b [|c [|d rest]]]]; cbn [List.length] in Hshort;
    try lia; cbn [join];
    repeat match goal with
           | H : Forall _ (_ :: _) |- _ => inversion H; clear H; subst
           end;
    unfold len, str in *; rewrite ?length_app; cbn [List.length NL]; lia.
Qed.

(** What a returned result is made of. *)
Lemma emitted_content ql kws w doc_id info r :
  In r (emitted ql kws w (doc_id, info)) ->
  exists chunks,
    content r = join (NL ++ NL) (slice_to chunks 3)
    /\ Forall (fun chunk => len chunk <= 403) chunks.
Proof.
  unfold emitted, search_one, try_except, bind, path_exists, read_file, ret.
  destruct (dict_mem (disk w) (markdown_file info)); cbn; [|easy].
  destruct (dict_get (disk w) (markdown_file info)) as [[text| |]|]; cbn;
    try easy.
  destruct (score_of ql kws (lower text) >? 0); cbn; [|easy].
  match goal with |- context [if truthy ?c then _ else _] =>
    remember c as chunks eqn:Hchunks; destruct (truthy chunks) end;
    cbn; [|easy].
  intros [<-|[]]. exists chunks. split; [reflexivity|].
  rewrite Hchunks.
  match goal with |- Forall _ (if ?c then _ else _) => destruct c end.
  - apply section_contexts_clipped.
  - apply line_contexts_clipped.
Qed.

End ResultFacts.

(** X6: every result the search returns has a score of at least 3 and at
    most 10 plus 3 per extracted keyword, and a content of at most 1213
    characters: three contexts of at most 400 characters with their
    ellipses, joined by blank lines. *)
Theorem result_score_and_size_bounds (E : Env) (w w' : world) (query : str)
        (max_results : Z) (results : list search_result) (r : search_result) :
  SimpleDocumentStore.search_documents query max_results w = (Ok results, w') ->
  In r results ->
  3 <= score r
  /\ score r <= 10 + 3 * len (SimpleDocumentStore._extract_keywords (lower query))
  /\ len (content r) <= 1213.
Proof.
  rewrite search_documents_run. intros [= <- _] Hr.
  apply result_origin in Hr as (doc_id & info & _ & Hr).
  destruct (emitted_content _ _ _ _ _ _ Hr) as (chunks & Hcontent & Hclipped).
  apply emitted_inv in Hr as (_ & _ & _ & text & _ & Hscore & Hpos).
  rewrite Hcontent. split; [|split; [|apply join_three_length, Hclipped]].
  - rewrite Hscore in Hpos |- *. rewrite score_of_closed in Hpos |- *.
    unfold len in *. destruct (str_in (lower query) (lower text)); lia.
  - rewrite Hscore, score_of_closed.
    pose proof (filter_length_le
                  (fun keyword => str_in keyword (lower text))
                  (SimpleDocumentStore._extract_keywords (lower query))) as Hle.
    unfold len. destruct (str_in (lower query) (lower text)); lia.
Qed.

Lemma result_score_and_size_bounds_witness :
  Forall (fun r =>
            3 <= score r
            /\ score r
               <= 10 + 3 * len (@SimpleDocumentStore._extract_keywords demo_env
                                  (@lower demo_env (U "the fox")))
            /\ len (content r) <= 1213)
         (match @SimpleDocumentStore.search_documents demo_env (U "the fox") 5 library
          with (Ok results, _) => results | _ => [] end).
Proof.
  apply Forall_forall. intros r Hr.
  apply (result_score_and_size_bounds demo_env library library (U "the fox") 5
           (match @SimpleDocumentStore.search_documents demo_env (U "the fox") 5 library
            with (Ok results, _) => results | _ => [] end)).
  - vm_compute. reflexivity.
  - exact Hr.
Defined.

Lemma insert_by_score_permutation (x : search_result) (l : list search_result) :
  Permutation (insert_by_score x l) (x :: l).
Proof.
  induction l as [|y l IH]; cbn [insert_by_score]; [reflexivity|].
  destruct (score y >? score x); [|reflexivity].
  rewrite IH. apply perm_swap.
Qed.

Lemma sort_by_score_desc_permutation (l : list search_result) :
  Permutation (sort_by_score_desc l) l.
Proof.
  induction l as [|x l IH]; cbn [sort_by_score_desc fold_right]; [reflexivity|].
  rewrite insert_by_score_permutation. constructor. exact IH.
Qed.

Lemma subsequence_NoDup {A} (a b : list A) :
  subsequence a b -> NoDup b -> NoDup a.
Proof.
  induction 1 as [|x a b Hsub IH|x a b Hsub IH]; intros Hb.
  - constructor.
  - inversion Hb; auto.
  - inversion Hb as [|? ? Hnotin Hb']; subst. constructor; [|auto].
    intros Hin. apply Hnotin. clear - Hsub Hin.
    induction Hsub; cbn in *; intuition.
Qed.

Lemma subsequence_length {A} (a b : list A) :
  subsequence a b -> (List.length a <= List.length b)%nat.
Proof. induction 1; cbn [List.length]; lia. Qed.

(** X7: with distinct index keys, no document is returned twice: the ids
    of the returned results are pairwise distinct, each is the key of an
    index record, and there are at most as many results as records. *)
Theorem results_name_distinct_records (E : Env) (w w' : world) (query : str)
        (max_results : Z) (results : list search_result) :
  dict_wf (documents_index w) ->
  SimpleDocumentStore.search_documents query max_results w = (Ok results, w') ->
  NoDup (map (fun r => document_id (result_meta r)) results)
  /\ (forall r, In r results ->
                dict_mem (documents_index w) (document_id (result_meta r)) = true)
  /\ len results <= len (documents_index w).
Proof.
  intros Hwf. rewrite search_documents_run. intros [= <- _].
  set (ql := lower query).
  set (kws := SimpleDocumentStore._extract_keywords ql).
  set (scanned := flat_map (emitted ql kws w) (documents_index w)).
  pose proof (scan_in_index_order E ql kws w (documents_index w)) as Horder.
  fold scanned in Horder.
  assert (NoDup (map (fun r => document_id (result_meta r)) scanned)) as Hscan
    by (eapply subsequence_NoDup; [exact Horder|exact Hwf]).
  rewrite slice_to_firstn.
  set (k := Z.to_nat (adjust_index max_results (len (sort_by_score_desc scanned)))).
  split; [|split].
  - apply subsequence_NoDup
      with (b := map (fun r => document_id (result_meta r))
                     (sort_by_score_desc scanned)).
    + apply subsequence_map.
      rewrite <- (firstn_skipn k (sort_by_score_desc scanned)) at 2.
      apply subsequence_prefix.
    + eapply Permutation_NoDup; [|exact Hscan].
      apply Permutation_map. symmetry. apply sort_by_score_desc_permutation.
  - intros r Hr.
    apply firstn_In, sort_by_score_desc_In, in_flat_map in Hr
      as [[doc_id info] [Hitem Hr]].
    apply emitted_inv in Hr as (_ & Hid & _). rewrite Hid.
    unfold dict_mem. apply existsb_exists. exists (doc_id, info).
    split; [exact Hitem|]. apply str_eqb_eq. reflexivity.
  - unfold len. apply inj_le. rewrite length_firstn.
    rewrite (Permutation_length (sort_by_score_desc_permutation scanned)).
    apply subsequence_length in Horder. rewrite !length_map in Horder. lia.
Qed.

Lemma results_name_distinct_records_witness :
  NoDup (map (fun r => document_id (result_meta r))
             (match @SimpleDocumentStore.search_documents demo_env (U "") 5 library
              with (Ok results, _) => results | _ => [] end)).
Proof.
  apply (results_name_distinct_records demo_env library library (U "") 5).
  - exact library_wf.
  - vm_compute. reflexivity.
Defined.

(** ** The listing *)
Lemma listed_shape (w : world) (doc_id : str) (info : doc_info) :
  listed w (doc_id, info)
  = if unreadable w (markdown_file info) then []
    else [{| listed_id := doc_id;
             listed_content :=
               match dict_get (disk w) (markdown_file info) with
               | Some (Readable text) =>
                   let parts := split_on_max (U "---") text 2 in
                   if len parts >? 2
                   then SimpleDocumentStore.clip 500 (strip (nth 1 parts []))
                   else []
               | _ => []
               end;
             listed_metadata := info |}].
Proof.
  unfold listed, unreadable, SimpleDocumentStore.list_one, try_except, bind,
    path_exists, read_file, ret.
  destruct (dict_mem (disk w) (markdown_file info)) eqn:Hmem.
  - destruct (dict_get (disk w) (markdown_file info)) as [[text| |]|] eqn:Hget;
      cbv zeta; cbn match.
    + match goal with |- context [if ?c then _ else _] => destruct c end;
        reflexivity.
    + reflexivity.
    + reflexivity.
    + apply dict_mem_get in Hmem as [f Hf]. congruence.
  - destruct (dict_get (disk w) (markdown_file info)) as [f|] eqn:Hget.
    + assert (dict_mem (disk w) (markdown_file info) = true)
        by (apply dict_mem_get; eauto).
      congruence.
    + reflexivity.
Qed.

(** X8: the listing leaves the state as it is and has one entry, in index
    order, for every record whose artifact is readable or missing; a record
    is left out only when its artifact exists and cannot be read.  A record
    with a missing artifact is listed with an empty preview, and no preview
    is longer than 503 characters. *)
Theorem listing_skips_only_unreadable (w : world) :
  exists listing,
    SimpleDocumentStore.get_all_documents w = (Ok listing, w)
    /\ map (fun d => (listed_id d, listed_metadata d)) listing
       = filter (fun item => negb (unreadable w (markdown_file (snd item))))
                (documents_index w)
    /\ (forall d,
          In d listing ->
          dict_get (disk w) (markdown_file (listed_metadata d)) = None ->
          listed_content d = [])
    /\ Forall (fun d => len (listed_content d) <= 503) listing.
Proof.
  eexists. split; [apply get_all_documents_run|].
  split; [|split].
  - induction (documents_index w) as [|[doc_id info] ix IH];
      cbn [flat_map filter map]; [reflexivity|].
    rewrite map_app, IH, listed_shape. cbn [snd].
    destruct (unreadable w (markdown_file info)); reflexivity.
  - intros d Hd Hmissing.
    apply in_flat_map in Hd as [[doc_id info] [_ Hd]].
    rewrite listed_shape in Hd.
    destruct (unreadable w (markdown_file info)); [destruct Hd|].
    destruct Hd as [<-|[]]. cbn [listed_metadata listed_content] in *.
    rewrite Hmissing. reflexivity.
  - apply Forall_forall. intros d Hd.
    apply in_flat_map in Hd as [[doc_id info] [_ Hd]].
    rewrite listed_shape in Hd.
    destruct (unreadable w (markdown_file info)); [destruct Hd|].
    destruct Hd as [<-|[]]. cbn [listed_content].
    destruct (dict_get (disk w) (markdown_file info)) as [[text| |]|];
      try (unfold len; cbn; lia).
    cbv zeta.
    match goal with |- context [if ?c then _ else _] => destruct c end;
      [apply (clip_length 500); lia|unfold len; cbn; lia].
Qed.

(** The listing of the example library: the record without artifact is
    there, the one with the unreadable artifact is not. *)
Example listing_of_library :
  match SimpleDocumentStore.get_all_documents library with
  | (Ok listing, _) =>
      map listed_id listing = [U "d1"; U "d2"; U "d3"; U "d4"]
  | _ => False
  end.
Proof. vm_compute. reflexivity. Qed.

(** ** Storing a document *)
Lemma str_eqb_refl (s : str) : str_eqb s s = true.
Proof. apply str_eqb_eq. reflexivity. Qed.

Lemma str_eqb_neq (a b : str) : a <> b -> str_eqb a b = false.
Proof.
  intros Hne. destruct (str_eqb a b) eqn:Heq; [|reflexivity].
  apply str_eqb_eq in Heq. contradiction.
Qed.

Lemma dict_get_set_same {V} (d : dict V) (k : str) (v : V) :
  dict_get (dict_set d k v) k = Some v.
Proof.
  unfold dict_get. induction d as [|[k' v'] d IH]; cbn [dict_set find fst].
  - rewrite str_eqb_refl. reflexivity.
  - destruct (str_eqb k' k) eqn:Hk; cbn [find fst].
    + rewrite str_eqb_refl. reflexivity.
    + rewrite Hk. exact IH.
Qed.


Lemma dict_set_absent {V} (d : dict V) (k : str) (v : V) :
  dict_mem d k = false -> dict_set d k v = d ++ [(k, v)].
Proof.
  unfold dict_mem. induction d as [|[k' v'] d IH]; cbn [dict_set existsb fst app];
    [reflexivity|].
  destruct (str_eqb k' k); cbn [orb]; [discriminate|].
  intros Habsent. rewrite IH by exact Habsent. reflexivity.
Qed.


Lemma dict_del_set_absent {V} (d : dict V) (k : str) (v : V) :
  dict_mem d k = false -> dict_del (dict_set d k v) k = d.
Proof.
  intros Habsent. rewrite dict_set_absent by exact Habsent.
  unfold dict_del. rewrite filter_app. cbn [filter fst].
  rewrite str_eqb_refl. cbn [negb]. rewrite app_nil_r.
  apply dict_del_absent. exact Habsent.
Qed.


Lemma dict_del_wf {V} (d : dict V) (k : str) :
  dict_wf d -> dict_wf (dict_del d k).
Proof.
  unfold dict_wf, dict_del. intros Hwf.
  eapply subsequence_NoDup; [|exact Hwf].
  apply subsequence_map, subsequence_filter.
Qed.

Section AddFacts.
Context {E : Env}.
Import SimpleDocumentStore.

Lemma open_for_writing_disk (p : str) (w w' : world) :
  disk w' = disk w -> open_for_writing p w' = open_for_writing p w.
Proof. intros Hdisk. unfold open_for_writing. rewrite Hdisk. reflexivity. Qed.

(** [add_document], step by step, when the chunker returns and the artifact
    can be opened for writing. *)
Lemma add_document_run document_id filename content metadata w chunks :
  _split_text_into_chunks loop_budget content = Some chunks ->
  open_for_writing (artifact_path document_id) w = None ->
  exists w',
    add_document document_id filename content metadata w = (Ok true, w')
    /\ documents_index w'
       = dict_set (documents_index w) document_id
           (stored_record document_id filename content metadata chunks
              (isoformat (S (clock w))))
    /\ disk w'
       = dict_set (disk w) (artifact_path document_id)
           (Readable (universal_newlines
                        (artifact filename document_id (isoformat (clock w))
                                  content chunks)))
    /\ documents_json w' = Some (documents_index w')
    /\ llm_requests w' = llm_requests w
    /\ clock w' = S (S (clock w))
    /\ entropy w' = entropy w.
Proof.
  intros Hchunks Hopen.
  unfold add_document, try_except, bind at 1, lift. rewrite Hchunks.
  cbv beta iota zeta
      delta [bind now_isoformat write_file get_index set_index dump_index ret
             _save_documents_index try_except].
  rewrite (open_for_writing_disk _ w) by reflexivity.
  fold (artifact_path document_id). rewrite Hopen.
  eexists. split; [reflexivity|].
  cbn [documents_index disk documents_json llm_requests clock entropy raw
       with_index with_disk with_documents_json with_llm_requests with_clock
       with_entropy with_raw].
  repeat split.
  f_equal. f_equal. f_equal.
  unfold artifact, artifact_header, artifact_body, artifact_tail.
  rewrite fold_left_appends
    with (g := fun '(i, chunk) =>
                 U "### 分块 " ++ str_of_int (i + 1) ++ NL ++ NL
                 ++ chunk ++ NL ++ NL ++ U "---" ++ NL ++ NL).
  - rewrite <- !app_assoc. reflexivity.
  - intros acc [i chunk]. reflexivity.
Qed.

(** When the artifact cannot be opened [add_document] ends in its [except]
    clause: the clock has been read once, nothing else has happened. *)
Lemma add_document_refused document_id filename content metadata w chunks e :
  _split_text_into_chunks loop_budget content = Some chunks ->
  open_for_writing (artifact_path document_id) w = Some e ->
  add_document document_id filename content metadata w
  = (Ok false, with_clock w (S (clock w))).
Proof.
  intros Hchunks Hopen.
  unfold add_document, try_except, bind at 1, lift. rewrite Hchunks.
  cbv beta iota zeta
      delta [bind now_isoformat write_file get_index set_index dump_index ret
             _save_documents_index try_except].
  rewrite (open_for_writing_disk _ w) by reflexivity.
  fold (artifact_path document_id). rewrite Hopen. reflexivity.
Qed.

(** When the chunker does not return, neither does [add_document], and
    nothing has been written. *)
Lemma add_document_hangs document_id filename content metadata w :
  _split_text_into_chunks loop_budget content = None ->
  add_document document_id filename content metadata w = (Hang, w).
Proof.
  intros Hchunks.
  unfold add_document, try_except, bind, lift. rewrite Hchunks. reflexivity.
Qed.

End AddFacts.


(** What a call of [add_document] that returned [True] has done. *)
Lemma add_document_succeeded (E : Env) document_id filename content metadata w w1 :
  SimpleDocumentStore.add_document document_id filename content metadata w
  = (Ok true, w1) ->
  exists chunks,
    SimpleDocumentStore._split_text_into_chunks loop_budget content = Some chunks
    /\ open_for_writing (artifact_path document_id) w = None
    /\ documents_index w1
       = dict_set (documents_index w) document_id
           (stored_record document_id filename content metadata chunks
              (isoformat (S (clock w))))
    /\ disk w1
       = dict_set (disk w) (artifact_path document_id)
           (Readable (universal_newlines
                        (artifact filename document_id (isoformat (clock w))
                                  content chunks)))
    /\ documents_json w1 = Some (documents_index w1)
    /\ llm_requests w1 = llm_requests w.
Proof.
  intros Hadd.
  destruct (SimpleDocumentStore._split_text_into_chunks loop_budget content)
    as [chunks|] eqn:Hchunks.
  - destruct (open_for_writing (artifact_path document_id) w) as [e|] eqn:Hopen.
    + rewrite (add_document_refused _ _ _ _ _ chunks e Hchunks Hopen) in Hadd.
      discriminate.
    + destruct (add_document_run document_id filename content metadata w chunks
                  Hchunks Hopen)
        as (w' & Hrun & Hindex & Hdisk & Hjson & Hllm & _).
      rewrite Hrun in Hadd. injection Hadd as <-.
      exists chunks. auto 10.
  - rewrite add_document_hangs in Hadd by exact Hchunks. discriminate.
Qed.







Lemma get_store_stats_run (E : Env) (w : world) :
  SimpleDocumentStore.get_store_stats w
  = (Ok {| SimpleDocumentStore.total_documents := len (documents_index w);
           SimpleDocumentStore.total_chunks :=
             fold_left (fun total item => total + chunks_count (snd item))
                       (documents_index w) 0;
           SimpleDocumentStore.stats_storage_type := U "markdown_files";
           SimpleDocumentStore.markdown_directory :=
             SimpleDocumentStore.markdown_dir |}, w).
Proof. reflexivity. Qed.

(** X12: the statistics follow the index: a call of [add_document] under a
    new id that returned [True] has raised the document count by one and the
    chunk count by the number of chunks of the new document, and reading the
    statistics changes nothing. *)
Theorem stats_after_add (E : Env) (document_id filename content : str)
        (metadata : dict value) (w w1 : world) (chunks : list str) :
  SimpleDocumentStore._split_text_into_chunks loop_budget content = Some chunks ->
  dict_mem (documents_index w) document_id = false ->
  SimpleDocumentStore.add_document document_id filename content metadata w
  = (Ok true, w1) ->
  exists before after,
    SimpleDocumentStore.get_store_stats w = (Ok before, w)
    /\ SimpleDocumentStore.get_store_stats w1 = (Ok after, w1)
    /\ SimpleDocumentStore.total_documents after
       = SimpleDocumentStore.total_documents before + 1
    /\ SimpleDocumentStore.total_chunks after
       = SimpleDocumentStore.total_chunks before + len chunks.
Proof.
  intros Hchunks Hnew Hadd.
  destruct (add_document_succeeded E _ _ _ _ _ _ Hadd)
    as (chunks' & Hchunks' & _ & Hindex & _).
  assert (chunks' = chunks) as -> by congruence.
  eexists. eexists.
  split; [apply get_store_stats_run|].
  split; [apply get_store_stats_run|].
  cbn [SimpleDocumentStore.total_documents SimpleDocumentStore.total_chunks].
  rewrite Hindex, dict_set_absent by exact Hnew.
  split.
  - unfold len. rewrite length_app. cbn [List.length]. lia.
  - rewrite fold_left_app. reflexivity.
Qed.

Lemma stats_after_add_witness :
  exists before after,
    @SimpleDocumentStore.get_store_stats demo_env library = (Ok before, library)
    /\ @SimpleDocumentStore.get_store_stats demo_env
         (snd (@SimpleDocumentStore.add_document demo_env (U "d6") (U "d6.txt")
                 (U "The fox runs fast") [] library))
       = (Ok after,
          snd (@SimpleDocumentStore.add_document demo_env (U "d6") (U "d6.txt")
                 (U "The fox runs fast") [] library))
    /\ SimpleDocumentStore.total_documents after
       = SimpleDocumentStore.total_documents before + 1
    /\ SimpleDocumentStore.total_chunks after
       = SimpleDocumentStore.total_chunks before + len [U "The fox runs fast"].
Proof.
  apply (stats_after_add demo_env (U "d6") (U "d6.txt") (U "The fox runs fast")
           [] library
           (snd (@SimpleDocumentStore.add_document demo_env (U "d6") (U "d6.txt")
                   (U "The fox runs fast") [] library))
           [U "The fox runs fast"]);
    [reflexivity|reflexivity|vm_compute; reflexivity].
Defined.

(** ** Answers *)
Section AnswerFacts.
Context {E : Env}.
Import AzureAIService.

Lemma join_head (sep : str) (c : char) (p : str) (ps : list str) :
  exists rest, join sep ((c :: p) :: ps) = c :: rest.
Proof. destruct ps; cbn [join app]; eauto. Qed.

(** A context with at least one non-blank document is not blank. *)
Lemma prepare_context_nonblank (documents : list search_result) :
  Exists (fun doc => strip (content doc) <> []) documents ->
  truthy (_prepare_context documents) = true
  /\ strip (_prepare_context documents) <> [].
Proof.
  intros Hsome. unfold _prepare_context.
  assert (truthy documents = true) as ->
    by (destruct Hsome; reflexivity).
  cbn [negb].
  rewrite fold_left_appends
    with (g := fun '(i, doc) =>
                 if truthy (strip (content doc))
                 then [U "[来源 " ++ str_of_int i ++ U ": "
                       ++ source (result_meta doc) ++ U "]" ++ NL
                       ++ strip (content doc)]
                 else []);
    [|intros acc [i doc]; cbv zeta;
      destruct (truthy (strip (content doc)));
      [reflexivity|rewrite app_nil_r; reflexivity]].
  cbn [app].
  assert (exists rest parts,
             flat_map (fun '(i, doc) =>
                 if truthy (strip (content doc))
                 then [U "[来源 " ++ str_of_int i ++ U ": "
                       ++ source (result_meta doc) ++ U "]" ++ NL
                       ++ strip (content doc)]
                 else []) (enumerate 1 documents)
             = (91%N :: rest) :: parts) as (rest & parts & ->).
  { generalize 1 as start.
    induction Hsome as [doc documents Hdoc|doc documents Hsome IH]; intros start;
      cbn [enumerate flat_map].
    - destruct (strip (content doc)) as [|c cs] eqn:Hstrip; [contradiction|].
      cbn [truthy app]. eexists. eexists. reflexivity.
    - destruct (truthy (strip (content doc))).
      + cbn [app]. eexists. eexists. reflexivity.
      + cbn [app]. apply IH. }
  destruct (join_head (NL ++ NL) 91%N rest parts) as [tail Htail].
  unfold str, char in *. rewrite Htail.
  split; [reflexivity|].
  intros Hblank. apply strip_with_empty in Hblank.
  inversion Hblank as [|? ? Hspace _]. discriminate.
Qed.

End AnswerFacts.

(** X13: without a configured client nothing is ever sent to the LLM:
    [generate_response] and [summarize_document] return an answer (the fixed
    message or the mock texts) and leave the state as it was. *)
Theorem no_client_no_request (E : Env) (query text : str)
        (context_documents : list search_result) (max_tokens max_length : Z)
        (w : world) :
  openai_client = false ->
  (exists answer,
      AzureAIService.generate_response query context_documents max_tokens w
      = (Ok answer, w))
  /\ AzureAIService.summarize_document text max_length w
     = (Ok (U "Document summary (mock): This document contains approximately "
            ++ str_of_int (len (split_ws text)) ++ U " words."), w).
Proof.
  intros Hclient. split.
  - unfold AzureAIService.generate_response, try_except, ret.
    destruct (negb (truthy (AzureAIService._prepare_context context_documents))
              || str_eqb (strip (AzureAIService._prepare_context context_documents)) []);
      [eauto|].
    rewrite Hclient. eauto.
  - unfold AzureAIService.summarize_document, try_except, ret.
    rewrite Hclient. reflexivity.
Qed.

Lemma no_client_no_request_witness :
  exists answer,
    @AzureAIService.generate_response demo_env (U "fox")
      [{| content := U "The fox runs fast";
          result_meta := {| document_id := U "d1"; source := U "d1.txt";
                            result_upload_time := U "2025-01-01T00:00:00" |};
          score := 13 |}] 1000 library
    = (Ok answer, library).
Proof.
  destruct (no_client_no_request demo_env (U "fox") []
              [{| content := U "The fox runs fast";
                  result_meta := {| document_id := U "d1"; source := U "d1.txt";
                                    result_upload_time := U "2025-01-01T00:00:00" |};
                  score := 13 |}] 1000 200 library) as [Hanswer _].
  - reflexivity.
  - exact Hanswer.
Defined.

(** X14: with a configured client and at least one non-blank context
    document, [generate_response] sends exactly one request, made of the
    system message, the RAG prompt over the prepared context and
    [max_tokens].  It returns the reply of the endpoint; when the endpoint
    raises it returns the apology text with the error instead of raising. *)
Theorem one_request_per_answer (E : Env) (query : str)
        (context_documents : list search_result) (max_tokens : Z) (w : world) :
  openai_client = true ->
  Exists (fun doc => strip (content doc) <> []) context_documents ->
  exists model,
    let prompt :=
      AzureAIService._create_rag_prompt query
        (AzureAIService._prepare_context context_documents) in
    prompt <> []
    /\ AzureAIService.generate_response query context_documents max_tokens w
       = (match chat_completion model AzureAIService.system_message prompt max_tokens
          with
          | Ok reply => Ok reply
          | Raise e =>
              Ok (U "Sorry, an error occurred while generating the response: "
                  ++ U "Azure OpenAI API error: " ++ e)
          | Hang => Hang
          end,
          with_llm_requests w
            (llm_requests w
             ++ [(model, AzureAIService.system_message, prompt, max_tokens)])).
Proof.
  intros Hclient Hsome.
  destruct (prepare_context_nonblank context_documents Hsome) as [Htruthy Hstrip].
  assert (negb (truthy (AzureAIService._prepare_context context_documents))
          || str_eqb (strip (AzureAIService._prepare_context context_documents)) []
          = false) as Hblank.
  { rewrite Htruthy. cbn [negb orb]. apply str_eqb_neq. exact Hstrip. }
  exists (AzureAIService.str_or
            (match azure_openai_deployment_name settings with
             | Some d => AzureAIService.str_or d (azure_ai_model_name settings)
             | None => azure_ai_model_name settings
             end) (U "gpt-4")).
  cbv zeta. split.
  - unfold AzureAIService._create_rag_prompt. rewrite Hblank. discriminate.
  - unfold AzureAIService.generate_response. rewrite Hblank, Hclient.
    unfold AzureAIService._generate_with_openai, try_except, create_completion,
      raise, ret.
    match goal with |- context [chat_completion ?m ?s ?p ?n] =>
      destruct (chat_completion m s p n) end; reflexivity.
Qed.

Lemma one_request_per_answer_witness :
  fst (@AzureAIService.generate_response failing_env (U "fox") [fox_result]
         1000 library)
  = Ok (U "Sorry, an error occurred while generating the response: Azure OpenAI API error: quota exceeded").
Proof.
  destruct (one_request_per_answer failing_env (U "fox") [fox_result] 1000 library)
    as (model & _ & Hrun).
  - reflexivity.
  - constructor. vm_compute. discriminate.
  - rewrite Hrun. reflexivity.
Defined.

(** ** Queries *)
Lemma generate_response_never_raises (E : Env) query documents max_tokens w :
  exists out w',
    AzureAIService.generate_response query documents max_tokens w = (out, w')
    /\ (out = Hang \/ exists answer, out = Ok answer)
    /\ documents_index w' = documents_index w
    /\ disk w' = disk w
    /\ documents_json w' = documents_json w.
Proof.
  unfold AzureAIService.generate_response, try_except, ret.
  destruct (negb (truthy (AzureAIService._prepare_context documents))
            || str_eqb (strip (AzureAIService._prepare_context documents)) []);
    [eexists; eexists; split; [reflexivity|]; eauto 6|].
  destruct openai_client;
    [|eexists; eexists; split; [reflexivity|]; eauto 6].
  unfold AzureAIService._generate_with_openai, try_except, create_completion,
    raise.
  match goal with |- context [chat_completion ?m ?s ?p ?n] =>
    destruct (chat_completion m s p n) end;
    eexists; eexists; (split; [reflexivity|]); cbn; eauto 6.
Qed.

Lemma sources_fold (results : list search_result) (acc : list RAGService.Source) :
  fold_left
    (fun sources doc =>
       sources ++
       [{| RAGService.source := source (result_meta doc);
           RAGService.document_id := document_id (result_meta doc);
           RAGService.score := score doc;
           RAGService.source_preview := slice_to (content doc) 200 ++ U "..." |}])
    results acc
  = acc ++ map (fun doc =>
                  {| RAGService.source := source (result_meta doc);
                     RAGService.document_id := document_id (result_meta doc);
                     RAGService.score := score doc;
                     RAGService.source_preview :=
                       slice_to (content doc) 200 ++ U "..." |}) results.
Proof.
  revert acc. induction results as [|r results IH]; intros acc;
    cbn [fold_left map]; [rewrite app_nil_r; reflexivity|].
  rewrite IH, <- app_assoc. reflexivity.
Qed.

(** X15: [query_documents] never raises.  It answers from the results of
    the search, and its sources are those results in the same order, each
    with its source name, document id and score and with the first 200
    characters of its content followed by an ellipsis, whether or not
    anything was cut.  The index, the disk and the index file stay as they
    were. *)
Theorem query_answers_from_search (E : Env) (request : RAGService.QueryRequest)
        (w : world) :
  exists results out w',
    SimpleDocumentStore.search_documents
      (RAGService.query request) (RAGService.max_results request) w
    = (Ok results, w)
    /\ AzureAIService.generate_response (RAGService.query request) results 1000 w
       = (out, w')
    /\ RAGService.query_documents request w
       = (match out with
          | Ok answer =>
              Ok {| RAGService.response_query := RAGService.query request;
                    RAGService.answer := answer;
                    RAGService.sources :=
                      map (fun doc =>
                             {| RAGService.source := source (result_meta doc);
                                RAGService.document_id :=
                                  document_id (result_meta doc);
                                RAGService.score := score doc;
                                RAGService.source_preview :=
                                  slice_to (content doc) 200 ++ U "..." |})
                          results |}
          | Raise e => Raise e
          | Hang => Hang
          end, w')
    /\ (forall e, out <> Raise e)
    /\ documents_index w' = documents_index w
    /\ disk w' = disk w
    /\ documents_json w' = documents_json w.
Proof.
  eexists.
  destruct (generate_response_never_raises E (RAGService.query request)
              (slice_to
                 (sort_by_score_desc
                    (flat_map
                       (emitted (lower (RAGService.query request))
                          (SimpleDocumentStore._extract_keywords
                             (lower (RAGService.query request))) w)
                       (documents_index w)))
                 (RAGService.max_results request)) 1000 w)
    as (out & w' & Hanswer & Hout & Hindex & Hdisk & Hjson).
  exists out, w'.
  split; [apply search_documents_run|].
  split; [exact Hanswer|].
  split.
  - unfold RAGService.query_documents, try_except, bind at 1.
    rewrite search_documents_run. unfold bind. rewrite Hanswer.
    destruct Hout as [->|[answer ->]]; [reflexivity|].
    unfold ret. rewrite sources_fold. reflexivity.
  - split; [|auto].
    intros e He. destruct Hout as [->|[answer ->]]; discriminate.
Qed.

(** X16: when the search finds nothing, [query_documents] returns the fixed
    message with no sources, sends nothing to the LLM and changes nothing. *)
Theorem query_without_hits (E : Env) (request : RAGService.QueryRequest)
        (w w' : world) :
  SimpleDocumentStore.search_documents
    (RAGService.query request) (RAGService.max_results request) w = (Ok [], w') ->
  RAGService.query_documents request w
  = (Ok {| RAGService.response_query := RAGService.query request;
           RAGService.answer := AzureAIService.no_information_message;
           RAGService.sources := [] |}, w).
Proof.
  intros Hsearch.
  assert (w' = w) as ->
    by (rewrite search_documents_run in Hsearch; congruence).
  unfold RAGService.query_documents, try_except, bind.
  rewrite Hsearch. reflexivity.
Qed.

Lemma query_without_hits_witness :
  @RAGService.query_documents (Demo.env Config.defaults true)
    {| RAGService.query := U "zebra"; RAGService.max_results := 5 |} library
  = (Ok {| RAGService.response_query := U "zebra";
           RAGService.answer := AzureAIService.no_information_message;
           RAGService.sources := [] |}, library).
Proof.
  apply (query_without_hits (Demo.env Config.defaults true)
           {| RAGService.query := U "zebra"; RAGService.max_results := 5 |}
           library library).
  vm_compute. reflexivity.
Defined.

(** ** Uploads *)
Lemma dict_mem_set_same {V} (d : dict V) (k : str) (v : V) :
  dict_mem (dict_set d k v) k = true.
Proof. apply dict_mem_get. exists v. apply dict_get_set_same. Qed.

Section UploadFacts.
Context {E : Env}.

(** [save_file], step by step. *)
Lemma save_file_run file_content filename w :
  DocumentProcessor.save_file file_content filename w
  = match open_for_writing (upload_path w filename) w with
    | None =>
        (Ok (upload_path w filename),
         with_raw
           (with_disk (with_entropy w (S (entropy w)))
              (dict_set (disk w) (upload_path w filename)
                        (text_view file_content)))
           (dict_set (raw w) (upload_path w filename) file_content))
    | Some e => (Raise e, with_entropy w (S (entropy w)))
    end.
Proof.
  unfold DocumentProcessor.save_file, bind, new_uuid, write_bytes, ret.
  fold (upload_path w filename).
  rewrite (open_for_writing_disk _ w) by reflexivity.
  destruct (open_for_writing (upload_path w filename) w); reflexivity.
Qed.

(** Text extraction only reads. *)
Lemma extract_text_frame file_path w :
  snd (DocumentProcessor.extract_text_from_file file_path w) = w.
Proof.
  unfold DocumentProcessor.extract_text_from_file, try_except,
    DocumentProcessor._extract_from_pdf, DocumentProcessor._extract_from_docx,
    DocumentProcessor._extract_from_txt, DocumentProcessor._extract_from_markdown,
    bind, read_file, read_bytes, lift, raise, ret.
  repeat match goal with
         | |- context [if ?c then _ else _] => destruct c
         end;
    try reflexivity;
    destruct (dict_get (disk w) file_path) as [[data| |]|]; try reflexivity;
    try (destruct (dict_get (raw w) file_path) as [bytes|]; try reflexivity).
  all: try (destruct (pdf_pages _); reflexivity).
  all: try (destruct (docx_paragraphs _); reflexivity).
  all: try (destruct (markdown_get_text _); reflexivity).
Qed.

(** The file [save_file] wrote is there, is no directory, and reads in
    text mode as the text view of its bytes. *)
Lemma save_file_succeeded file_content filename w w1 path :
  DocumentProcessor.save_file file_content filename w = (Ok path, w1) ->
  path = upload_path w filename
  /\ disk w1 = dict_set (disk w) path (text_view file_content)
  /\ documents_index w1 = documents_index w
  /\ documents_json w1 = documents_json w
  /\ llm_requests w1 = llm_requests w.
Proof.
  rewrite save_file_run.
  destruct (open_for_writing (upload_path w filename) w); [discriminate|].
  intros [= <- <-]. repeat split.
Qed.

End UploadFacts.

(** X17: a saved upload whose path has the suffix [.txt] is read back in
    text mode.  When its bytes are UTF-8, [extract_text_from_file] on the
    path [save_file] returned gives the decoded text with every [\r\n] and
    every other [\r] turned into [\n], and trims nothing; when they are
    not, it raises "Error extracting text from " followed by the path and
    the text of the decoding error.  Reading changes nothing. *)
Theorem saved_txt_reads_back (E : Env) (file_content : list N) (filename : str)
        (w w1 : world) (path : str) :
  DocumentProcessor.save_file file_content filename w = (Ok path, w1) ->
  lower (path_suffix path) = U ".txt" ->
  match decode_utf8 file_content with
  | Some text =>
      DocumentProcessor.extract_text_from_file path w1
      = (Ok (universal_newlines text), w1)
  | None =>
      exists e,
        DocumentProcessor.extract_text_from_file path w1
        = (Raise (U "Error extracting text from " ++ path ++ U ": " ++ e), w1)
  end.
Proof.
  intros Hsave Hsuffix.
  destruct (save_file_succeeded _ _ _ _ _ Hsave) as (_ & Hdisk & _).
  unfold DocumentProcessor.extract_text_from_file. rewrite Hsuffix.
  replace (str_eqb (U ".txt") (U ".pdf")) with false by reflexivity.
  replace (str_eqb (U ".txt") (U ".docx")) with false by reflexivity.
  replace (str_eqb (U ".txt") (U ".txt")) with true by reflexivity.
  unfold try_except, DocumentProcessor._extract_from_txt, read_file, raise.
  rewrite Hdisk, dict_get_set_same. unfold text_view.
  destruct (decode_utf8 file_content) as [text|]; [reflexivity|].
  eexists. reflexivity.
Qed.

Lemma saved_txt_reads_back_witness :
  @DocumentProcessor.extract_text_from_file demo_env
    (U "/app/data/uploads/uuid-0_notes.TXT")
    (snd (@DocumentProcessor.save_file demo_env
            [32; 97; 13; 10; 98; 13; 195; 169; 32]%N (U "notes.TXT") library))
  = (Ok [32; 97; 10; 98; 10; 233; 32]%N,
     snd (@DocumentProcessor.save_file demo_env
            [32; 97; 13; 10; 98; 13; 195; 169; 32]%N (U "notes.TXT") library)).
Proof.
  apply (saved_txt_reads_back demo_env
           [32; 97; 13; 10; 98; 13; 195; 169; 32]%N (U "notes.TXT") library
           (snd (@DocumentProcessor.save_file demo_env
                   [32; 97; 13; 10; 98; 13; 195; 169; 32]%N (U "notes.TXT")
                   library))
           (U "/app/data/uploads/uuid-0_notes.TXT"));
    vm_compute; reflexivity.
Defined.

(** Bytes that are not UTF-8 make the extraction of a [.txt] upload raise. *)
Example undecodable_txt_raises :
  exists e,
    fst (@DocumentProcessor.extract_text_from_file demo_env
           (U "/app/data/uploads/uuid-0_notes.txt")
           (snd (@DocumentProcessor.save_file demo_env
                   [97; 255]%N (U "notes.txt") library)))
    = Raise e.
Proof. eexists. vm_compute. reflexivity. Qed.

(** X18: when the upload is valid and saved but the text extraction raises,
    [upload_document] raises "Error processing document: " followed by the
    extraction error, and the raw file it had saved is removed again: its
    path is not on the disk afterwards, a disk on which the path was free
    is as before, and the index, the index file and the LLM log are
    untouched. *)
Theorem failed_extraction_removes_upload (E : Env) (file_content filename : str)
        (w w1 : world) (path e : str) :
  fst (DocumentProcessor.validate_file filename (len file_content)) = true ->
  DocumentProcessor.save_file file_content filename w = (Ok path, w1) ->
  fst (DocumentProcessor.extract_text_from_file path w1) = Raise e ->
  exists w',
    RAGService.upload_document file_content filename w
    = (Raise (U "Error processing document: " ++ e), w')
    /\ dict_mem (disk w') path = false
    /\ (dict_mem (disk w) path = false -> disk w' = disk w)
    /\ documents_index w' = documents_index w
    /\ documents_json w' = documents_json w
    /\ llm_requests w' = llm_requests w.
Proof.
  intros Hvalid Hsave Hfails.
  pose proof (extract_text_frame path w1) as Hframe.
  destruct (save_file_succeeded _ _ _ _ _ Hsave)
    as (_ & Hdisk & Hindex & Hjson & Hllm).
  unfold RAGService.upload_document.
  destruct (DocumentProcessor.validate_file filename (len file_content))
    as [is_valid message].
  cbn [fst] in Hvalid. subst is_valid. cbn [negb].
  unfold try_except at 1. unfold bind at 1. rewrite Hsave.
  unfold try_except at 1. unfold bind at 1.
  destruct (DocumentProcessor.extract_text_from_file path w1) as [out w2].
  cbn [fst snd] in *. subst out w2.
  unfold bind, try_except, remove_file, raise, ret.
  rewrite Hdisk, dict_get_set_same.
  assert (forall f : file,
             text_view file_content = f -> f <> Directory) as Hfile.
  { intros f <-. unfold text_view.
    destruct (decode_utf8 file_content); discriminate. }
  destruct (text_view file_content) as [data| |] eqn:Hview;
    try (exfalso; apply (Hfile Directory); reflexivity);
    (eexists; split; [reflexivity|];
     cbn [disk documents_index documents_json llm_requests with_disk with_raw];
     split; [apply dict_del_mem|];
     split; [apply dict_del_set_absent|];
     auto).
Qed.

Lemma failed_extraction_removes_upload_witness :
  exists w',
    @RAGService.upload_document demo_env (U "%PDF") (U "paper.pdf") library
    = (Raise (U "Error processing document: "
              ++ U "Error extracting text from /app/data/uploads/uuid-0_paper.pdf: not a PDF file"), w')
    /\ disk w' = disk library
    /\ documents_index w' = documents_index library.
Proof.
  destruct (failed_extraction_removes_upload demo_env (U "%PDF") (U "paper.pdf")
              library
              (snd (@DocumentProcessor.save_file demo_env (U "%PDF")
                      (U "paper.pdf") library))
              (U "/app/data/uploads/uuid-0_paper.pdf")
              (U "Error extracting text from /app/data/uploads/uuid-0_paper.pdf: not a PDF file"))
    as (w' & Hrun & _ & Hdisk & Hindex & _).
  - vm_compute. reflexivity.
  - vm_compute. reflexivity.
  - vm_compute. reflexivity.
  - exists w'. split; [exact Hrun|split; [|exact Hindex]].
    apply Hdisk. vm_compute. reflexivity.
Defined.

(** X22: when the upload is valid but its file cannot be opened for
    writing, as for a filename with a slash that leads into a directory
    that does not exist, [save_file] raises before any path is bound:
    [upload_document] raises "Error processing document: " followed by the
    text of that error, and nothing has been written: disk, index, index
    file and LLM log are as before. *)
Theorem unsaved_upload_changes_nothing (E : Env) (file_content filename : str)
        (w : world) (e : str) :
  fst (DocumentProcessor.validate_file filename (len file_content)) = true ->
  open_for_writing (upload_path w filename) w = Some e ->
  exists w',
    RAGService.upload_document file_content filename w
    = (Raise (U "Error processing document: " ++ e), w')
    /\ disk w' = disk w
    /\ documents_index w' = documents_index w
    /\ documents_json w' = documents_json w
    /\ llm_requests w' = llm_requests w.
Proof.
  intros Hvalid Hopen.
  unfold RAGService.upload_document.
  destruct (DocumentProcessor.validate_file filename (len file_content))
    as [is_valid message].
  cbn [fst] in Hvalid. subst is_valid. cbn [negb].
  unfold try_except at 1. unfold bind at 1.
  rewrite save_file_run, Hopen.
  eexists. split; [reflexivity|]. repeat split.
Qed.

Lemma unsaved_upload_changes_nothing_witness :
  exists w',
    @RAGService.upload_document demo_env (U "%PDF") (U "a/b.pdf") library
    = (Raise (U "Error processing document: "
              ++ U "No such file or directory: /app/data/uploads/uuid-0_a/b.pdf"),
       w')
    /\ disk w' = disk library
    /\ documents_index w' = documents_index library.
Proof.
  destruct (unsaved_upload_changes_nothing demo_env (U "%PDF") (U "a/b.pdf")
              library
              (U "No such file or directory: /app/data/uploads/uuid-0_a/b.pdf"))
    as (w' & Hrun & Hdisk & Hindex & _).
  - vm_compute. reflexivity.
  - vm_compute. reflexivity.
  - exists w'. auto.
Defined.

(** ** The list of documents and the delete endpoint *)
Lemma bind_ok {A B} (m : M A) (k : A -> M B) (w w1 : world) (a : A) :
  m w = (Ok a, w1) -> bind m k w = k a w1.
Proof. intros Hm. unfold bind. rewrite Hm. reflexivity. Qed.

Lemma try_except_ok {A} (m : M A) (handler : str -> M A) (w w1 : world) (a : A) :
  m w = (Ok a, w1) -> try_except m handler w = (Ok a, w1).
Proof. intros Hm. unfold try_except. rewrite Hm. reflexivity. Qed.

Section ListFacts.
Context {E : Env}.
Variable fromisoformat : str -> option str.

Lemma list_documents_loop (docs : list listed_document) :
  forall acc w,
  exists entries w',
    for_each docs
      (fun document_responses doc =>
         let doc_metadata := listed_metadata doc in
         upload_time <-
           match doc_info_get doc_metadata (U "upload_time") with
           | Some (FStr upload_time) =>
               try_except
                 (match fromisoformat
                          (replace_char 90%N (U "+00:00") upload_time) with
                  | Some parsed => ret parsed
                  | None => raise (U "Invalid isoformat string")
                  end)
                 (fun _ => now_isoformat)
           | _ => now_isoformat
           end ;;
         ret (document_responses ++
              [{| RAGService.listed_document_id := listed_id doc;
                  RAGService.listed_filename :=
                    match doc_info_get doc_metadata (U "source") with
                    | Some (FStr source) => source
                    | _ => U "Unknown"
                    end;
                  RAGService.listed_preview := listed_content doc;
                  RAGService.listed_upload_time := upload_time;
                  RAGService.listed_chunks_count :=
                    match doc_info_get doc_metadata (U "chunks_count") with
                    | Some (FInt n) => n
                    | _ => 0
                    end;
                  RAGService.listed_content_length :=
                    match doc_info_get doc_metadata (U "content_length") with
                    | Some (FInt n) => n
                    | _ => 0
                    end;
                  RAGService.listed_storage_type := U "markdown" |}]))
      acc w
    = (Ok (acc ++ entries), w')
    /\ Forall2 (entry_of fromisoformat) docs entries
    /\ documents_index w' = documents_index w
    /\ disk w' = disk w
    /\ documents_json w' = documents_json w
    /\ llm_requests w' = llm_requests w.
Proof.
  induction docs as [|doc docs IH]; intros acc w; cbn [for_each].
  - exists [], w. rewrite app_nil_r. repeat split. constructor.
  - match goal with |- context [for_each docs ?body] =>
      set (rest := for_each docs body) in *
    end.
    unfold bind at 1. unfold bind at 1.
    change (doc_info_get (listed_metadata doc) (U "upload_time"))
      with (Some (FStr (upload_time (listed_metadata doc)))).
    change (doc_info_get (listed_metadata doc) (U "source"))
      with (@None field).
    change (doc_info_get (listed_metadata doc) (U "chunks_count"))
      with (Some (FInt (chunks_count (listed_metadata doc)))).
    change (doc_info_get (listed_metadata doc) (U "content_length"))
      with (Some (FInt (content_length (listed_metadata doc)))).
    cbv iota beta.
    unfold try_except, ret, raise, now_isoformat.
    destruct (fromisoformat
                (replace_char 90%N (U "+00:00") (upload_time (listed_metadata doc))))
      as [parsed|] eqn:Hparse.
    + match goal with |- context [rest ?acc' ?w0] =>
        destruct (IH acc' w0) as (entries & w' & Hrun & Hentries & Hframe)
      end.
      rewrite Hrun. eexists. exists w'.
      split; [rewrite <- app_assoc; reflexivity|].
      split; [|exact Hframe].
      constructor; [|exact Hentries].
      unfold entry_of.
      cbn [RAGService.listed_document_id RAGService.listed_filename
           RAGService.listed_preview RAGService.listed_upload_time
           RAGService.listed_chunks_count RAGService.listed_content_length
           RAGService.listed_storage_type].
      repeat split. intros p Hp. congruence.
    + match goal with |- context [rest ?acc' ?w0] =>
        destruct (IH acc' w0) as (entries & w' & Hrun & Hentries & Hframe)
      end.
      rewrite Hrun. eexists. exists w'.
      split; [rewrite <- app_assoc; reflexivity|].
      split; [|exact Hframe].
      constructor; [|exact Hentries].
      unfold entry_of.
      cbn [RAGService.listed_document_id RAGService.listed_filename
           RAGService.listed_preview RAGService.listed_upload_time
           RAGService.listed_chunks_count RAGService.listed_content_length
           RAGService.listed_storage_type].
      repeat split. intros p Hp. congruence.
Qed.

End ListFacts.

(** X19: [list_documents] never raises and returns one entry per document
    of the store's listing, in the same order, with its id, preview, chunk
    count and content length, and with the parsed upload time when the
    stored one parses.  The filename of every entry is "Unknown": it is read
    under the key [source], which the index record does not have.  Index,
    disk, index file and LLM log are unchanged. *)
Theorem listed_filenames_are_unknown (E : Env) (fromisoformat : str -> option str)
        (w : world) :
  exists listing entries w',
    SimpleDocumentStore.get_all_documents w = (Ok listing, w)
    /\ RAGService.list_documents fromisoformat w = (Ok entries, w')
    /\ Forall2 (entry_of fromisoformat) listing entries
    /\ Forall (fun entry => RAGService.listed_filename entry = U "Unknown") entries
    /\ documents_index w' = documents_index w
    /\ disk w' = disk w
    /\ documents_json w' = documents_json w
    /\ llm_requests w' = llm_requests w.
Proof.
  destruct (list_documents_loop fromisoformat
              (flat_map (listed w) (documents_index w)) [] w)
    as (entries & w' & Hrun & Hentries & Hframe).
  exists (flat_map (listed w) (documents_index w)), entries, w'.
  split; [apply get_all_documents_run|].
  split.
  - unfold RAGService.list_documents. apply try_except_ok.
    rewrite (bind_ok _ _ w w _ (get_all_documents_run w)). exact Hrun.
  - split; [exact Hentries|]. split; [|exact Hframe].
    clear - Hentries. induction Hentries as [|doc entry docs entries Hentry _ IH];
      constructor; [apply Hentry|exact IH].
Qed.

Lemma init_run (w : world) :
  SimpleDocumentStore.init w = (Ok tt, with_index w (persisted_index w)).
Proof.
  unfold SimpleDocumentStore.init, SimpleDocumentStore._load_documents_index,
    bind, set_index, persisted_index.
  destruct (documents_json w); reflexivity.
Qed.

(** X20: the delete endpoint works on the index read from the index file.
    For an id that is not in it the client gets status 400, whose detail is
    the text of the 404 exception: that exception is raised inside the [try]
    block and caught by its [except Exception] clause.  The same answer is
    given for an id that is in it when its artifact path is a directory,
    which cannot be removed; the record then stays.  No call answers 404.
    For any other id that is in it the client gets the success message and
    the id is gone from the index. *)
Theorem delete_endpoint_never_answers_404 (exception_text : Z -> str -> str)
        (document_id : str) (w : world) :
  (dict_mem (persisted_index w) document_id = false ->
   Router.delete_document exception_text document_id w
   = (Router.HTTPException 400
        (exception_text 404 (U "Document not found or couldn't be deleted")),
      with_index w (persisted_index w)))
  /\ (forall info,
        dict_get (persisted_index w) document_id = Some info ->
        dict_get (disk w) (markdown_file info) = Some Directory ->
        Router.delete_document exception_text document_id w
        = (Router.HTTPException 400
             (exception_text 404 (U "Document not found or couldn't be deleted")),
           with_index w (persisted_index w)))
  /\ (forall info,
        dict_get (persisted_index w) document_id = Some info ->
        dict_get (disk w) (markdown_file info) <> Some Directory ->
        exists w',
          Router.delete_document exception_text document_id w
          = (Router.Returns (U "Document deleted successfully"), w')
          /\ dict_mem (documents_index w') document_id = false
          /\ documents_json w' = Some (documents_index w'))
  /\ (forall detail,
        fst (Router.delete_document exception_text document_id w)
        <> Router.HTTPException 404 detail).
Proof.
  assert (forall success w1,
             RAGService.delete_document document_id
               (with_index w (persisted_index w)) = (Ok success, w1) ->
             Router.delete_document exception_text document_id w
             = (Router.except_exception exception_text
                  (if success
                   then Router.Done (U "Document deleted successfully")
                   else Router.Thrown
                          (Router.Http 404
                             (U "Document not found or couldn't be deleted"))),
                w1)) as Hstep.
  { intros success w1 Hrun.
    unfold Router.delete_document, Router.await, Router.get_rag_service.
    rewrite (bind_ok _ _ _ _ _ (init_run w)), Hrun.
    destruct success; reflexivity. }
  assert (dict_mem (persisted_index w) document_id = false ->
          RAGService.delete_document document_id
            (with_index w (persisted_index w))
          = (Ok false, with_index w (persisted_index w))) as Habsent.
  { intros Hmem. unfold RAGService.delete_document. apply try_except_ok.
    apply delete_document_absent. exact Hmem. }
  assert (forall info,
             dict_get (persisted_index w) document_id = Some info ->
             dict_get (disk w) (markdown_file info) = Some Directory ->
             RAGService.delete_document document_id
               (with_index w (persisted_index w))
             = (Ok false, with_index w (persisted_index w))) as Hblocked.
  { intros info Hinfo Hfile. unfold RAGService.delete_document.
    apply try_except_ok.
    apply (delete_document_blocked _ document_id info); assumption. }
  assert (forall info,
             dict_get (persisted_index w) document_id = Some info ->
             dict_get (disk w) (markdown_file info) <> Some Directory ->
             exists w',
               RAGService.delete_document document_id
                 (with_index w (persisted_index w)) = (Ok true, w')
               /\ dict_mem (documents_index w') document_id = false
               /\ documents_json w' = Some (documents_index w')) as Hpresent.
  { intros info Hinfo Hfile.
    destruct (delete_document_present (with_index w (persisted_index w))
                document_id info Hinfo Hfile)
      as (w' & Hrun & Hindex & _ & Hjson & _).
    exists w'. split; [|split].
    - unfold RAGService.delete_document. apply try_except_ok. exact Hrun.
    - rewrite Hindex. apply dict_del_mem.
    - rewrite Hjson, Hindex. reflexivity. }
  split; [|split; [|split]].
  - intros Hmem. rewrite (Hstep _ _ (Habsent Hmem)). reflexivity.
  - intros info Hinfo Hfile.
    rewrite (Hstep _ _ (Hblocked info Hinfo Hfile)). reflexivity.
  - intros info Hinfo Hfile.
    destruct (Hpresent info Hinfo Hfile) as (w' & Hrun & Hgone & Hjson).
    exists w'. rewrite (Hstep _ _ Hrun). auto.
  - intros detail.
    destruct (delete_document_returns (with_index w (persisted_index w))
                document_id) as (success & w1 & Hrun & _).
    assert (RAGService.delete_document document_id
              (with_index w (persisted_index w)) = (Ok success, w1)) as Hcall
      by (unfold RAGService.delete_document; apply try_except_ok; exact Hrun).
    rewrite (Hstep _ _ Hcall).
    destruct success; cbn; [discriminate|]. intros [= Hcode _].
Qed.

Lemma delete_endpoint_never_answers_404_witness :
  Router.delete_document (fun status detail => str_of_int status ++ U ": " ++ detail)
    (U "d9") (with_documents_json library (Some (documents_index library)))
  = (Router.HTTPException 400 (U "404: Document not found or couldn't be deleted"),
     with_documents_json library (Some (documents_index library)))
  /\ exists w',
       Router.delete_document (fun status detail => str_of_int status ++ U ": " ++ detail)
         (U "d2") (with_documents_json library (Some (documents_index library)))
       = (Router.Returns (U "Document deleted successfully"), w')
       /\ dict_mem (documents_index w') (U "d2") = false.
Proof.
  split.
  - destruct (delete_endpoint_never_answers_404
                (fun status detail => str_of_int status ++ U ": " ++ detail)
                (U "d9") (with_documents_json library (Some (documents_index library))))
      as (Habsent & _).
    rewrite Habsent; [vm_compute; reflexivity|vm_compute; reflexivity].
  - destruct (delete_endpoint_never_answers_404
                (fun status detail => str_of_int status ++ U ": " ++ detail)
                (U "d2") (with_documents_json library (Some (documents_index library))))
      as (_ & _ & Hpresent & _).
    destruct (Hpresent (record_of (U "d2"))) as (w' & Hrun & Hgone & _);
      [vm_compute; reflexivity|vm_compute; discriminate|].
    exists w'. auto.
Defined.

(** ** Splitting at a separator *)
Section SplitFacts.
Variable sep : str.

Lemma split_on_aux_skip (a rest : str) (m : option nat) (cur : str) :
  split_on_aux sep m (List.length a) cur (a ++ rest)
  = split_on_aux sep m 0 cur rest.
Proof.
  induction a as [|c a IH]; cbn [List.length app split_on_aux];
    [reflexivity|exact IH].
Qed.

Lemma starts_with_self (rest : str) : starts_with sep (sep ++ rest) = true.
Proof. apply starts_with_prefix. eauto. Qed.

Lemma split_on_aux_at_sep (rest : str) (m : option nat) (cur : str) :
  sep <> [] ->
  m <> Some O ->
  split_on_aux sep m 0 cur (sep ++ rest)
  = rev cur :: split_on_aux sep (option_map Nat.pred m) 0 [] rest.
Proof.
  intros Hsep Hm.
  pose proof (starts_with_self rest) as Hstart.
  pose proof (split_on_aux_skip (tl sep) rest (option_map Nat.pred m) []) as Hskip.
  destruct sep as [|x sep'] eqn:Hsepeq; [contradiction|].
  cbn [tl] in Hskip. cbn [app] in *. cbn [split_on_aux].
  assert (match m with Some O => false | _ => true end = true) as ->
    by (destruct m as [[|k]|]; congruence).
  rewrite Hstart. cbn [andb List.length].
  rewrite skipn_app, skipn_all, Nat.sub_diag. cbn [skipn app].
  f_equal. destruct rest as [|c rest']; [reflexivity|exact Hskip].
Qed.

Lemma split_on_aux_no_sep (pre rest : str) (m : option nat) :
  (forall i, (i < List.length pre)%nat ->
             starts_with sep (skipn i (pre ++ rest)) = false) ->
  forall cur,
    split_on_aux sep m 0 cur (pre ++ rest)
    = split_on_aux sep m 0 (rev pre ++ cur) rest.
Proof.
  induction pre as [|c pre IH]; intros Hnone cur; [reflexivity|].
  cbn [app split_on_aux].
  pose proof (Hnone O ltac:(cbn; lia)) as Hhere. cbn [skipn app] in Hhere.
  rewrite Hhere, andb_false_r.
  rewrite IH.
  - cbn [rev]. rewrite <- app_assoc. reflexivity.
  - intros i Hi. apply (Hnone (S i)). cbn [List.length]. lia.
Qed.

Lemma split_on_aux_exhausted (s cur : str) :
  split_on_aux sep (Some O) 0 cur s = [rev cur ++ s].
Proof.
  revert cur. induction s as [|c s IH]; intros cur; cbn [split_on_aux].
  - rewrite app_nil_r. reflexivity.
  - cbn [andb]. rewrite IH. cbn [rev]. rewrite <- app_assoc. reflexivity.
Qed.

End SplitFacts.

Lemma starts_with_app_long (sub a b : str) :
  (List.length sub <= List.length a)%nat ->
  starts_with sub (a ++ b) = starts_with sub a.
Proof.
  revert a. induction sub as [|x sub IH]; intros a Hlen; [reflexivity|].
  destruct a as [|y a]; cbn [List.length] in Hlen; [lia|].
  cbn [app starts_with]. rewrite IH by lia. reflexivity.
Qed.

Lemma str_in_skipn (sub s : str) (i : nat) :
  starts_with sub (skipn i s) = true -> str_in sub s = true.
Proof.
  revert s. induction i as [|i IH]; intros s Hstart.
  - destruct s; cbn [skipn str_in] in *; rewrite Hstart; reflexivity.
  - destruct s as [|c s]; cbn [skipn] in Hstart.
    + cbn [str_in]. rewrite Hstart. reflexivity.
    + cbn [str_in]. rewrite (IH s Hstart). apply orb_true_r.
Qed.

(** No delimiter starts inside [pre] when [pre] followed by two dashes
    holds none. *)
Lemma no_delimiter_inside (pre rest : str) :
  str_in (U "---") (pre ++ U "--") = false ->
  forall i, (i < List.length pre)%nat ->
            starts_with (U "---") (skipn i (pre ++ U "---" ++ rest)) = false.
Proof.
  intros Hnone i Hi.
  destruct (starts_with (U "---") (skipn i (pre ++ U "---" ++ rest))) eqn:Hstart;
    [|reflexivity].
  rewrite <- Hnone. symmetry. apply (str_in_skipn _ _ i).
  rewrite skipn_app in *.
  replace (i - List.length pre)%nat with O in * by lia. cbn [skipn] in *.
  change (U "---" ++ rest) with (U "--" ++ ([45%N] ++ rest)) in Hstart.
  rewrite app_assoc in Hstart.
  rewrite starts_with_app_long in Hstart; [exact Hstart|].
  rewrite length_app, length_skipn.
  change (List.length (U "---")) with 3%nat.
  change (List.length (U "--")) with 2%nat. lia.
Qed.

(** The artifact splits at its two delimiter lines. *)
Lemma artifact_splits (header body tail : str) :
  str_in (U "---") (header ++ U "--") = false ->
  str_in (U "---") (body ++ U "--") = false ->
  split_on_max (U "---") (header ++ U "---" ++ body ++ U "---" ++ tail) 2
  = [header; body; tail].
Proof.
  intros Hheader Hbody. unfold split_on_max.
  rewrite split_on_aux_no_sep by (apply no_delimiter_inside; exact Hheader).
  rewrite split_on_aux_at_sep by discriminate.
  rewrite app_nil_r, rev_involutive. cbn [option_map Nat.pred].
  rewrite split_on_aux_no_sep by (apply no_delimiter_inside; exact Hbody).
  rewrite split_on_aux_at_sep by discriminate.
  rewrite app_nil_r, rev_involutive. cbn [option_map Nat.pred].
  rewrite split_on_aux_exhausted. reflexivity.
Qed.

Lemma lstrip_with_app (p : char -> bool) (s t : str) :
  lstrip_with p (s ++ t)
  = match lstrip_with p s with
    | [] => lstrip_with p t
    | _ :: _ => lstrip_with p s ++ t
    end.
Proof.
  induction s as [|c s IH]; cbn [app lstrip_with].
  - destruct (lstrip_with p t); reflexivity.
  - destruct (p c); [exact IH|reflexivity].
Qed.

Lemma strip_with_cons (p : char -> bool) (c : char) (s : str) :
  p c = true -> strip_with p (c :: s) = strip_with p s.
Proof. intros Hc. unfold strip_with. cbn [lstrip_with]. rewrite Hc. reflexivity. Qed.

Lemma strip_with_snoc (p : char -> bool) (c : char) (s : str) :
  p c = true -> strip_with p (s ++ [c]) = strip_with p s.
Proof.
  intros Hc. unfold strip_with. rewrite lstrip_with_app.
  destruct (lstrip_with p s) as [|d u] eqn:Hs.
  - cbn [lstrip_with]. rewrite Hc. reflexivity.
  - unfold rstrip_with. rewrite rev_app_distr. cbn [rev app lstrip_with].
    rewrite Hc. reflexivity.
Qed.

Lemma strip_artifact_body (content : str) :
  strip (artifact_body content) = strip content.
Proof.
  unfold strip, artifact_body, NL. cbn [app].
  rewrite !strip_with_cons by reflexivity.
  change (content ++ [10%N; 10%N]) with (content ++ [10%N] ++ [10%N]).
  rewrite app_assoc, !strip_with_snoc by reflexivity. reflexivity.
Qed.

(** ** Line ends *)
Lemma universal_newlines_app (a b : str) :
  (forall rest, b <> 10%N :: rest) ->
  universal_newlines (a ++ b) = universal_newlines a ++ universal_newlines b.
Proof.
  intros Hb.
  functional induction (universal_newlines a); cbn [app].
  - reflexivity.
  - rewrite universal_newlines_equation, e0, e2. rewrite IHs. reflexivity.
  - rewrite universal_newlines_equation, e0. cbn [app] in IHs.
    rewrite e2. rewrite IHs. reflexivity.
  - rewrite universal_newlines_equation, e0.
    destruct b as [|c' b'].
    + reflexivity.
    + destruct (c' =? 10)%N eqn:Hc.
      * apply N.eqb_eq in Hc. subst c'. exfalso. apply (Hb b'). reflexivity.
      * reflexivity.
  - rewrite universal_newlines_equation, e0. rewrite IHs. reflexivity.
Qed.

Lemma universal_newlines_dashes (rest : str) :
  universal_newlines (U "---" ++ rest) = U "---" ++ universal_newlines rest.
Proof. reflexivity. Qed.

Lemma universal_newlines_lines (rest : str) :
  universal_newlines (NL ++ NL ++ rest) = NL ++ NL ++ universal_newlines rest.
Proof. reflexivity. Qed.

(** Appending a blank line adds line ends only. *)
Lemma universal_newlines_blank_line (s : str) :
  universal_newlines (s ++ NL ++ NL) = universal_newlines s ++ NL ++ NL
  \/ universal_newlines (s ++ NL ++ NL) = universal_newlines s ++ NL.
Proof.
  functional induction (universal_newlines s); cbn [app].
  - left. reflexivity.
  - rewrite universal_newlines_equation, e0, e2.
    match goal with H : _ \/ _ |- _ => destruct H as [-> | ->] end; [left|right]; reflexivity.
  - rewrite universal_newlines_equation, e0, e2.
    match goal with H : _ \/ _ |- _ => cbn [app] in H end.
    match goal with H : _ \/ _ |- _ => destruct H as [-> | ->] end; [left|right]; reflexivity.
  - right. rewrite universal_newlines_equation, e0. reflexivity.
  - rewrite universal_newlines_equation, e0.
    match goal with H : _ \/ _ |- _ => destruct H as [-> | ->] end; [left|right]; reflexivity.
Qed.

(** A text without line ends starts, and occurs, where it did before the
    translation. *)
Lemma starts_with_universal_newlines (d s t : str) :
  no_line_end d = true ->
  starts_with d (universal_newlines s ++ t) = starts_with d (s ++ t).
Proof.
  revert s. induction d as [|x d IH]; intros s Hd; [reflexivity|].
  cbn [no_line_end forallb] in Hd.
  apply andb_prop in Hd as [Hx Hd]. apply andb_prop in Hx as [Hlf Hcr].
  apply negb_true_iff in Hlf, Hcr.
  destruct s as [|c s]; [reflexivity|].
  rewrite universal_newlines_equation.
  destruct (c =? 13)%N eqn:Hc.
  - apply N.eqb_eq in Hc. subst c.
    assert (forall u, starts_with (x :: d) (10%N :: u) = false) as Hten
      by (intros u; cbn [starts_with]; unfold char_eqb; rewrite Hlf; reflexivity).
    assert (forall u, starts_with (x :: d) (13%N :: u) = false) as Hthirteen
      by (intros u; cbn [starts_with]; unfold char_eqb; rewrite Hcr; reflexivity).
    cbn [app]. rewrite Hthirteen.
    destruct s as [|c' s]; [apply Hten|].
    destruct (c' =? 10)%N; apply Hten.
  - cbn [app starts_with]. rewrite (IH s Hd). reflexivity.
Qed.

Lemma str_in_universal_newlines (d s t : str) :
  no_line_end d = true ->
  str_in d (universal_newlines s ++ t) = str_in d (s ++ t).
Proof.
  intros Hd. destruct d as [|x d]; [rewrite !str_in_empty; reflexivity|].
  assert (forall u, starts_with (x :: d) (10%N :: u) = false) as Hten.
  { intros u. cbn [no_line_end forallb] in Hd.
    apply andb_prop in Hd as [Hx _]. apply andb_prop in Hx as [Hlf _].
    apply negb_true_iff in Hlf.
    cbn [starts_with]. unfold char_eqb. rewrite Hlf. reflexivity. }
  assert (forall u, starts_with (x :: d) (13%N :: u) = false) as Hthirteen.
  { intros u. cbn [no_line_end forallb] in Hd.
    apply andb_prop in Hd as [Hx _]. apply andb_prop in Hx as [_ Hcr].
    apply negb_true_iff in Hcr.
    cbn [starts_with]. unfold char_eqb. rewrite Hcr. reflexivity. }
  functional induction (universal_newlines s).
  - reflexivity.
  - apply N.eqb_eq in e0, e2. subst c c'.
    cbn [app str_in]. rewrite Hten, Hthirteen, Hten. cbn [orb].
    assumption.
  - apply N.eqb_eq in e0. subst c.
    change ((10%N :: universal_newlines (c' :: rest')) ++ t)
      with (10%N :: (universal_newlines (c' :: rest') ++ t)).
    change ((13%N :: c' :: rest') ++ t) with (13%N :: ((c' :: rest') ++ t)).
    cbn [str_in]. rewrite Hten, Hthirteen. cbn [orb]. assumption.
  - apply N.eqb_eq in e0. subst c.
    cbn [app str_in]. rewrite Hten, Hthirteen. reflexivity.
  - change ((c :: universal_newlines rest) ++ t)
      with (c :: (universal_newlines rest ++ t)).
    change ((c :: rest) ++ t) with (c :: (rest ++ t)).
    cbn [str_in].
    match goal with H : str_in _ _ = str_in _ _ |- _ => rewrite H end.
    f_equal.
    pose proof (starts_with_universal_newlines (x :: d) (c :: rest) t Hd) as Hsw.
    rewrite universal_newlines_equation, e0 in Hsw. exact Hsw.
Qed.

(** The artifact as it reads back: the translation goes through its parts,
    as neither delimiter starts with a line feed. *)
Lemma universal_newlines_artifact (header body tail : str) :
  universal_newlines (header ++ U "---" ++ body ++ U "---" ++ tail)
  = universal_newlines header ++ U "---"
    ++ universal_newlines body ++ U "---" ++ universal_newlines tail.
Proof.
  rewrite universal_newlines_app by discriminate.
  rewrite universal_newlines_dashes.
  rewrite universal_newlines_app by discriminate.
  rewrite universal_newlines_dashes. reflexivity.
Qed.

Lemma strip_read_artifact_body (content : str) :
  strip (universal_newlines (artifact_body content))
  = strip (universal_newlines content).
Proof.
  unfold artifact_body. rewrite universal_newlines_lines.
  unfold strip, NL at 1 2. cbn [app].
  rewrite !strip_with_cons by reflexivity.
  destruct (universal_newlines_blank_line content) as [-> | ->]; unfold NL.
  - change (universal_newlines content ++ [10%N] ++ [10%N])
      with (universal_newlines content ++ [10%N] ++ [10%N]).
    rewrite app_assoc, !strip_with_snoc by reflexivity. reflexivity.
  - rewrite strip_with_snoc by reflexivity. reflexivity.
Qed.

(** X21: a stored document is listed with a preview of its own content as
    it reads back.  After a call of [add_document] that returned [True],
    when neither the rendered header (title line, id, time, sizes) nor the
    content runs into a delimiter line of three dashes, the listing has an
    entry for the id whose record is the one just stored and whose preview
    is the content with its line ends translated, as a read in text mode
    does, then trimmed and cut to 500 characters with an ellipsis. *)
Theorem added_document_is_listed_with_preview (E : Env)
        (document_id filename content : str) (metadata : dict value)
        (w w1 : world) (chunks : list str) :
  SimpleDocumentStore._split_text_into_chunks loop_budget content = Some chunks ->
  str_in (U "---")
         (artifact_header filename document_id (isoformat (clock w)) content chunks
          ++ U "--") = false ->
  str_in (U "---") (artifact_body content ++ U "--") = false ->
  SimpleDocumentStore.add_document document_id filename content metadata w
  = (Ok true, w1) ->
  exists listing d,
    SimpleDocumentStore.get_all_documents w1 = (Ok listing, w1)
    /\ In d listing
    /\ listed_id d = document_id
    /\ listed_content d
       = SimpleDocumentStore.clip 500 (strip (universal_newlines content))
    /\ listed_metadata d
       = stored_record document_id filename content metadata chunks
           (isoformat (S (clock w))).
Proof.
  intros Hchunks Hheader Hbody Hadd.
  destruct (add_document_succeeded E _ _ _ _ _ _ Hadd)
    as (chunks' & Hchunks' & _ & Hindex & Hdisk & _).
  assert (chunks' = chunks) as -> by congruence.
  set (record := stored_record document_id filename content metadata chunks
                   (isoformat (S (clock w)))) in *.
  assert (dict_get (disk w1) (markdown_file record)
          = Some (Readable
                    (universal_newlines
                       (artifact filename document_id (isoformat (clock w))
                                 content chunks)))) as Hfile
    by (rewrite Hdisk; apply dict_get_set_same).
  eexists. eexists.
  split; [apply get_all_documents_run|].
  split.
  - apply in_flat_map. exists (document_id, record). split.
    + apply dict_get_In. rewrite Hindex. apply dict_get_set_same.
    + rewrite listed_shape. unfold unreadable. rewrite Hfile.
      left. reflexivity.
  - cbn [listed_id listed_content listed_metadata].
    split; [reflexivity|]. split; [|reflexivity].
    unfold artifact. rewrite universal_newlines_artifact.
    rewrite artifact_splits
      by (rewrite str_in_universal_newlines by reflexivity; assumption).
    cbv zeta. cbn [nth].
    match goal with |- context [len ?l >? 2] =>
      replace (len l >? 2) with true by reflexivity end.
    rewrite strip_read_artifact_body. reflexivity.
Qed.

Lemma added_document_is_listed_with_preview_witness :
  exists listing d,
    SimpleDocumentStore.get_all_documents
      (snd (@SimpleDocumentStore.add_document demo_env (U "d6") (U "d6.txt")
              ([32; 97; 13; 98; 32; 102; 111; 120; 13; 10; 99; 32]%N) [] library))
    = (Ok listing,
       snd (@SimpleDocumentStore.add_document demo_env (U "d6") (U "d6.txt")
              ([32; 97; 13; 98; 32; 102; 111; 120; 13; 10; 99; 32]%N) [] library))
    /\ In d listing
    /\ listed_id d = U "d6"
    /\ listed_content d = [97; 10; 98; 32; 102; 111; 120; 10; 99]%N.
Proof.
  destruct (added_document_is_listed_with_preview demo_env (U "d6") (U "d6.txt")
              ([32; 97; 13; 98; 32; 102; 111; 120; 13; 10; 99; 32]%N) [] library
              (snd (@SimpleDocumentStore.add_document demo_env (U "d6") (U "d6.txt")
                      ([32; 97; 13; 98; 32; 102; 111; 120; 13; 10; 99; 32]%N)
                      [] library))
              [[32; 97; 13; 98; 32; 102; 111; 120; 13; 10; 99; 32]%N])
    as (listing & d & Hlist & Hin & Hid & Hpreview & _).
  - vm_compute. reflexivity.
  - vm_compute. reflexivity.
  - vm_compute. reflexivity.
  - vm_compute. reflexivity.
  - exists listing, d.
    split; [exact Hlist|]. split; [exact Hin|].
    split; [exact Hid|]. rewrite Hpreview. vm_compute. reflexivity.
Defined.

(** A content with a line of three dashes: the preview stops in front of
    it, as the listing takes the text between the first two delimiters. *)
Example preview_stops_at_dashes :
  match @SimpleDocumentStore.add_document demo_env (U "d6") (U "d6.txt")
          (U "first part" ++ NL ++ U "---" ++ NL ++ U "second part") [] library
  with
  | (Ok true, w1) =>
      match SimpleDocumentStore.get_all_documents w1 with
      | (Ok listing, _) =>
          map listed_content
              (filter (fun d => str_eqb (listed_id d) (U "d6")) listing)
          = [U "first part"]
      | _ => False
      end
  | _ => False
  end.
Proof. vm_compute. reflexivity. Qed.
